(** * frbpoppy: the survey population (frbpoppy/survey_pop.py)

    A shallow embedding of [SurveyPopulation] and of [fast_where], and the
    properties of the detection pipeline proved (or refuted) on it.

    Conventions of the embedding.
    - A NumPy float is a [float]: NaN, the two infinities, or an exact
      rational.  Rounding, overflow and the sign of zero are not modelled;
      comparisons and the propagation of NaN are.
    - Python numbers held by the rate counters are rationals ([Q]); an
      integer count [n] is [inject_Z n].
    - A 1-D array is a [list]; a 2-D array is the list of its rows.
    - The length of an [np.arange] over floats depends on the rounding of
      a quotient: it is a parameter of the embedding.
    - The repeater path is embedded for populations whose widths and peak
      fluxes are per burst (2-D) and whose system temperatures are per
      source (1-D); the other ranks the code dispatches on are outside
      the embedding.
    - Exceptions are values of [result]. *)

From Stdlib Require Import String.
From Stdlib Require Import List Bool Arith ZArith QArith Qround Lia Lqa.
From Stdlib Require Import Sorted Permutation.
Import ListNotations.

Set Implicit Arguments.

(** ** Exceptions *)

Inductive exn : Type :=
| ValueError (msg : string)
| IndexError
| ZeroDivisionError
| AttributeError
| TypeError.

Inductive result (A : Type) : Type :=
| Ok (a : A)
| Raise (e : exn).

Arguments Ok {A} a.
Arguments Raise {A} e.

Definition bind {A B : Type} (r : result A) (k : A -> result B) : result B :=
  match r with
  | Ok a => k a
  | Raise e => Raise e
  end.

Declare Scope result_scope.
Delimit Scope result_scope with result.
Notation "x <- r ;; k" := (bind r (fun x => k))
  (at level 61, r at next level, right associativity) : result_scope.
Open Scope result_scope.

(** ** NumPy floats *)

Inductive float : Type :=
| NaN
| NInf
| Fin (q : Q)
| PInf.

Definition isnan (x : float) : bool :=
  match x with NaN => true | _ => false end.

(** [a < b]: false as soon as one side is NaN. *)
Definition flt (a b : float) : bool :=
  match a, b with
  | NaN, _ | _, NaN => false
  | NInf, NInf => false
  | NInf, _ => true
  | Fin _, NInf => false
  | Fin x, Fin y => negb (Qle_bool y x)
  | Fin _, PInf => true
  | PInf, _ => false
  end.

(** [a <= b]: false as soon as one side is NaN. *)
Definition fle (a b : float) : bool :=
  match a, b with
  | NaN, _ | _, NaN => false
  | NInf, _ => true
  | Fin _, NInf => false
  | Fin x, Fin y => Qle_bool x y
  | Fin _, PInf => true
  | PInf, PInf => true
  | PInf, _ => false
  end.

Definition fgt (a b : float) : bool := flt b a.
Definition fge (a b : float) : bool := fle b a.

(** [a == b]: false as soon as one side is NaN. *)
Definition feq (a b : float) : bool :=
  match a, b with
  | NInf, NInf | PInf, PInf => true
  | Fin x, Fin y => Qeq_bool x y
  | _, _ => false
  end.

Definition Qsign (q : Q) : comparison := Qcompare q 0.

Definition fadd (a b : float) : float :=
  match a, b with
  | NaN, _ | _, NaN => NaN
  | PInf, NInf | NInf, PInf => NaN
  | PInf, _ | _, PInf => PInf
  | NInf, _ | _, NInf => NInf
  | Fin x, Fin y => Fin (x + y)
  end.

(** An infinity scaled by a finite number. *)
Definition scale_inf (pos : bool) (q : Q) : float :=
  match Qsign q with
  | Eq => NaN
  | Gt => if pos then PInf else NInf
  | Lt => if pos then NInf else PInf
  end.

Definition fmul (a b : float) : float :=
  match a, b with
  | NaN, _ | _, NaN => NaN
  | Fin x, Fin y => Fin (x * y)
  | PInf, PInf | NInf, NInf => PInf
  | PInf, NInf | NInf, PInf => NInf
  | PInf, Fin y => scale_inf true y
  | NInf, Fin y => scale_inf false y
  | Fin x, PInf => scale_inf true x
  | Fin x, NInf => scale_inf false x
  end.

(** Division; a finite number over zero is an infinity of its sign and
    [0/0] is NaN (NumPy warns, the warnings are silenced at line 33). *)
Definition fdiv (a b : float) : float :=
  match a, b with
  | NaN, _ | _, NaN => NaN
  | Fin x, Fin y =>
      if Qeq_bool y 0 then
        match Qsign x with Eq => NaN | Gt => PInf | Lt => NInf end
      else Fin (x / y)
  | Fin _, (PInf | NInf) => Fin 0
  | (PInf | NInf), (PInf | NInf) => NaN
  | PInf, Fin y => if Qle_bool 0 y then PInf else NInf
  | NInf, Fin y => if Qle_bool 0 y then NInf else PInf
  end.

(** The order NumPy sorts and searches floats with: NaN is larger than
    every number ([a < b || (b != b && a == a)]). *)
Definition np_lt (a b : float) : bool :=
  flt a b || (isnan b && negb (isnan a)).

(** ** NumPy array helpers *)

Definition matrix (A : Type) : Type := list (list A).

(** [a.size] of a 2-D array. *)
Definition size2 {A : Type} (m : matrix A) : nat := length (concat m).

(** [a[mask]] with a boolean mask. *)
Fixpoint bmask {A : Type} (l : list A) (mask : list bool) : list A :=
  match l, mask with
  | x :: l', b :: mask' => if b then x :: bmask l' mask' else bmask l' mask'
  | _, _ => []
  end.

(** [np.count_nonzero] of a boolean array. *)
Definition count_nonzero (mask : list bool) : nat :=
  length (filter (fun b => b) mask).

(** [np.sum] of an integer array. *)
Definition np_sum (l : list nat) : nat := fold_right Nat.add 0%nat l.

(** [np.repeat(vals, counts)]. *)
Fixpoint np_repeat {A : Type} (vals : list A) (counts : list nat) : list A :=
  match vals, counts with
  | v :: vals', c :: counts' => repeat v c ++ np_repeat vals' counts'
  | _, _ => []
  end.

(** [np.cumsum]. *)
Fixpoint cumsum_from (acc : nat) (l : list nat) : list nat :=
  match l with
  | [] => []
  | x :: l' => (acc + x)%nat :: cumsum_from (acc + x) l'
  end.

Definition np_cumsum (l : list nat) : list nat := cumsum_from 0 l.

(** [np.arange(lo, hi)] on integers. *)
Definition arange_nat (lo hi : nat) : list nat := seq lo (hi - lo).

(** [l[s:e] = vals], for [vals] of the length of the slice. *)
Definition set_slice {A : Type} (l : list A) (s e : nat) (vals : list A)
  : list A :=
  firstn s l ++ vals ++ skipn e l.

(** [a[ix]] with an integer index array; the default stands for an index
    that NumPy would refuse. *)
Definition gather {A : Type} (d : A) (l : list A) (ix : list nat) : list A :=
  map (fun i => nth i l d) ix.

(** [enumerate]. *)
Definition enumerate {A : Type} (l : list A) : list (nat * A) :=
  combine (seq 0 (length l)) l.

(** [np.where(mask)[0]] of a 1-D boolean array. *)
Definition where1 (mask : list bool) : list nat :=
  map fst (filter snd (enumerate mask)).

(** [np.where(mask)] of a 2-D boolean array: row and column indices, in
    row-major order. *)
Definition where2 (mask : matrix bool) : list nat * list nat :=
  let hits :=
    flat_map (fun '(r, row) => map (fun c => (r, c)) (where1 row))
             (enumerate mask) in
  (map fst hits, map snd hits).

(** [np.searchsorted(a, v)] with the default [side='left']: the insertion
    point [i] with [a[i-1] < v <= a[i]] in the order [np_lt]. *)
Fixpoint searchsorted (a : list float) (v : float) : nat :=
  match a with
  | [] => 0
  | x :: a' => if np_lt x v then S (searchsorted a' v) else 0
  end.

(** [np.apply_along_axis(f, 1, a, v)]: [f] on every row.  NumPy refuses an
    array without rows ("Cannot apply_along_axis when any iteration
    dimensions are 0"). *)
Definition apply_along_axis1 {A B : Type} (f : list A -> B) (a : matrix A)
  : result (list B) :=
  match a with
  | [] => Raise (ValueError
            "Cannot apply_along_axis when any iteration dimensions are 0"%string)
  | _ => Ok (map f a)
  end.

(** ** fast_where (survey_pop.py, lines 389-402) *)

(** The loop of lines 399-401, on the list [enumerate(cum_bursts[1:])]. *)
Fixpoint fill_cols (left right unique_rows cum_bursts : list nat)
         (todo : list (nat * nat)) (cols : list nat) : list nat :=
  match todo with
  | [] => cols
  | (i, e) :: todo' =>
      let u := nth i unique_rows 0%nat in
      fill_cols left right unique_rows cum_bursts todo'
        (set_slice cols (nth i cum_bursts 0%nat) e
           (arange_nat (nth u left 0%nat) (nth u right 0%nat)))
  end.

Definition fast_where (a : matrix float) (min_v max_v : float)
  : result (list nat * list nat) :=
  left <- apply_along_axis1 (fun row => searchsorted row min_v) a ;;
  right <- apply_along_axis1 (fun row => searchsorted row max_v) a ;;
  let unique_rows := where1 (map (fun '(l, r) => l <=? r) (combine left right)) in
  let bursts_per_row :=
    map (fun u => nth u right 0 - nth u left 0)%nat unique_rows in
  let rows := np_repeat unique_rows bursts_per_row in
  let cols := repeat 0%nat (np_sum bursts_per_row) in
  let cum_bursts := 0%nat :: np_cumsum bursts_per_row in
  let cols := fill_cols left right unique_rows cum_bursts
                (enumerate (tl cum_bursts)) cols in
  Ok (rows, cols).

(** The mask the docstring of [fast_where] names:
    [np.where((a >= min_v) & (a <= max_v))]. *)
Definition closed_mask (a : matrix float) (min_v max_v : float) : matrix bool :=
  map (map (fun x => fge x min_v && fle x max_v)) a.

Definition brute_force_where (a : matrix float) (min_v max_v : float)
  : list nat * list nat :=
  where2 (closed_mask a min_v max_v).

(** The mask [fast_where] realises on sorted rows:
    [np.where((a >= min_v) & (a < max_v))]. *)
Definition half_open_mask (a : matrix float) (min_v max_v : float)
  : matrix bool :=
  map (map (fun x => fge x min_v && flt x max_v)) a.


(** ** More array helpers *)

(** Element-wise application with NumPy's pairing of equal shapes. *)
Fixpoint map2 {A B C : Type} (f : A -> B -> C) (l1 : list A) (l2 : list B)
  : list C :=
  match l1, l2 with
  | x :: l1', y :: l2' => f x y :: map2 f l1' l2'
  | _, _ => []
  end.

Definition qn (n : nat) : Q := inject_Z (Z.of_nat n).

(** [np.count_nonzero(~np.isnan(m), 1)]. *)
Definition count_not_nan (row : list float) : nat :=
  count_nonzero (map (fun x => negb (isnan x)) row).

(** Insertion in a strictly ascending list: the step of [np.unique]. *)
Fixpoint insert_unique (x : nat) (l : list nat) : list nat :=
  match l with
  | [] => [x]
  | y :: l' =>
      if x <? y then x :: y :: l'
      else if x =? y then y :: l'
      else y :: insert_unique x l'
  end.

(** [np.unique]: the sorted distinct values. *)
Definition np_unique (l : list nat) : list nat :=
  fold_right insert_unique [] l.

(** [np.unique(l, return_counts=True)]. *)
Definition np_unique_counts (l : list nat) : list nat * list nat :=
  let u := np_unique l in
  (u, map (fun x => count_occ Nat.eq_dec l x) u).

(** [flags[ix] = False] on a 1-D boolean array. *)
Fixpoint set_false_at (flags : list bool) (i : nat) : list bool :=
  match flags, i with
  | [], _ => []
  | _ :: flags', O => false :: flags'
  | b :: flags', S i' => b :: set_false_at flags' i'
  end.

Definition clear_flags (flags : list bool) (ix : list nat) : list bool :=
  fold_left set_false_at ix flags.

(** [m[r, c]] and [m[r, c] = v] on a 2-D array. *)
Definition get2 {A : Type} (d : A) (m : matrix A) (rc : nat * nat) : A :=
  nth (snd rc) (nth (fst rc) m []) d.

Fixpoint set_nth {A : Type} (l : list A) (i : nat) (v : A) : list A :=
  match l, i with
  | [], _ => []
  | _ :: l', O => v :: l'
  | x :: l', S i' => x :: set_nth l' i' v
  end.

Definition set2 {A : Type} (m : matrix A) (rc : nat * nat) (v : A) : matrix A :=
  set_nth m (fst rc) (set_nth (nth (fst rc) m []) (snd rc) v).

(** [m[(rows, cols)]] with two integer index arrays. *)
Definition gather2 {A : Type} (d : A) (m : matrix A) (ix : list (nat * nat))
  : list A :=
  map (get2 d m) ix.

(** [m[(rows, cols)] = vals], written in index order. *)
Fixpoint scatter2 {A : Type} (m : matrix A) (ix : list (nat * nat))
         (vals : list A) : matrix A :=
  match ix, vals with
  | rc :: ix', v :: vals' => scatter2 (set2 m rc v) ix' vals'
  | _, _ => m
  end.

(** [m[(rows, cols)] = v] with one value for every index. *)
Definition scatter2_const {A : Type} (m : matrix A) (ix : list (nat * nat))
           (v : A) : matrix A :=
  fold_left (fun m rc => set2 m rc v) ix m.

(** [np.full_like(m, v)] and [np.zeros_like(m, dtype=bool)]. *)
Definition full_like {A B : Type} (m : matrix A) (v : B) : matrix B :=
  map (map (fun _ => v)) m.

(** [np.arange(start, stop, step)] on floats: the numbers
    [start + k * step] for [k < n].  NumPy takes the length
    [n = ceil((stop - start) / step)] in double precision, and the exact
    quotient does not determine the rounded one (for [stop = 1 + 1/24] and
    [step = 1/24] the exact ceiling is 25 and NumPy finds 26).  Rounding is
    not modelled, so the length is the argument [n].  With a zero step the
    quotient is a division by zero. *)
Definition np_arange (n : nat) (start stop step : Q) : result (list Q) :=
  if Qeq_bool step 0 then Raise ZeroDivisionError
  else Ok (map (fun k => start + qn k * step) (seq 0 n)).

(** [x % m] on Python floats: the remainder has the sign of [m]. *)
Definition Qmod (x m : Q) : Q := x - m * inject_Z (Qfloor (x / m)).

(** [i % n] on a NumPy integer: a zero divisor gives [0] and a warning. *)
Definition np_mod (i n : nat) : nat :=
  if (n =? 0)%nat then 0%nat else (i mod n)%nat.

(** [l[i]], which Python refuses out of range. *)
Definition index_at {A : Type} (l : list A) (i : nat) : result A :=
  match nth_error l i with
  | Some x => Ok x
  | None => Raise IndexError
  end.

(** ** The rate counters *)

(** Modelled from the spec: the class [Rates] of frbpoppy/rates.py is not
    among the sources.  Its attributes are the ones survey_pop.py reads and
    writes; the spec names them total, out_of_region, too_late, too_faint,
    out_of_pointing, detected, day_count, volume_fraction and
    area_scaling_factor. *)
Record Rates : Type := mkRates {
  object_type : string;
  det : Q;
  faint : Q;
  late : Q;
  out : Q;
  pointing : Q;
  vol : Q;
  days : Q;
  name : string;
  tot : Q;
  f_area : Q
}.

(** Modelled from the spec: [Rates(object_type)] starts every counter at
    zero (survey_pop.py increments them with [+=]) and the area-scaling
    factor at 1, which scales nothing. *)
Definition Rates_new (object_type : string) : Rates :=
  mkRates object_type 0 0 0 0 0 0 0 EmptyString 0 1.

Definition set_det (r : Rates) (v : Q) : Rates :=
  mkRates (object_type r) v (faint r) (late r) (out r) (pointing r) (vol r)
    (days r) (name r) (tot r) (f_area r).

Definition set_faint (r : Rates) (v : Q) : Rates :=
  mkRates (object_type r) (det r) v (late r) (out r) (pointing r) (vol r)
    (days r) (name r) (tot r) (f_area r).

Definition set_late (r : Rates) (v : Q) : Rates :=
  mkRates (object_type r) (det r) (faint r) v (out r) (pointing r) (vol r)
    (days r) (name r) (tot r) (f_area r).

Definition set_out (r : Rates) (v : Q) : Rates :=
  mkRates (object_type r) (det r) (faint r) (late r) v (pointing r) (vol r)
    (days r) (name r) (tot r) (f_area r).

Definition set_pointing (r : Rates) (v : Q) : Rates :=
  mkRates (object_type r) (det r) (faint r) (late r) (out r) v (vol r)
    (days r) (name r) (tot r) (f_area r).

Definition set_vol (r : Rates) (v : Q) : Rates :=
  mkRates (object_type r) (det r) (faint r) (late r) (out r) (pointing r) v
    (days r) (name r) (tot r) (f_area r).

Definition set_days (r : Rates) (v : Q) : Rates :=
  mkRates (object_type r) (det r) (faint r) (late r) (out r) (pointing r)
    (vol r) v (name r) (tot r) (f_area r).

Definition set_name (r : Rates) (v : string) : Rates :=
  mkRates (object_type r) (det r) (faint r) (late r) (out r) (pointing r)
    (vol r) (days r) v (tot r) (f_area r).

Definition set_tot (r : Rates) (v : Q) : Rates :=
  mkRates (object_type r) (det r) (faint r) (late r) (out r) (pointing r)
    (vol r) (days r) (name r) v (f_area r).

Definition set_f_area (r : Rates) (v : Q) : Rates :=
  mkRates (object_type r) (det r) (faint r) (late r) (out r) (pointing r)
    (vol r) (days r) (name r) (tot r) v.


(** ** The frame of sources *)

(** The type of one source's entry in a burst-dimensional column: a number
    for one-off populations, the row of its bursts for repeaters.  The
    embedding of the repeater path follows the configuration in which the
    widths, the peak flux, the fluence and the SNR are per burst
    ([ndim == 2]) and the system temperature per source ([ndim == 1]). *)
Definition burst_t (rep : bool) : Type := if rep then list float else float.

Definition xmap (rep : bool) (f : float -> float)
  : burst_t rep -> burst_t rep :=
  match rep with
  | true => map f
  | false => f
  end.

Definition xmap2 (rep : bool) (f : float -> float -> float)
  : burst_t rep -> burst_t rep -> burst_t rep :=
  match rep with
  | true => map2 f
  | false => f
  end.

(** Modelled from the spec: the class [Frbs] (frbpoppy/frbs.py) is not
    among the sources.  These are the attributes survey_pop.py uses, which
    the spec lists for the frame of sources, column by column.  [ra] is
    [None] until the population is generated; [t_scat] is [None] until
    scattering is computed. *)
Record Frbs (rep : bool) : Type := mkFrbs {
  index : list nat;
  ra : option (list float);
  dec : list float;
  gl : list float;
  gb : list float;
  dm : list float;
  z : list float;
  dist_co : list float;
  si : list float;
  lum_bol : list float;
  w_arr : list (burst_t rep);
  time : matrix float;
  t_dm : list float;
  t_scat : option (list float);
  T_sky : list float;
  T_sys : list float;
  w_eff : list (burst_t rep);
  s_peak : list (burst_t rep);
  fluence : list (burst_t rep);
  snr : list (burst_t rep);
  offset : list float
}.

Arguments mkFrbs {rep}.

Definition set_time {rep : bool} (f : Frbs rep) (v : matrix float) : Frbs rep :=
  mkFrbs (index f) (ra f) (dec f) (gl f) (gb f) (dm f) (z f) (dist_co f)
    (si f) (lum_bol f) (w_arr f) v (t_dm f) (t_scat f) (T_sky f) (T_sys f)
    (w_eff f) (s_peak f) (fluence f) (snr f) (offset f).

Definition set_t_dm {rep : bool} (f : Frbs rep) (v : list float) : Frbs rep :=
  mkFrbs (index f) (ra f) (dec f) (gl f) (gb f) (dm f) (z f) (dist_co f)
    (si f) (lum_bol f) (w_arr f) (time f) v (t_scat f) (T_sky f) (T_sys f)
    (w_eff f) (s_peak f) (fluence f) (snr f) (offset f).

Definition set_t_scat {rep : bool} (f : Frbs rep)
           (v : option (list float)) : Frbs rep :=
  mkFrbs (index f) (ra f) (dec f) (gl f) (gb f) (dm f) (z f) (dist_co f)
    (si f) (lum_bol f) (w_arr f) (time f) (t_dm f) v (T_sky f) (T_sys f)
    (w_eff f) (s_peak f) (fluence f) (snr f) (offset f).

Definition set_T_sky {rep : bool} (f : Frbs rep) (v : list float) : Frbs rep :=
  mkFrbs (index f) (ra f) (dec f) (gl f) (gb f) (dm f) (z f) (dist_co f)
    (si f) (lum_bol f) (w_arr f) (time f) (t_dm f) (t_scat f) v (T_sys f)
    (w_eff f) (s_peak f) (fluence f) (snr f) (offset f).

Definition set_T_sys {rep : bool} (f : Frbs rep) (v : list float) : Frbs rep :=
  mkFrbs (index f) (ra f) (dec f) (gl f) (gb f) (dm f) (z f) (dist_co f)
    (si f) (lum_bol f) (w_arr f) (time f) (t_dm f) (t_scat f) (T_sky f) v
    (w_eff f) (s_peak f) (fluence f) (snr f) (offset f).

Definition set_w_eff {rep : bool} (f : Frbs rep)
           (v : list (burst_t rep)) : Frbs rep :=
  mkFrbs (index f) (ra f) (dec f) (gl f) (gb f) (dm f) (z f) (dist_co f)
    (si f) (lum_bol f) (w_arr f) (time f) (t_dm f) (t_scat f) (T_sky f)
    (T_sys f) v (s_peak f) (fluence f) (snr f) (offset f).

Definition set_s_peak {rep : bool} (f : Frbs rep)
           (v : list (burst_t rep)) : Frbs rep :=
  mkFrbs (index f) (ra f) (dec f) (gl f) (gb f) (dm f) (z f) (dist_co f)
    (si f) (lum_bol f) (w_arr f) (time f) (t_dm f) (t_scat f) (T_sky f)
    (T_sys f) (w_eff f) v (fluence f) (snr f) (offset f).

Definition set_fluence {rep : bool} (f : Frbs rep)
           (v : list (burst_t rep)) : Frbs rep :=
  mkFrbs (index f) (ra f) (dec f) (gl f) (gb f) (dm f) (z f) (dist_co f)
    (si f) (lum_bol f) (w_arr f) (time f) (t_dm f) (t_scat f) (T_sky f)
    (T_sys f) (w_eff f) (s_peak f) v (snr f) (offset f).

Definition set_snr {rep : bool} (f : Frbs rep)
           (v : list (burst_t rep)) : Frbs rep :=
  mkFrbs (index f) (ra f) (dec f) (gl f) (gb f) (dm f) (z f) (dist_co f)
    (si f) (lum_bol f) (w_arr f) (time f) (t_dm f) (t_scat f) (T_sky f)
    (T_sys f) (w_eff f) (s_peak f) (fluence f) v (offset f).

Definition set_offset {rep : bool} (f : Frbs rep) (v : list float) : Frbs rep :=
  mkFrbs (index f) (ra f) (dec f) (gl f) (gb f) (dm f) (z f) (dist_co f)
    (si f) (lum_bol f) (w_arr f) (time f) (t_dm f) (t_scat f) (T_sky f)
    (T_sys f) (w_eff f) (s_peak f) (fluence f) (snr f) v.

(** Modelled from the spec: [Frbs.apply] (frbpoppy/frbs.py is not among the
    sources).  A per-source mask removes the rows it rejects from every
    column. *)
Definition apply1 {rep : bool} (f : Frbs rep) (mask : list bool) : Frbs rep :=
  let sel {A : Type} (l : list A) := bmask l mask in
  mkFrbs (sel (index f)) (option_map sel (ra f)) (sel (dec f)) (sel (gl f))
    (sel (gb f)) (sel (dm f)) (sel (z f)) (sel (dist_co f)) (sel (si f))
    (sel (lum_bol f)) (sel (w_arr f)) (sel (time f)) (sel (t_dm f))
    (option_map sel (t_scat f)) (sel (T_sky f)) (sel (T_sys f)) (sel (w_eff f))
    (sel (s_peak f)) (sel (fluence f)) (sel (snr f)) (sel (offset f)).

(** The cells of a row that a per-burst mask rejects become NaN. *)
Definition nan_cells (row : list float) (mask_row : list bool) : list float :=
  map2 (fun x (b : bool) => if b then x else NaN) row mask_row.

(** [mask.any(axis=1)]. *)
Definition any_row (mask : matrix bool) : list bool :=
  map (existsb (fun b => b)) mask.

(** Modelled from the spec: [Frbs.apply] with a per-burst mask.  The cells
    the mask rejects are invalidated to NaN in the per-burst columns, and
    the sources left without any cell are removed from every column. *)
Definition apply2 (f : Frbs true) (mask : matrix bool) : Frbs true :=
  let keep := any_row mask in
  let sel {A : Type} (l : list A) := bmask l keep in
  let sel2 (m : matrix float) := bmask (map2 nan_cells m mask) keep in
  @mkFrbs true (sel (index f)) (option_map sel (ra f)) (sel (dec f))
    (sel (gl f)) (sel (gb f)) (sel (dm f)) (sel (z f)) (sel (dist_co f))
    (sel (si f)) (sel (lum_bol f)) (sel2 (w_arr f)) (sel2 (time f))
    (sel (t_dm f))
    (option_map sel (t_scat f)) (sel (T_sky f)) (sel (T_sys f))
    (sel2 (w_eff f)) (sel2 (s_peak f)) (sel2 (fluence f)) (sel2 (snr f))
    (sel (offset f)).

(** ** The survey and the populations *)

(** Modelled from the spec: the class [Survey] (frbpoppy/survey.py) is not
    among the sources.  This is the survey as survey_pop.py consumes it and
    as the spec describes it: its configuration and its element-wise
    physical formulas.  The random quantities are functions of the position
    of the source in the frame. *)
Record Survey : Type := mkSurvey {
  survey_name : string;
  survey_n_days : option Q;
  t_obs : Q;
  snr_limit : float;
  beam_size : Q;
  n_pointings : nat;
  (** [survey.pointings] once [gen_pointings()] has run *)
  pointings : list float * list float;
  in_region : float -> float -> float -> float -> bool;
  calc_dm_smear : float -> float;
  calc_scat : float -> float;
  calc_Ts : float -> float -> float * float;
  calc_w_eff : float -> float -> option float -> float;
  calc_s_peak :
    float -> float -> float -> float -> float -> float -> float -> float -> float;
  (** [calc_beam(shape=...)]: intensity and offset drawn for source [k] *)
  calc_beam : nat -> float * float;
  (** [calc_beam(repeaters=True, ra, dec, ra_p, dec_p, lst)]: intensity *)
  calc_beam_rep : float -> float -> float -> float -> float -> float;
  calc_fluence : float -> float -> float;
  calc_snr : float -> float -> float -> float;
  (** [calc_scint(t_scat, dist_co, gl, gb, snr)] for source [k] *)
  calc_scint : nat -> float -> float -> float -> float -> float -> float
}.

Definition set_survey_n_days (s : Survey) (v : option Q) : Survey :=
  mkSurvey (survey_name s) v (t_obs s) (snr_limit s) (beam_size s)
    (n_pointings s) (pointings s) (in_region s) (calc_dm_smear s)
    (calc_scat s) (calc_Ts s) (calc_w_eff s) (calc_s_peak s) (calc_beam s)
    (calc_beam_rep s) (calc_fluence s) (calc_snr s) (calc_scint s).

(** Modelled from the spec: the class [Population]
    (frbpoppy/population.py) is not among the sources.  These are the
    attributes the constructor reads; the flag [repeaters] is the index
    [rep] of the type. *)
Record Population (rep : bool) : Type := mkPopulation {
  pop_name : string;
  pop_vol_co_max : Q;
  pop_n_days : Q;
  pop_frbs : Frbs rep;
  n_srcs : Z;
  f_min : float;
  f_max : float
}.

(** The first argument of the constructor: a population, or an object
    without the attribute [frbs] (the survey, when the arguments are
    swapped). *)
Inductive py_arg (rep : bool) : Type :=
| APopulation (p : Population rep)
| NotAPopulation.

Arguments NotAPopulation {rep}.

(** The state of NumPy's random generator, as the draws it will give. *)
Record Rng : Type := mkRng {
  (** the [k]-th number of [np.random.random(n)] *)
  random_draw : nat -> float;
  (** [np.random.uniform(0, 360)] *)
  lst_offset : Q
}.

(** An attribute that only repeater populations carry. *)
Definition when (rep : bool) (A : Type) : Type := if rep then A else unit.

Record SurveyPopulation (rep : bool) : Type := mkSurveyPopulation {
  sp_name : string;
  vol_co_max : Q;
  n_days : Q;
  frbs : Frbs rep;
  source_rate : Rates;
  burst_rate : when rep Rates;
  scat : bool;
  scin : bool;
  survey : option Survey;
  scale_by_area : bool;
  n_brst_pr_src : when rep (list nat);
  srcs_not_in_pointing : list bool;
  srcs_not_bright : list bool
}.

Arguments mkSurveyPopulation {rep}.

Definition set_frbs {rep : bool} (s : SurveyPopulation rep) (v : Frbs rep)
  : SurveyPopulation rep :=
  mkSurveyPopulation (sp_name s) (vol_co_max s) (n_days s) v (source_rate s)
    (burst_rate s) (scat s) (scin s) (survey s) (scale_by_area s)
    (n_brst_pr_src s) (srcs_not_in_pointing s) (srcs_not_bright s).

Definition set_source_rate {rep : bool} (s : SurveyPopulation rep) (v : Rates)
  : SurveyPopulation rep :=
  mkSurveyPopulation (sp_name s) (vol_co_max s) (n_days s) (frbs s) v
    (burst_rate s) (scat s) (scin s) (survey s) (scale_by_area s)
    (n_brst_pr_src s) (srcs_not_in_pointing s) (srcs_not_bright s).

Definition set_burst_rate {rep : bool} (s : SurveyPopulation rep)
           (v : when rep Rates) : SurveyPopulation rep :=
  mkSurveyPopulation (sp_name s) (vol_co_max s) (n_days s) (frbs s)
    (source_rate s) v (scat s) (scin s) (survey s) (scale_by_area s)
    (n_brst_pr_src s) (srcs_not_in_pointing s) (srcs_not_bright s).

Definition set_survey {rep : bool} (s : SurveyPopulation rep)
           (v : option Survey) : SurveyPopulation rep :=
  mkSurveyPopulation (sp_name s) (vol_co_max s) (n_days s) (frbs s)
    (source_rate s) (burst_rate s) (scat s) (scin s) v (scale_by_area s)
    (n_brst_pr_src s) (srcs_not_in_pointing s) (srcs_not_bright s).

Definition set_n_brst_pr_src {rep : bool} (s : SurveyPopulation rep)
           (v : when rep (list nat)) : SurveyPopulation rep :=
  mkSurveyPopulation (sp_name s) (vol_co_max s) (n_days s) (frbs s)
    (source_rate s) (burst_rate s) (scat s) (scin s) (survey s)
    (scale_by_area s) v (srcs_not_in_pointing s) (srcs_not_bright s).

Definition set_srcs_not_in_pointing {rep : bool} (s : SurveyPopulation rep)
           (v : list bool) : SurveyPopulation rep :=
  mkSurveyPopulation (sp_name s) (vol_co_max s) (n_days s) (frbs s)
    (source_rate s) (burst_rate s) (scat s) (scin s) (survey s)
    (scale_by_area s) (n_brst_pr_src s) v (srcs_not_bright s).

Definition set_srcs_not_bright {rep : bool} (s : SurveyPopulation rep)
           (v : list bool) : SurveyPopulation rep :=
  mkSurveyPopulation (sp_name s) (vol_co_max s) (n_days s) (frbs s)
    (source_rate s) (burst_rate s) (scat s) (scin s) (survey s)
    (scale_by_area s) (n_brst_pr_src s) (srcs_not_in_pointing s) v.

(** ** The detection pipeline *)

Definition map3 {A B C D : Type} (f : A -> B -> C -> D)
           (l1 : list A) (l2 : list B) (l3 : list C) : list D :=
  map2 (fun x yz => f x (fst yz) (snd yz)) l1 (combine l2 l3).

Definition Qlt_bool (a b : Q) : bool := negb (Qle_bool b a).

(** [a / b] on Python numbers. *)
Definition py_div (a b : Q) : result Q :=
  if Qeq_bool b 0 then Raise ZeroDivisionError else Ok (a / b).

(** [np.pi], the double nearest to pi. *)
Definition np_pi : Q := 884279719003555 # 281474976710656.

(** [l[-1]]. *)
Definition index_last {A : Type} (l : list A) : result A :=
  match rev l with
  | x :: _ => Ok x
  | [] => Raise IndexError
  end.

(** [np.sum] of an integer array that may hold negative entries. *)
Definition np_sumZ (l : list Z) : Z := fold_right Z.add 0%Z l.

(** [t_scat], source by source, for the formulas that accept [None]. *)
Definition opt_col (t_scat : option (list float)) (like : list float)
  : list (option float) :=
  match t_scat with
  | Some l => map Some l
  | None => map (fun _ => None) like
  end.

Definition ra_arr {rep : bool} (f : Frbs rep) : list float :=
  match ra f with
  | Some l => l
  | None => []
  end.

Section Pipeline.

(** [Rates.scale_by_area] (frbpoppy/rates.py) and [Frbs.clean_up]
    (frbpoppy/frbs.py) are not among the sources: they are parameters. *)
Variable Rates_scale_by_area : Rates -> Rates.
Variable Frbs_clean_up : Frbs true -> Frbs true.

(** So is NumPy's double arithmetic: [np_arange_length start stop step]
    is the length [ceil((stop - start) / step)] that [np.arange] finds in
    double precision. *)
Variable np_arange_length : Q -> Q -> Q -> nat.

(** *** calc_rates (lines 359-386) *)

Definition area_sky : Q := 4 * np_pi * (180 / np_pi) ^ 2.

(** Lines 362-369: the scaling factor for the area. *)
Definition calc_f_area (survey : Survey) (sr : Rates) : Q :=
  let f_area := beam_size survey * tot sr in
  let inside := det sr + late sr in
  let inside := inside + faint sr in
  if Qlt_bool 0 inside then f_area / (inside * area_sky) else 1.

(** Lines 372-375 and 378-381: days, name and volume of one counter. *)
Definition save_scaling (name : string) (vol_co_max n_days : Q) (r : Rates)
  : result Rates :=
  let r := set_days r n_days in
  let r := set_name r name in
  let r := set_vol r (tot r) in
  year <- py_div 365.25 n_days ;;
  v <- py_div (vol r) (vol_co_max * year) ;;
  Ok (set_vol r v).

Definition calc_rates {rep : bool} (self : SurveyPopulation rep)
           (survey : Survey) : result (SurveyPopulation rep) :=
  let f_area := calc_f_area survey (source_rate self) in
  sr <- save_scaling (sp_name self) (vol_co_max self) (n_days self)
          (source_rate self) ;;
  br <- (match rep return when rep Rates -> result (when rep Rates) with
         | true => save_scaling (sp_name self) (vol_co_max self) (n_days self)
         | false => fun u => Ok u
         end) (burst_rate self) ;;
  let sr := if rep then sr
            else Rates_scale_by_area (set_f_area sr f_area) in
  Ok (set_burst_rate (set_source_rate self sr) br).

(** *** det_oneoffs (lines 126-169) *)

(** Lines 150-151: the scintillated SNR of every source. *)
Definition scintillate (survey : Survey) (t_scat dist_co gl gb snr : list float)
  : list float :=
  map (fun '(k, (ts, (d, (l, (b, s))))) => calc_scint survey k ts d l b s)
      (combine (seq 0 (length snr))
         (combine t_scat (combine dist_co (combine gl (combine gb snr))))).

(** Lines 159-160: the mask of the sources that are not redshifted out of
    the observing time. *)
Definition rate_mask_of (rng : Rng) (z : list float) : list bool :=
  let limit := map (fun zk => fdiv (Fin 1) (fadd (Fin 1) zk)) z in
  map2 fle (map (random_draw rng) (seq 0 (length z))) limit.

(** Lines 131-151: beam, fluence and SNR of every source. *)
Definition oneoff_measure (survey : Survey) (self : SurveyPopulation false)
  : Frbs false :=
  let fr := frbs self in
  (* Account for beam offset *)
  let beam := map (calc_beam survey) (seq 0 (length (s_peak fr))) in
  let fr := set_s_peak fr (map2 fmul (s_peak fr) (map fst beam)) in
  let fr := set_offset fr (map snd beam) in
  (* Calculate fluence *)
  let fr :=
    set_fluence fr (map2 (calc_fluence survey) (s_peak fr) (w_eff fr)) in
  (* Calculate Signal to Noise Ratio *)
  let fr :=
    set_snr fr (map3 (calc_snr survey) (s_peak fr) (w_eff fr) (T_sys fr)) in
  (* Add scintillation *)
  if scin self then
    (* Ensure scattering has been calculated *)
    let fr :=
      match t_scat fr with
      | Some _ => fr
      | None => set_t_scat fr (Some (map (calc_scat survey) (dm fr)))
      end in
    (* Calculate signal to noise ratio after scattering *)
    set_snr fr
      (scintillate survey
         (match t_scat fr with Some l => l | None => [] end)
         (dist_co fr) (gl fr) (gb fr) (snr fr))
  else fr.

(** Line 154: [snr_mask = (frbs.snr >= survey.snr_limit)]. *)
Definition snr_mask_oneoff (survey : Survey) (fr : Frbs false) : list bool :=
  map (fun x => fge x (snr_limit survey)) (snr fr).

(** Lines 131-156: the measurements and the SNR threshold. *)
Definition oneoff_snr (survey : Survey) (self : SurveyPopulation false)
  : SurveyPopulation false :=
  let fr := oneoff_measure survey self in
  (* Check whether frbs would be above detection threshold *)
  let snr_mask := snr_mask_oneoff survey fr in
  let fr := apply1 fr snr_mask in
  let sr :=
    set_faint (source_rate self)
      (qn (length snr_mask) - qn (count_nonzero snr_mask)) in
  set_source_rate (set_frbs self fr) sr.

(** Lines 158-163: distant frbs are redshifted out of your observing
    time. *)
Definition oneoff_late (rng : Rng) (self : SurveyPopulation false)
  : SurveyPopulation false :=
  let fr := frbs self in
  let rate_mask := rate_mask_of rng (z fr) in
  let fr := apply1 fr rate_mask in
  let sr := set_late (source_rate self) (qn (length rate_mask)) in
  let sr := set_late sr (late sr - qn (count_nonzero rate_mask)) in
  set_source_rate (set_frbs self fr) sr.

(** Lines 165-169: the detections and the rates. *)
Definition oneoff_finish (survey : Survey) (self : SurveyPopulation false)
  : result (SurveyPopulation false) :=
  let sr := set_det (source_rate self) (qn (length (snr (frbs self)))) in
  let self := set_source_rate self sr in
  (* Calculate detection rates *)
  if scale_by_area self then calc_rates self survey else Ok self.

Definition det_oneoffs_with (survey : Survey) (rng : Rng)
           (self : SurveyPopulation false) : result (SurveyPopulation false) :=
  oneoff_finish survey (oneoff_late rng (oneoff_snr survey self)).

Definition det_oneoffs (rng : Rng) (self : SurveyPopulation false)
  : result (SurveyPopulation false) :=
  match survey self with
  | Some survey => det_oneoffs_with survey rng self
  | None => Raise AttributeError
  end.

(** *** _iter_pointings (lines 250-357) *)

(** Lines 339-348: scintillation in a pointing; the guard of lines 65-69
    keeps [scin] off for repeaters. *)
Definition scintillate_pointing (survey : Survey) (frbs : Frbs true)
           (tp_unique n_bursts : list nat) (s_peak_ix : list (nat * nat))
  : result (Frbs true) :=
  match t_scat frbs with
  | None => Raise TypeError
  | Some ts =>
      let t_scat_sel := gather NaN ts tp_unique in
      let dist_co_sel := gather NaN (dist_co frbs) tp_unique in
      let gl_sel := gather NaN (gl frbs) tp_unique in
      let gb_sel := gather NaN (gb frbs) tp_unique in
      let snr_sel := gather2 NaN (snr frbs) s_peak_ix in
      let new_snr :=
        scintillate survey t_scat_sel dist_co_sel gl_sel gb_sel snr_sel in
      Ok (set_snr frbs
            (scatter2 (snr frbs) s_peak_ix (np_repeat new_snr n_bursts)))
  end.

(** Lines 259-268: which of the bursts in the window are inside the beam
    pattern ([p_ix]), with their intensities. *)
Definition beam_in_window (survey : Survey) (fr : Frbs true)
           (ra_pt dec_pt lst : float) (rows : list nat) : list float :=
  map2 (fun ra dec => calc_beam_rep survey ra dec ra_pt dec_pt lst)
       (gather NaN (ra_arr fr) rows) (gather NaN (dec fr) rows).

(** Lines 283-336: intensity, fluence and SNR of the bursts in the window
    and in the beam ([s_peak.ndim == 2], [w_eff.ndim == 2],
    [w_arr.ndim == 2], [T_sys.ndim == 1]). *)
Definition measure_window (survey : Survey) (fr : Frbs true)
           (s_peak_ix not_ix : list (nat * nat)) (int_pro : list float)
           (tp_unique n_bursts : list nat) : Frbs true :=
  (* Apply intensities to those bursts' s_peak *)
  let fr :=
    set_s_peak fr
      (scatter2 (s_peak fr) s_peak_ix
         (map2 fmul (gather2 NaN (s_peak fr) s_peak_ix) int_pro)) in
  let fr := set_s_peak fr (scatter2_const (s_peak fr) not_ix NaN) in
  let w_eff_ix := s_peak_ix in
  (* Ensure dimensionality is correct *)
  let s_peak_sel := gather2 NaN (s_peak fr) s_peak_ix in
  let w_eff_sel := gather2 NaN (w_eff fr) w_eff_ix in
  (* Calculate fluence *)
  let fr :=
    set_fluence fr
      (scatter2 (fluence fr) s_peak_ix
         (map2 (calc_fluence survey) s_peak_sel w_eff_sel)) in
  (* Construct masks with correct dimension *)
  let w_arr_sel := gather2 NaN (w_arr fr) s_peak_ix in
  let s_peak_sel := gather2 NaN (s_peak fr) s_peak_ix in
  (* And system temperatures *)
  let T_sys_sel := np_repeat (gather NaN (T_sys fr) tp_unique) n_bursts in
  (* Caculate Signal to Noise Ratio *)
  set_snr fr
    (scatter2 (snr fr) s_peak_ix
       (map3 (calc_snr survey) s_peak_sel w_arr_sel T_sys_sel)).

(** Line 351: [snr_m = (frbs.snr[s_peak_ix] > survey.snr_limit)]. *)
Definition snr_mask_window (survey : Survey) (fr : Frbs true)
           (s_peak_ix : list (nat * nat)) : list bool :=
  map (fun x => fgt x (snr_limit survey)) (gather2 NaN (snr fr) s_peak_ix).

Definition iter_pointings (survey : Survey) (self : SurveyPopulation true)
           (ra_pt dec_pt lst t_min t_max : float)
  : result (SurveyPopulation true * (list nat * list nat)) :=
  let fr := frbs self in
  (* Which frbs are within the pointing time? *)
  t_ix <- fast_where (time fr) t_min t_max ;;
  (* What's the intensity of them in the beam? *)
  let int_pro := beam_in_window survey fr ra_pt dec_pt lst (fst t_ix) in
  (* If not an intensity of zero, they were inside the beam pattern *)
  let p_ix := map (fun x => negb (isnan x)) int_pro in
  (* Time & position *)
  let tp_ix := (bmask (fst t_ix) p_ix, bmask (snd t_ix) p_ix) in
  (* Time & not position *)
  let tnp_ix :=
    (bmask (fst t_ix) (map negb p_ix), bmask (snd t_ix) (map negb p_ix)) in
  (* Number of bursts per source *)
  let '(tp_unique, n_bursts) := np_unique_counts (fst tp_ix) in
  (* Add to outside of pointing count *)
  let br := burst_rate self in
  let br := set_pointing br (pointing br + qn (length (fst tnp_ix))) in
  let not_in_pointing := clear_flags (srcs_not_in_pointing self) tp_unique in
  (* Ensure relevant masks: s_peak.ndim == 2 *)
  let int_pro := bmask int_pro p_ix in
  let s_peak_ix := combine (fst tp_ix) (snd tp_ix) in
  let not_ix := combine (fst tnp_ix) (snd tnp_ix) in
  let fr :=
    measure_window survey fr s_peak_ix not_ix int_pro tp_unique n_bursts in
  (* Add scintillation *)
  fr <- (if scin self
         then scintillate_pointing survey fr tp_unique n_bursts s_peak_ix
         else Ok fr) ;;
  (* Only keep those in time, in position and above the snr limit *)
  let snr_m := snr_mask_window survey fr s_peak_ix in
  let s_peak_ix := (bmask (fst tp_ix) snr_m, bmask (snd tp_ix) snr_m) in
  let br :=
    set_faint br
      (faint br + (qn (length (fst tp_ix)) - qn (length (fst s_peak_ix)))) in
  let not_bright :=
    clear_flags (srcs_not_bright self) (np_unique (fst s_peak_ix)) in
  Ok (set_srcs_not_bright
        (set_srcs_not_in_pointing
           (set_burst_rate (set_frbs self fr) br) not_in_pointing)
        not_bright,
      s_peak_ix).

(** *** det_repeaters (lines 171-248) *)

(** The state the loop of lines 220-227 threads: the object and [keep]. *)
Definition loop_state : Type :=
  (SurveyPopulation true * (list nat * list nat))%type.

(** One iteration of the loop over the pointings (lines 221-227). *)
Definition pointing_step (survey : Survey) (times lst : list Q)
           (st : loop_state) (i : nat) : result loop_state :=
  let '(self, keep) := st in
  let ra_p := fst (pointings survey) in
  let dec_p := snd (pointings survey) in
  ra_pt <- index_at ra_p (np_mod i (n_pointings survey)) ;;
  dec_pt <- index_at dec_p (np_mod i (n_pointings survey)) ;;
  lst_i <- index_at lst i ;;
  t_min <- index_at times i ;;
  t_max <- index_at times (i + 1) ;;
  r <- iter_pointings survey self ra_pt dec_pt (Fin lst_i) (Fin t_min)
         (Fin t_max) ;;
  let '(self, xy) := r in
  Ok (self, (fst keep ++ fst xy, snd keep ++ snd xy)).

Fixpoint pointing_loop (survey : Survey) (times lst : list Q)
         (todo : list nat) (st : loop_state) : result loop_state :=
  match todo with
  | [] => Ok st
  | i :: todo' =>
      st' <- pointing_step survey times lst st i ;;
      pointing_loop survey times lst todo' st'
  end.

(** Lines 181-188: the times of the pointings, in days. *)
Definition pointing_times (survey : Survey) : result (list Q) :=
  let t_obs_days := t_obs survey / 86400 in
  max_t <- (match survey_n_days survey with
            | Some d => Ok d
            | None => Raise TypeError
            end) ;;
  np_arange (np_arange_length 0 (max_t + t_obs_days) t_obs_days)
    0 (max_t + t_obs_days) t_obs_days.

(** Line 187-188: the local sidereal times, in degrees. *)
Definition sidereal_times (rng : Rng) (times : list Q) : list Q :=
  map (fun t => Qmod (t * 360 * (24 / 23.9344696)) 360 + lst_offset rng) times.

(** Line 191: only keep bursts within survey time. *)
Definition time_mask_of (time : matrix float) (t_last : Q) : matrix bool :=
  map (map (fun t => fle t (Fin t_last))) time.

(** [self.srcs_not_bright[self.srcs_not_in_pointing] = False]. *)
Definition clear_where (flags mask : list bool) : list bool :=
  map2 (fun (b m : bool) => if m then false else b) flags mask.

(** [np.count_nonzero] of a 2-D boolean array. *)
Definition count_nonzero2 (mask : matrix bool) : nat :=
  count_nonzero (concat mask).

(** Lines 190-197: only keep bursts within survey time, and keep track of
    the losses. *)
Definition cut_late (t_last : Q) (self : SurveyPopulation true)
  : SurveyPopulation true :=
  let fr := frbs self in
  let br := burst_rate self in
  let sr := source_rate self in
  let time_mask := time_mask_of (time fr) t_last in
  let fr := apply2 fr time_mask in
  let br :=
    set_late br
      (late br
       + inject_Z (np_sumZ (map2 (fun n c => (Z.of_nat n - Z.of_nat c)%Z)
                              (n_brst_pr_src self)
                              (map count_nonzero time_mask)))) in
  let sr :=
    set_late sr
      (late sr + (qn (length time_mask) - qn (length (time fr)))) in
  set_burst_rate (set_source_rate (set_frbs self fr) sr) br.

(** Lines 202-216: the arrays the loop fills ([w_eff.ndim == 2], so the
    fluence and the SNR are shaped like [time]) and the two flags. *)
Definition init_loop (self : SurveyPopulation true) : SurveyPopulation true :=
  let fr := frbs self in
  let sim_shape := time fr in
  let fr := set_fluence fr (full_like sim_shape NaN) in
  let fr := set_snr fr (full_like sim_shape NaN) in
  let self := set_frbs self fr in
  let self :=
    set_srcs_not_in_pointing self (map (fun _ => true) (index fr)) in
  set_srcs_not_bright self (map (fun _ => true) (index fr)).

(** Lines 229-248: the counters after the loop, the SNR mask, the rates. *)
Definition finish_repeaters (survey : Survey) (st : loop_state)
  : result (SurveyPopulation true) :=
  let '(self, keep) := st in
  let fr := frbs self in
  let sr := source_rate self in
  let sr := set_pointing sr (qn (count_nonzero (srcs_not_in_pointing self))) in
  (* Already outside of pointing, so unknown whether too faint *)
  let self :=
    set_srcs_not_bright self
      (clear_where (srcs_not_bright self) (srcs_not_in_pointing self)) in
  let sr := set_faint sr (qn (count_nonzero (srcs_not_bright self))) in
  (* Create SNR mask *)
  let snr_mask :=
    scatter2_const (full_like (snr fr) false)
      (combine (fst keep) (snd keep)) true in
  let fr := apply2 fr snr_mask in
  (* Keep track of detections *)
  let br := set_det (burst_rate self) (qn (count_nonzero2 snr_mask)) in
  let sr := set_det sr (qn (length (np_unique (fst keep)))) in
  (* Reduce matrices' size *)
  let fr := Frbs_clean_up fr in
  (* Calculate detection rates *)
  calc_rates (set_burst_rate (set_source_rate (set_frbs self fr) sr) br)
    survey.

Definition det_repeaters_with (survey : Survey) (rng : Rng)
           (self : SurveyPopulation true) : result (SurveyPopulation true) :=
  (* Array with times of each pointing *)
  times <- pointing_times survey ;;
  let lsts := sidereal_times rng times in
  t_last <- index_last times ;;
  let self := cut_late t_last self in
  (* Prepare for iterating over time *)
  let max_n_pointings := (length times - 1)%nat in
  let self := init_loop self in
  (* Have to loop over the observing times *)
  let lst := removelast lsts in
  st <- pointing_loop survey times lst (seq 0 max_n_pointings)
          (self, ([], [])) ;;
  finish_repeaters survey st.

Definition det_repeaters (rng : Rng) (self : SurveyPopulation true)
  : result (SurveyPopulation true) :=
  match survey self with
  | Some survey => det_repeaters_with survey rng self
  | None => Raise AttributeError
  end.

(** *** SurveyPopulation.__init__ (lines 14-124) *)

(** Line 55: [burst_rate] exists for repeaters only. *)
Definition new_burst_rate (rep : bool) : when rep Rates :=
  match rep with
  | true => Rates_new "burst"
  | false => tt
  end.

Definition no_attr (rep : bool) {A : Type} (a : A) : when rep A :=
  match rep with
  | true => a
  | false => tt
  end.

(** Lines 75-82: the bursts and sources the population lost beforehand. *)
Definition count_late_before {rep : bool}
  : SurveyPopulation rep -> SurveyPopulation rep :=
  match rep with
  | true => fun self =>
      let br := burst_rate self in
      let sr := source_rate self in
      let br := set_tot br (qn (size2 (time (frbs self)))) in
      (* Bursts which are too late have already been removed *)
      let n_brst := map count_not_nan (time (frbs self)) in
      let br := set_late br (late br + (tot br - qn (np_sum n_brst))) in
      let sr := set_late sr (late sr + (tot sr - qn (length n_brst))) in
      set_n_brst_pr_src (set_burst_rate (set_source_rate self sr) br) n_brst
  | false => fun self => self
  end.

(** Lines 90-92: the bursts of the sources outside the region. *)
Definition count_out_bursts {rep : bool} (region_mask : list bool)
  : SurveyPopulation rep -> SurveyPopulation rep :=
  match rep with
  | true => fun self =>
      let br := burst_rate self in
      let br :=
        set_out br
          (qn (np_sum (bmask (n_brst_pr_src self) (map negb region_mask)))) in
      set_n_brst_pr_src (set_burst_rate self br)
        (bmask (n_brst_pr_src self) region_mask)
  | false => fun self => self
  end.

(** Line 85: [survey.in_region(frbs.ra, frbs.dec, frbs.gl, frbs.gb)]. *)
Definition region_mask_of {rep : bool} (survey : Survey) (f : Frbs rep)
  : list bool :=
  map (fun '(a, (d, (l, b))) => in_region survey a d l b)
      (combine (ra_arr f) (combine (dec f) (combine (gl f) (gb f)))).

(** Lines 94-115: the quantities the survey derives for every source. *)
Definition derive_columns {rep : bool} (survey : Survey) (scat : bool)
           (f_low f_high : float) (f : Frbs rep) : Frbs rep :=
  (* Calculate dispersion measure across single channel *)
  let f := set_t_dm f (map (calc_dm_smear survey) (dm f)) in
  (* Set scattering timescale *)
  let f := if scat then set_t_scat f (Some (map (calc_scat survey) (dm f)))
           else f in
  (* Calculate total temperature *)
  let ts := map2 (calc_Ts survey) (gl f) (gb f) in
  let f := set_T_sys (set_T_sky f (map fst ts)) (map snd ts) in
  (* Calculate effective pulse width *)
  let f :=
    set_w_eff f
      (map (fun '(w, (td, tsc)) =>
              xmap rep (fun wk => calc_w_eff survey wk td tsc) w)
           (combine (w_arr f) (combine (t_dm f) (opt_col (t_scat f) (t_dm f)))))
  in
  (* Calculate peak flux density *)
  set_s_peak f
    (map (fun '(s, (l, (zk, (d, (wa, we))))) =>
            xmap2 rep
              (fun wak wek => calc_s_peak survey s l zk d wak wek f_low f_high)
              wa we)
         (combine (si f) (combine (lum_bol f) (combine (z f)
            (combine (dist_co f) (combine (w_arr f) (w_eff f))))))).

(** Lines 117-121: calculations differ whether dealing with repeaters. *)
Definition detect {rep : bool} (rng : Rng)
  : SurveyPopulation rep -> result (SurveyPopulation rep) :=
  match rep with
  | true => det_repeaters rng
  | false => det_oneoffs rng
  end.

(** Lines 61-63: set survey attributes if not available. *)
Definition with_n_days (survey : Survey) (n_days : Q) : Survey :=
  match survey_n_days survey with
  | None => set_survey_n_days survey (Some n_days)
  | Some _ => survey
  end.

Definition SurveyPopulation_init {rep : bool} (cosmic_pop : py_arg rep)
           (survey : Survey) (scat scin scale_by_area : bool) (rng : Rng)
  : result (SurveyPopulation rep) :=
  (* Check whether CosmicPopulation has been generated *)
  match cosmic_pop with
  | NotAPopulation =>
      Raise (ValueError
        "You probably switched the population and survey in theinput of SurveyPopulation")
  | APopulation p =>
      match ra (pop_frbs p) with
      | None =>
          Raise (ValueError
            "You may have forgotten to generate your CosmicPopulation")
      | Some _ =>
          (* Set survey attributes if not available *)
          let survey := with_n_days survey (pop_n_days p) in
          (* Set attributes *)
          let self :=
            mkSurveyPopulation
              (pop_name p ++ "_" ++ survey_name survey)
              (pop_vol_co_max p) (pop_n_days p) (pop_frbs p)
              (Rates_new "source") (new_burst_rate rep) scat scin
              (Some survey) scale_by_area (no_attr rep []) [] [] in
          (* Calculations differ for repeaters *)
          if rep && scin then
            Raise (ValueError
              "Scintillation is currently not implemented for RepeaterPopulations")
          else
            let self :=
              set_source_rate self
                (set_tot (source_rate self) (inject_Z (n_srcs p))) in
            let self := count_late_before self in
            (* Check whether source is in region *)
            let region_mask := region_mask_of survey (frbs self) in
            let self := set_frbs self (apply1 (frbs self) region_mask) in
            (* Keep track of detection numbers *)
            let self :=
              set_source_rate self
                (set_out (source_rate self)
                   (qn (count_nonzero (map negb region_mask)))) in
            let self := count_out_bursts region_mask self in
            let self :=
              set_frbs self
                (derive_columns survey scat (f_min p) (f_max p) (frbs self)) in
            (* Calculations differ whether dealing with repeaters or not *)
            self <- detect rng self ;;
            (* Prevent additional memory usage *)
            Ok (set_survey self None)
      end
  end.

End Pipeline.

(** ** What the spec states, in its own words *)

(** The area-scaling factor of the spec:
    [beam_solid_angle * total / ((detected + too_late + too_faint)
    * full_sky_solid_angle)], clamped to 1 if the denominator is zero. *)
Definition spec_area_factor (beam_solid_angle total detected too_late
                             too_faint full_sky_solid_angle : Q) : Q :=
  let denominator :=
    (detected + too_late + too_faint) * full_sky_solid_angle in
  if Qeq_bool denominator 0 then 1
  else beam_solid_angle * total / denominator.

(** The conservation of the source-level counters of a one-off survey. *)
Definition oneoff_balance (r : Rates) : Prop :=
  tot r == out r + late r + faint r + det r.

(** The error messages of the constructor. *)
Definition msg_swapped : string :=
  "You probably switched the population and survey in theinput of SurveyPopulation".
Definition msg_not_generated : string :=
  "You may have forgotten to generate your CosmicPopulation".
Definition msg_scin_repeaters : string :=
  "Scintillation is currently not implemented for RepeaterPopulations".

(** ** Predicates and auxiliary functions of the properties *)

(** The message of the error that ends the construction of a repeating
    population surveyed with scintillation. *)
Definition rejection_message (cosmic_pop : py_arg true) : string :=
  match cosmic_pop with
  | NotAPopulation => msg_swapped
  | APopulation p =>
      match ra (pop_frbs p) with
      | None => msg_not_generated
      | Some _ => msg_scin_repeaters
      end
  end.

(** Every column the population provides has one entry per source. *)
Record input_rows {rep : bool} (f : Frbs rep) (n : nat) : Prop := {
  rows_index : length (index f) = n;
  rows_ra : exists l, ra f = Some l /\ length l = n;
  rows_dec : length (dec f) = n;
  rows_gl : length (gl f) = n;
  rows_gb : length (gb f) = n;
  rows_dm : length (dm f) = n;
  rows_z : length (z f) = n;
  rows_dist_co : length (dist_co f) = n;
  rows_si : length (si f) = n;
  rows_lum_bol : length (lum_bol f) = n;
  rows_w_arr : length (w_arr f) = n;
  rows_time : rep = true -> length (time f) = n;
  rows_t_scat : forall l, t_scat f = Some l -> length l = n
}.

(** So has every column the survey derives. *)
Record derived_rows {rep : bool} (f : Frbs rep) (n : nat) : Prop := {
  rows_input : input_rows f n;
  rows_t_dm : length (t_dm f) = n;
  rows_T_sys : length (T_sys f) = n;
  rows_w_eff : length (w_eff f) = n;
  rows_s_peak : length (s_peak f) = n
}.

(** The columns [fast_where] selects in one row. *)
Definition row_window (row : list float) (min_v max_v : float) : list nat :=
  arange_nat (searchsorted row min_v) (searchsorted row max_v).

(** The index pairs [fast_where] selects, row after row. *)
Definition window_hits (a : matrix float) (min_v max_v : float)
  : list (nat * nat) :=
  flat_map (fun r => map (pair r) (row_window (nth r a []) min_v max_v))
           (seq 0 (length a)).

Definition shape {A : Type} (m : matrix A) : list nat := map (@length A) m.

Definition flags_cleared_only (self self' : SurveyPopulation true) : Prop :=
  forall k,
    (nth k (srcs_not_in_pointing self) true = false ->
     nth k (srcs_not_in_pointing self') true = false)
    /\ (nth k (srcs_not_bright self) true = false ->
        nth k (srcs_not_bright self') true = false).

(** The pointings start at [0, t_obs, 2 t_obs, ...], in days. *)
Definition t_obs_days (sv : Survey) : Q := t_obs sv / 86400.

Definition pointing_time (sv : Survey) (k : nat) : Q :=
  0 + qn k * t_obs_days sv.

(** ** A small survey and two small populations *)

Module Examples.

Definition same_position (a b : float) : bool :=
  match a, b with
  | Fin x, Fin y => Qeq_bool x y
  | _, _ => false
  end.

(** A survey of 20 days with pointings of one day, alternating between two
    positions; a source is in the region when its right ascension is not
    negative, and in the beam when it sits at the pointing. *)
Definition toy_survey : Survey :=
  mkSurvey "toy" (Some 20) 86400 (Fin 10) 1 2
    ([Fin 0; Fin 5], [Fin 0; Fin 0])
    (fun ra _ _ _ => fle (Fin 0) ra)
    (fun dm => dm)
    (fun dm => dm)
    (fun _ _ => (Fin 1, Fin 2))
    (fun w t_dm _ => fadd w t_dm)
    (fun _ lum _ _ _ _ _ _ => lum)
    (fun _ => (Fin 1, Fin 0))
    (fun ra _ ra_p _ _ => if same_position ra ra_p then Fin 1 else NaN)
    fmul
    (fun s w T => fdiv (fmul s w) T)
    (fun _ _ _ _ _ snr => snr).

(** The same survey with pointings of three days. *)
Definition slow_survey : Survey :=
  mkSurvey "slow" (Some 20) 259200 (Fin 10) 1 2
    ([Fin 0; Fin 5], [Fin 0; Fin 0])
    (in_region toy_survey) (calc_dm_smear toy_survey) (calc_scat toy_survey)
    (calc_Ts toy_survey) (calc_w_eff toy_survey) (calc_s_peak toy_survey)
    (calc_beam toy_survey) (calc_beam_rep toy_survey)
    (calc_fluence toy_survey) (calc_snr toy_survey) (calc_scint toy_survey).

Definition toy_rng : Rng := mkRng (fun _ => Fin 0.75) 0.

(** The length of [np.arange] when the quotient is computed without
    rounding, as it is for the pointings of the two surveys above:
    [(20 + 1) / 1 = 21] and [ceil((20 + 3) / 3) = 8]. *)
Definition exact_length (start stop step : Q) : nat :=
  Z.to_nat (Qceiling ((stop - start) / step)).

(** Four one-off sources: too faint, exactly at the SNR limit, too late,
    and outside the region. *)
Definition oneoff_frbs : Frbs false :=
  @mkFrbs false [0; 1; 2; 3]%nat
    (Some [Fin 0; Fin 0; Fin 0; Fin (-1)])
    [Fin 0; Fin 0; Fin 0; Fin 0] [Fin 0; Fin 0; Fin 0; Fin 0]
    [Fin 0; Fin 0; Fin 0; Fin 0]
    [Fin 1; Fin 1; Fin 1; Fin 1]
    [Fin 0; Fin 0; Fin 1; Fin 0]
    [Fin 1; Fin 1; Fin 1; Fin 1] [Fin 0; Fin 0; Fin 0; Fin 0]
    [Fin 5; Fin 10; Fin 30; Fin 40]
    [Fin 1; Fin 1; Fin 1; Fin 1]
    [] [] None [] [] [] [] [] [] [].

Definition oneoff_pop : Population false :=
  @mkPopulation false "cosmic" 1 1 oneoff_frbs 4 (Fin 1) (Fin 2).

(** [scale_by_area] as the spec words it: the rate is multiplied by the
    factor. *)
Definition scale_vol (r : Rates) : Rates := set_vol r (vol r * f_area r).

Definition keep_frbs (f : Frbs true) : Frbs true := f.

(** Two repeating sources.  The first is in the region, with bursts at
    0.5, 1.5, 10.5 and 50.5 days; the second is outside the region. *)
Definition repeater_frbs : Frbs true :=
  @mkFrbs true [0; 1]%nat
    (Some [Fin 0; Fin (-1)])
    [Fin 0; Fin 0] [Fin 0; Fin 0] [Fin 0; Fin 0]
    [Fin 1; Fin 1] [Fin 0; Fin 0] [Fin 1; Fin 1] [Fin 0; Fin 0]
    [Fin 100; Fin 100]
    [[Fin 1; Fin 1; Fin 0.2; Fin 1]; [Fin 1; Fin 1; NaN; NaN]]
    [[Fin 0.5; Fin 1.5; Fin 10.5; Fin 50.5]; [Fin 1.5; Fin 2.5; NaN; NaN]]
    [] None [] [] [] [] [] [] [].

Definition repeater_pop : Population true :=
  @mkPopulation true "cosmic" 1 20 repeater_frbs 2 (Fin 1) (Fin 2).

(** The first source alone. *)
Definition single_frbs : Frbs true :=
  @mkFrbs true [0]%nat
    (Some [Fin 0]) [Fin 0] [Fin 0] [Fin 0] [Fin 1] [Fin 0] [Fin 1] [Fin 0]
    [Fin 100]
    [[Fin 1; Fin 1; Fin 0.2; Fin 1]]
    [[Fin 0.5; Fin 1.5; Fin 10.5; Fin 50.5]]
    [] None [] [] [] [] [] [] [].

Definition single_pop : Population true :=
  @mkPopulation true "cosmic" 1 20 single_frbs 1 (Fin 1) (Fin 2).

(** Scenario C of the spec: one source with bursts at 0.5, 10.5 and 50.5
    days. *)
Definition scenario_c_frbs : Frbs true :=
  @mkFrbs true [0]%nat
    (Some [Fin 0]) [Fin 0] [Fin 0] [Fin 0] [Fin 1] [Fin 0] [Fin 1] [Fin 0]
    [Fin 100]
    [[Fin 1; Fin 1; Fin 1]]
    [[Fin 0.5; Fin 10.5; Fin 50.5]]
    [] None [] [] [] [] [] [] [].

(** A source with a burst at 20.5 days, after the 20 days of the survey. *)
Definition overtime_frbs : Frbs true :=
  @mkFrbs true [0]%nat
    (Some [Fin 0]) [Fin 0] [Fin 0] [Fin 0] [Fin 1] [Fin 0] [Fin 1] [Fin 0]
    [Fin 100]
    [[Fin 1; Fin 1]]
    [[Fin 0.5; Fin 20.5]]
    [] None [] [] [] [] [] [] [].

Definition scenario_c_pop : Population true :=
  @mkPopulation true "cosmic" 1 20 scenario_c_frbs 1 (Fin 1) (Fin 2).

Definition overtime_pop : Population true :=
  @mkPopulation true "cosmic" 1 20 overtime_frbs 1 (Fin 1) (Fin 2).

(** The object as [__init__] hands it to [det_repeaters]. *)
Definition prepared (sv : Survey) (f : Frbs true) : SurveyPopulation true :=
  @mkSurveyPopulation true "cosmic_toy" 1 20
    (derive_columns sv false (Fin 1) (Fin 2) f)
    (set_tot (Rates_new "source") (qn (length (time f))))
    (set_tot (Rates_new "burst") (qn (size2 (time f))))
    false false (Some sv) true (map count_not_nan (time f)) [] [].

(** The one-off object as [__init__] hands it to [det_oneoffs]: the three
    sources inside the region, with the derived columns. *)
Definition oneoff_prepared : SurveyPopulation false :=
  @mkSurveyPopulation false "cosmic_toy" 1 1
    (derive_columns toy_survey false (Fin 1) (Fin 2)
       (apply1 oneoff_frbs (region_mask_of toy_survey oneoff_frbs)))
    (set_out (set_tot (Rates_new "source") 4) 1)
    tt false false (Some toy_survey) true tt [] [].

(** Counters of a finished one-off survey. *)
Definition counted : SurveyPopulation false :=
  set_source_rate oneoff_prepared
    (mkRates "source" 1 1 1 1 0 0 0 "" 4 1).

(** All sources outside the region. *)
Definition outside_frbs : Frbs true :=
  @mkFrbs true [0]%nat
    (Some [Fin (-1)]) [Fin 0] [Fin 0] [Fin 0] [Fin 1] [Fin 0] [Fin 1] [Fin 0]
    [Fin 100]
    [[Fin 1; Fin 1]]
    [[Fin 0.5; Fin 1.5]]
    [] None [] [] [] [] [] [] [].

Definition outside_pop : Population true :=
  @mkPopulation true "cosmic" 1 20 outside_frbs 1 (Fin 1) (Fin 2).

(** A source with a burst exactly at the end of the last pointing. *)
Definition boundary_frbs : Frbs true :=
  @mkFrbs true [0]%nat
    (Some [Fin 0]) [Fin 0] [Fin 0] [Fin 0] [Fin 1] [Fin 0] [Fin 1] [Fin 0]
    [Fin 100]
    [[Fin 1; Fin 1]]
    [[Fin 0.5; Fin 20]]
    [] None [] [] [] [] [] [] [].

Definition boundary_pop : Population true :=
  @mkPopulation true "cosmic" 1 20 boundary_frbs 1 (Fin 1) (Fin 2).

(** The single repeating source when the loop over the pointings starts,
    and the times of the pointings. *)
Definition ready : SurveyPopulation true :=
  init_loop (cut_late (pointing_time toy_survey 20)
               (prepared toy_survey single_frbs)).

Definition toy_times : list Q := map (pointing_time toy_survey) (seq 0 21).

Definition toy_lst : list Q := removelast (sidereal_times toy_rng toy_times).

(** The state of the loop after [n] pointings. *)
Definition after (n : nat) : loop_state :=
  match pointing_loop toy_survey toy_times toy_lst (seq 0 n) (ready, ([], []))
  with
  | Ok st => st
  | Raise _ => (ready, ([], []))
  end.

Definition after_2 : loop_state := Eval vm_compute in after 2.
Definition after_11 : loop_state := Eval vm_compute in after 11.

(** The pointing of day 10, which holds the burst at 10.5 days. *)
Definition day_10 : loop_state :=
  Eval vm_compute in
    match iter_pointings toy_survey ready (Fin 0) (Fin 0) (Fin 0) (Fin 10)
            (Fin 11)
    with
    | Ok r => r
    | Raise _ => (ready, ([], []))
    end.

(** Four one-off sources, all outside the region. *)
Definition far_frbs : Frbs false :=
  @mkFrbs false [0; 1; 2; 3]%nat
    (Some [Fin (-1); Fin (-2); Fin (-3); Fin (-4)])
    [Fin 0; Fin 0; Fin 0; Fin 0] [Fin 0; Fin 0; Fin 0; Fin 0]
    [Fin 0; Fin 0; Fin 0; Fin 0]
    [Fin 1; Fin 1; Fin 1; Fin 1]
    [Fin 0; Fin 0; Fin 1; Fin 0]
    [Fin 1; Fin 1; Fin 1; Fin 1] [Fin 0; Fin 0; Fin 0; Fin 0]
    [Fin 5; Fin 10; Fin 30; Fin 40]
    [Fin 1; Fin 1; Fin 1; Fin 1]
    [] [] None [] [] [] [] [] [] [].

Definition far_pop : Population false :=
  @mkPopulation false "cosmic" 1 1 far_frbs 4 (Fin 1) (Fin 2).

(** The four one-off sources of [oneoff_pop] in a population whose day
    count is zero. *)
Definition still_pop : Population false :=
  @mkPopulation false "cosmic" 1 0 oneoff_frbs 4 (Fin 1) (Fin 2).

(** The survey of the four one-off sources, without area scaling. *)
Definition oneoff_done : SurveyPopulation false :=
  Eval vm_compute in
    match SurveyPopulation_init scale_vol keep_frbs
            exact_length (APopulation oneoff_pop)
            toy_survey false false false toy_rng
    with
    | Ok s => s
    | Raise _ => oneoff_prepared
    end.

(** Two sorted rows of burst times. *)
Definition window_rows : matrix float :=
  [[Fin 0.5; Fin 1.5; Fin 10.5; NaN]; [Fin 1; Fin 2; NaN; NaN]].

End Examples.

(** The bursts of a row that lie after [t]: numbers that are not [<= t]. *)
Definition late_in_row (t : Q) (row : list float) : nat :=
  count_nonzero (map (fun x => negb (isnan x) && negb (fle x (Fin t))) row).

Definition late_bursts (time : matrix float) (t : Q) : nat :=
  np_sum (map (late_in_row t) time).

(** The sources without any burst up to [t]. *)
Definition late_sources (time : matrix float) (t : Q) : nat :=
  count_nonzero
    (map (fun row => negb (existsb (fun x => fle x (Fin t)) row)) time).

(** The burst times once the bursts after [t] are dropped. *)
Definition cut_time (time : matrix float) (t : Q) : matrix float :=
  bmask (map (map (fun x => if fle x (Fin t) then x else NaN)) time)
        (map (existsb (fun x => fle x (Fin t))) time).

(** A row sorted from low to high, NaNs trailing, in NumPy's order. *)
Definition ascending (row : list float) : Prop :=
  StronglySorted (fun x y => np_lt y x = false) row.



(** The number of insertion points of [t] over the rows. *)
Definition inserted (a : matrix float) (t : float) : nat :=
  np_sum (map (fun row => searchsorted row t) a).

(** The index pair lies inside an array of the given shape. *)
Definition in_shape (sh : list nat) (rc : nat * nat) : Prop :=
  (snd rc < nth (fst rc) sh 0)%nat.

(** The pointings can be indexed throughout the loop. *)
Definition pointings_ok (sv : Survey) : Prop :=
  forall i,
    (np_mod i (n_pointings sv) < length (fst (pointings sv)))%nat
    /\ (np_mod i (n_pointings sv) < length (snd (pointings sv)))%nat.

Record loop_inv (sv : Survey) (self0 : SurveyPopulation true) (i : nat)
       (st : loop_state) : Prop := {
  inv_time : time (frbs (fst st)) = time (frbs self0);
  inv_shape : shape (snr (frbs (fst st))) = shape (time (frbs self0));
  inv_scin : scin (fst st) = false;
  inv_source : source_rate (fst st) = source_rate self0;
  inv_meta :
    (sp_name (fst st), vol_co_max (fst st), n_days (fst st))
    = (sp_name self0, vol_co_max self0, n_days self0);
  inv_keep :
    exists K : list (nat * nat),
      snd st = (map fst K, map snd K)
      /\ NoDup K
      /\ Forall (fun rc =>
                   (fst rc < length (time (frbs self0)))%nat
                   /\ (snd rc < searchsorted
                                  (nth (fst rc) (time (frbs self0)) [])
                                  (Fin (pointing_time sv i)))%nat) K
      /\ pointing (burst_rate (fst st)) + faint (burst_rate (fst st))
         + qn (length K)
         == pointing (burst_rate self0) + faint (burst_rate self0)
            + (qn (inserted (time (frbs self0)) (Fin (pointing_time sv i)))
               - qn (inserted (time (frbs self0)) (Fin (pointing_time sv 0))));
  inv_counters :
    (tot (burst_rate (fst st)), late (burst_rate (fst st)),
     out (burst_rate (fst st)), det (burst_rate (fst st)))
    = (tot (burst_rate self0), late (burst_rate self0),
       out (burst_rate self0), det (burst_rate self0))
}.


(** The end of the last pointing, [times[-1]]. *)
Definition end_of_survey (np_arange_length : Q -> Q -> Q -> nat)
           (sv : Survey) : result Q :=
  times <- pointing_times np_arange_length sv ;; index_last times.

(** The index pairs a call of [fast_where] returned. *)
Definition pairs_of (r : result (list nat * list nat)) : list (nat * nat) :=
  match r with
  | Ok (rows, cols) => combine rows cols
  | Raise _ => []
  end.

(** Line 257: the bursts in the time window of a pointing ([t_ix]). *)
Definition in_window (fr : Frbs true) (t_min t_max : float)
  : list (nat * nat) :=
  pairs_of (fast_where (time fr) t_min t_max).

(** Lines 260-268: which of them are inside the beam pattern ([p_ix]). *)
Definition beam_mask (sv : Survey) (fr : Frbs true)
           (ra_pt dec_pt lst t_min t_max : float) : list bool :=
  map (fun x => negb (isnan x))
      (beam_in_window sv fr ra_pt dec_pt lst
         (map fst (in_window fr t_min t_max))).

(** Line 271: the bursts in the window and in the beam ([tp_ix]). *)
Definition in_beam (sv : Survey) (fr : Frbs true)
           (ra_pt dec_pt lst t_min t_max : float) : list (nat * nat) :=
  bmask (in_window fr t_min t_max)
        (beam_mask sv fr ra_pt dec_pt lst t_min t_max).

(** Line 274: the bursts in the window and outside the beam ([tnp_ix]). *)
Definition off_beam (sv : Survey) (fr : Frbs true)
           (ra_pt dec_pt lst t_min t_max : float) : list (nat * nat) :=
  bmask (in_window fr t_min t_max)
        (map negb (beam_mask sv fr ra_pt dec_pt lst t_min t_max)).

(** The bursts of a list whose stored SNR is above the limit, and those
    whose SNR is not. *)
Definition above_limit (sv : Survey) (fr : Frbs true)
           (ix : list (nat * nat)) : list (nat * nat) :=
  filter (fun rc => fgt (get2 NaN (snr fr) rc) (snr_limit sv)) ix.

Definition not_above_limit (sv : Survey) (fr : Frbs true)
           (ix : list (nat * nat)) : list (nat * nat) :=
  filter (fun rc => negb (fgt (get2 NaN (snr fr) rc) (snr_limit sv))) ix.

(** The object [__init__] hands to [det_oneoffs] or [det_repeaters]
    (lines 44-115), once the two guards have passed. *)
Definition before_detect {rep : bool} (p : Population rep) (survey : Survey)
           (scat scin scale_by_area : bool) : SurveyPopulation rep :=
  let survey := with_n_days survey (pop_n_days p) in
  let self :=
    mkSurveyPopulation
      (pop_name p ++ "_" ++ survey_name survey)
      (pop_vol_co_max p) (pop_n_days p) (pop_frbs p)
      (Rates_new "source") (new_burst_rate rep) scat scin
      (Some survey) scale_by_area (no_attr rep []) [] [] in
  let self :=
    set_source_rate self (set_tot (source_rate self) (inject_Z (n_srcs p))) in
  let self := count_late_before self in
  let region_mask := region_mask_of survey (frbs self) in
  let self := set_frbs self (apply1 (frbs self) region_mask) in
  let self :=
    set_source_rate self
      (set_out (source_rate self)
         (qn (count_nonzero (map negb region_mask)))) in
  let self := count_out_bursts region_mask self in
  set_frbs self (derive_columns survey scat (f_min p) (f_max p) (frbs self)).

(** The two flags and [keep] agree while the loop over the pointings runs:
    a source is bright exactly when one of its bursts is kept, and a bright
    source has been in a pointing. *)
Definition flags_inv (n : nat) (st : loop_state) : Prop :=
  length (time (frbs (fst st))) = n
  /\ length (srcs_not_in_pointing (fst st)) = n
  /\ length (srcs_not_bright (fst st)) = n
  /\ (forall k, nth k (srcs_not_bright (fst st)) true = false ->
                nth k (srcs_not_in_pointing (fst st)) true = false)
  /\ (forall k, nth k (srcs_not_bright (fst st)) true = false
                <-> In k (fst (snd st))).

(** The conservation of the source-level counters of a repeater survey. *)
Definition repeater_source_balance (r : Rates) : Prop :=
  tot r == out r + late r + pointing r + faint r + det r.

(** The message of [np.apply_along_axis] on an array without rows. *)
Definition msg_no_rows : string :=
  "Cannot apply_along_axis when any iteration dimensions are 0".

(** The intensity of the beam for source [r] in a pointing (lines 260-265:
    [calc_beam] on the position of the source). *)
Definition beam_of (sv : Survey) (fr : Frbs true) (ra_pt dec_pt lst : float)
           (r : nat) : float :=
  calc_beam_rep sv (nth r (ra_arr fr) NaN) (nth r (dec fr) NaN) ra_pt dec_pt
    lst.

(** The per-burst columns have the shape of the burst times and the
    per-source columns one entry per row. *)
Record burst_shaped (fr : Frbs true) : Prop := {
  shaped_s_peak : shape (s_peak fr) = shape (time fr);
  shaped_w_eff : shape (w_eff fr) = shape (time fr);
  shaped_w_arr : shape (w_arr fr) = shape (time fr);
  shaped_fluence : shape (fluence fr) = shape (time fr);
  shaped_snr : shape (snr fr) = shape (time fr);
  shaped_T_sys : length (T_sys fr) = length (time fr);
  shaped_ra : length (ra_arr fr) = length (time fr);
  shaped_dec : length (dec fr) = length (time fr)
}.

(** * Properties *)

(** ** fast_where *)

(** C1 (as the code behaves): on the one-row matrix [[1.0, 2.0]] and the
    interval [0.0, 2.0], [fast_where] returns the single index pair (0, 0),
    whereas the mask [(a >= min_v) & (a <= max_v)] of its docstring selects
    (0, 0) and (0, 1): the burst that sits exactly on [max_v] is missed. *)
Theorem fast_where_misses_max_boundary :
  fast_where [[Fin 1; Fin 2]] (Fin 0) (Fin 2) = Ok ([0%nat], [0%nat])
  /\ brute_force_where [[Fin 1; Fin 2]] (Fin 0) (Fin 2)
     = ([0%nat; 0%nat], [0%nat; 1%nat]).
Proof. split; vm_compute; reflexivity. Qed.

(** ** The constructor *)

Section Constructor.

Variable Rates_scale_by_area : Rates -> Rates.
Variable Frbs_clean_up : Frbs true -> Frbs true.
Variable np_arange_length : Q -> Q -> Q -> nat.

(** C8: constructing a SurveyPopulation from a repeating population with
    scintillation enabled raises a ValueError, whatever the survey and the
    other options are; for a generated population it is the error
    "Scintillation is currently not implemented for RepeaterPopulations".
    The constructor returns no object, so no detection result exists. *)
Theorem repeaters_with_scintillation_rejected :
  forall (cosmic_pop : py_arg true) (survey : Survey)
         (scat scale_by_area : bool) (rng : Rng),
    SurveyPopulation_init Rates_scale_by_area Frbs_clean_up
      np_arange_length cosmic_pop survey scat true scale_by_area rng
    = Raise (ValueError (rejection_message cosmic_pop)).
Proof.
  intros [p|] survey scat scale rng; unfold SurveyPopulation_init; simpl.
  - destruct (ra (pop_frbs p)); reflexivity.
  - reflexivity.
Qed.

End Constructor.

(** ** The rates *)

Lemma Qlt_bool_iff : forall a b : Q, Qlt_bool a b = true <-> a < b.
Proof.
  intros a b. unfold Qlt_bool. rewrite negb_true_iff.
  split.
  - intros H. apply Qnot_le_lt. intros Hle.
    apply Qle_bool_iff in Hle. congruence.
  - intros H. destruct (Qle_bool b a) eqn:E; [|reflexivity].
    apply Qle_bool_iff in E. exfalso. apply (Qlt_not_le _ _ H E).
Qed.

Lemma Qeq_bool_false : forall a b : Q, ~ a == b -> Qeq_bool a b = false.
Proof.
  intros a b H. destruct (Qeq_bool a b) eqn:E; [|reflexivity].
  apply Qeq_bool_iff in E. contradiction.
Qed.

Lemma area_sky_pos : 0 < area_sky.
Proof. vm_compute. reflexivity. Qed.

Lemma py_div_ok : forall a b : Q, ~ b == 0 -> py_div a b = Ok (a / b).
Proof. intros a b H. unfold py_div. now rewrite Qeq_bool_false. Qed.

Lemma year_fraction_nonzero :
  forall vcm nd : Q, ~ nd == 0 -> ~ vcm == 0 -> ~ vcm * (365.25 / nd) == 0.
Proof.
  intros vcm nd Hnd Hv H.
  apply Qmult_integral in H. destruct H as [H|H]; [contradiction|].
  assert (E : nd * (365.25 / nd) == 365.25) by (apply Qmult_div_r; exact Hnd).
  rewrite H in E. rewrite Qmult_0_r in E. discriminate E.
Qed.

Lemma save_scaling_ok :
  forall name vcm nd r, ~ nd == 0 -> ~ vcm == 0 ->
    save_scaling name vcm nd r
    = Ok (set_vol (set_vol (set_name (set_days r nd) name) (tot r))
            (tot r / (vcm * (365.25 / nd)))).
Proof.
  intros name vcm nd r Hnd Hv. unfold save_scaling.
  rewrite (py_div_ok _ Hnd). simpl.
  rewrite py_div_ok by (apply year_fraction_nonzero; assumption).
  reflexivity.
Qed.

Lemma calc_f_area_spec :
  forall sv sr, 0 <= det sr -> 0 <= late sr -> 0 <= faint sr ->
    calc_f_area sv sr
    = spec_area_factor (beam_size sv) (tot sr) (det sr) (late sr) (faint sr)
        area_sky.
Proof.
  intros sv sr Hd Hl Hf. unfold calc_f_area, spec_area_factor.
  pose proof area_sky_pos as Hsky.
  destruct (Qlt_bool 0 (det sr + late sr + faint sr)) eqn:E.
  - apply Qlt_bool_iff in E.
    rewrite Qeq_bool_false; [reflexivity|].
    intros H. apply Qmult_integral in H. destruct H as [H|H].
    + rewrite H in E. discriminate E.
    + rewrite H in Hsky. discriminate Hsky.
  - assert (Hz : det sr + late sr + faint sr == 0).
    { apply Qle_antisym.
      - apply Qnot_lt_le. intros H. apply Qlt_bool_iff in H. congruence.
      - lra. }
    assert (Hq : Qeq_bool ((det sr + late sr + faint sr) * area_sky) 0 = true).
    { apply Qeq_bool_iff. rewrite Hz. apply Qmult_0_l. }
    rewrite Hq. reflexivity.
Qed.

Section RatesProperties.

Variable Rates_scale_by_area : Rates -> Rates.

(** C7: with non-negative counters, [calc_rates] computes the area-scaling
    factor [beam_solid_angle * total / ((detected + too_late + too_faint)
    * full_sky_solid_angle)], and exactly 1 when that denominator is zero;
    it stores the factor in the source rate and applies it
    ([scale_by_area]) for a one-off population only: for a repeater
    population the source rate only receives its days, name and volume,
    and its factor is left as it was. *)
Theorem calc_rates_area_scaling :
  forall (rep : bool) (self : SurveyPopulation rep) (sv : Survey),
    0 <= det (source_rate self) ->
    0 <= late (source_rate self) ->
    0 <= faint (source_rate self) ->
    ~ n_days self == 0 ->
    ~ vol_co_max self == 0 ->
    exists (sr' : Rates) (self' : SurveyPopulation rep),
      save_scaling (sp_name self) (vol_co_max self) (n_days self)
        (source_rate self) = Ok sr'
      /\ f_area sr' = f_area (source_rate self)
      /\ calc_rates Rates_scale_by_area self sv = Ok self'
      /\ source_rate self'
         = (if rep then sr'
            else Rates_scale_by_area
                   (set_f_area sr'
                      (spec_area_factor (beam_size sv)
                         (tot (source_rate self)) (det (source_rate self))
                         (late (source_rate self)) (faint (source_rate self))
                         area_sky))).
Proof.
  intros rep self sv Hd Hl Hf Hnd Hv.
  eexists. 
  pose proof (save_scaling_ok (sp_name self) (source_rate self) Hnd Hv) as Hs.
  unfold calc_rates. rewrite Hs. simpl.
  destruct rep; simpl.
  - rewrite (save_scaling_ok (sp_name self) (burst_rate self) Hnd Hv). simpl.
    eexists. repeat split.
  - eexists. repeat split.
    rewrite calc_f_area_spec by assumption. reflexivity.
Qed.

End RatesProperties.

(** ** Lengths and counts *)

Lemma length_map2 :
  forall (A B C : Type) (f : A -> B -> C) (l1 : list A) (l2 : list B),
    length (map2 f l1 l2) = Nat.min (length l1) (length l2).
Proof.
  induction l1 as [|x l1 IH]; intros [|y l2]; simpl; auto.
Qed.

Lemma length_map3 :
  forall (A B C D : Type) (f : A -> B -> C -> D) l1 l2 l3,
    length (map3 f l1 l2 l3)
    = Nat.min (length l1) (Nat.min (length l2) (length l3)).
Proof.
  intros. unfold map3. now rewrite length_map2, length_combine.
Qed.

Lemma count_nonzero_le : forall mask, (count_nonzero mask <= length mask)%nat.
Proof. intros mask. unfold count_nonzero. apply filter_length_le. Qed.

Lemma length_bmask :
  forall (A : Type) (l : list A) (mask : list bool),
    length l = length mask -> length (bmask l mask) = count_nonzero mask.
Proof.
  unfold count_nonzero.
  induction l as [|x l IH]; intros [|b mask] H; simpl in *; try discriminate;
    auto.
  destruct b; simpl; auto.
Qed.

Lemma count_nonzero_negb :
  forall mask,
    (count_nonzero (map negb mask) + count_nonzero mask = length mask)%nat.
Proof.
  unfold count_nonzero.
  induction mask as [|b mask IH]; simpl; auto.
  destruct b; simpl; lia.
Qed.

Lemma qn_plus : forall a b : nat, qn (a + b) == qn a + qn b.
Proof.
  intros a b. unfold qn. now rewrite Nat2Z.inj_add, inject_Z_plus.
Qed.

Lemma length_scintillate :
  forall sv ts d l b s,
    length ts = length s -> length d = length s -> length l = length s ->
    length b = length s ->
    length (scintillate sv ts d l b s) = length s.
Proof.
  intros sv ts d l b s H1 H2 H3 H4. unfold scintillate.
  rewrite length_map, !length_combine, length_seq. lia.
Qed.

Lemma length_rate_mask_of :
  forall rng zs, length (rate_mask_of rng zs) = length zs.
Proof.
  intros rng zs. unfold rate_mask_of.
  rewrite length_map2, !length_map, length_seq. lia.
Qed.

(** ** The shape of the frame *)

Lemma ra_arr_rows :
  forall rep (f : Frbs rep) n, input_rows f n -> length (ra_arr f) = n.
Proof.
  intros rep f n H. destruct (rows_ra H) as (l & E & Hl).
  unfold ra_arr. now rewrite E.
Qed.

Lemma apply1_input_rows :
  forall rep (f : Frbs rep) n mask,
    input_rows f n -> length mask = n ->
    input_rows (apply1 f mask) (count_nonzero mask).
Proof.
  intros rep f n mask H Hm. destruct H.
  constructor; simpl; try (apply length_bmask; congruence).
  - destruct rows_ra0 as (l & E & Hl). rewrite E. simpl.
    eexists. split; [reflexivity|]. apply length_bmask. congruence.
  - intros Hr. apply length_bmask. rewrite rows_time0; auto.
  - intros l E. destruct (t_scat f) as [l0|]; simpl in E; [|discriminate].
    injection E as <-. apply length_bmask. rewrite (rows_t_scat0 l0); auto.
Qed.

Lemma apply1_derived_rows :
  forall rep (f : Frbs rep) n mask,
    derived_rows f n -> length mask = n ->
    derived_rows (apply1 f mask) (count_nonzero mask).
Proof.
  intros rep f n mask H Hm. destruct H.
  constructor; try (simpl; apply length_bmask; congruence).
  eapply apply1_input_rows; eauto.
Qed.

Lemma length_region_mask_of :
  forall rep sv (f : Frbs rep) n,
    input_rows f n -> length (region_mask_of sv f) = n.
Proof.
  intros rep sv f n H. unfold region_mask_of.
  rewrite length_map, !length_combine, (ra_arr_rows H).
  destruct H. lia.
Qed.

Lemma length_opt_col :
  forall ts like n,
    (forall l, ts = Some l -> length l = n) -> length like = n ->
    length (opt_col ts like) = n.
Proof.
  intros [l|] like n H Hl; simpl; rewrite length_map; auto.
Qed.

Lemma derive_columns_rows :
  forall rep sv scat fl fh (f : Frbs rep) n,
    input_rows f n -> derived_rows (derive_columns sv scat fl fh f) n.
Proof.
  intros rep sv scat fl fh f n H.
  assert (Hra := ra_arr_rows H). destruct H.
  assert (Hts : forall l,
             t_scat (if scat
                     then set_t_scat (set_t_dm f (map (calc_dm_smear sv) (dm f)))
                            (Some (map (calc_scat sv) (dm f)))
                     else set_t_dm f (map (calc_dm_smear sv) (dm f))) = Some l ->
             length l = n).
  { intros l. destruct scat; simpl; intros E.
    - injection E as <-. now rewrite length_map.
    - now apply rows_t_scat0. }
  unfold derive_columns.
  constructor; [constructor|..]; destruct scat; simpl in *;
    rewrite ?length_map, ?length_combine, ?length_map2, ?length_map,
      ?length_combine, ?length_map;
    try rewrite (@length_opt_col _ _ n) by (auto; now rewrite length_map);
    rewrite ?length_map; auto; try lia.
Qed.

(** ** The one-off path *)

Lemma oneoff_measure_rows :
  forall sv (self : SurveyPopulation false) n,
    derived_rows (frbs self) n ->
    derived_rows (oneoff_measure sv self) n
    /\ length (snr (oneoff_measure sv self)) = n.
Proof.
  intros sv self n H.
  unfold oneoff_measure.
  set (fr0 := frbs self) in *.
  set (beam := map (calc_beam sv) (seq 0 (length (s_peak fr0)))).
  set (fr1 := set_s_peak fr0 (map2 fmul (s_peak fr0) (map fst beam))).
  set (fr2 := set_offset fr1 (map snd beam)).
  set (fr3 := set_fluence fr2 _).
  set (fr4 := set_snr fr3 _).
  assert (Hbeam : length (map fst beam) = n).
  { unfold beam. rewrite !length_map, length_seq. apply (rows_s_peak H). }
  assert (H4 : derived_rows fr4 n /\ length (snr fr4) = n).
  { destruct H as [Hi ? ? ? ?]. destruct Hi.
    split; [constructor; [constructor|..]|]; simpl; auto;
      rewrite ?length_map3, ?length_map2, ?Hbeam; simpl;
      rewrite ?length_map2, ?Hbeam; change (burst_t false) with float in *;
      lia. }
  clearbody fr4.
  destruct (scin self); [|exact H4].
  destruct H4 as [H4 Hs]. destruct H4 as [Hi ? ? ? ?]. destruct Hi.
  destruct (t_scat fr4) as [l|] eqn:E.
  - split; [constructor; [constructor|..]|]; simpl; rewrite ?E; auto.
    pose proof (rows_t_scat0 l eq_refl).
    change (burst_t false) with float in *.
    rewrite length_scintillate; congruence.
  - split; [constructor; [constructor|..]|]; simpl; auto.
    + intros l E'. injection E' as <-. now rewrite length_map.
    + change (burst_t false) with float in *.
      rewrite length_scintillate; rewrite ?length_map; congruence.
Qed.

Lemma oneoff_snr_rows :
  forall sv (self : SurveyPopulation false) n,
    derived_rows (frbs self) n ->
    exists c,
      derived_rows (frbs (oneoff_snr sv self)) c
      /\ length (snr (frbs (oneoff_snr sv self))) = c
      /\ source_rate (oneoff_snr sv self)
         = set_faint (source_rate self) (qn n - qn c).
Proof.
  intros sv self n H.
  destruct (oneoff_measure_rows sv self H) as [H5 Hs5].
  unfold oneoff_snr, snr_mask_oneoff.
  set (fr5 := oneoff_measure sv self) in *. clearbody fr5.
  change (burst_t false) with float in *.
  exists (count_nonzero (map (fun x => fge x (snr_limit sv)) (snr fr5))).
  simpl. split; [|split].
  - apply apply1_derived_rows with (n := n); auto.
    now rewrite length_map.
  - apply length_bmask. now rewrite length_map.
  - rewrite length_map, Hs5. reflexivity.
Qed.

Lemma nth_error_rate_mask_from :
  forall rng zs s k,
    nth_error
      (map2 fle (map (random_draw rng) (seq s (length zs)))
         (map (fun zk => fdiv (Fin 1) (fadd (Fin 1) zk)) zs)) k
    = option_map
        (fun zk => fle (random_draw rng (s + k))
                     (fdiv (Fin 1) (fadd (Fin 1) zk)))
        (nth_error zs k).
Proof.
  induction zs as [|zk zs IH]; intros s k; simpl.
  - destruct k; reflexivity.
  - destruct k as [|k]; simpl.
    + now rewrite Nat.add_0_r.
    + rewrite IH. now rewrite Nat.add_succ_r.
Qed.

Lemma nth_error_rate_mask_of :
  forall rng zs k,
    nth_error (rate_mask_of rng zs) k
    = option_map
        (fun zk => fle (random_draw rng k) (fdiv (Fin 1) (fadd (Fin 1) zk)))
        (nth_error zs k).
Proof.
  intros rng zs k. unfold rate_mask_of.
  now rewrite nth_error_rate_mask_from.
Qed.

Lemma survival_limit :
  forall u q : Q, 0 <= q ->
    fle (Fin u) (fdiv (Fin 1) (fadd (Fin 1) (Fin q))) = true
    <-> u <= 1 / (1 + q).
Proof.
  intros u q Hq. simpl.
  rewrite Qeq_bool_false by (intros H; lra).
  simpl. apply Qle_bool_iff.
Qed.

Lemma qn_removed :
  forall mask,
    qn (length mask) - qn (count_nonzero mask)
    == qn (count_nonzero (map negb mask)).
Proof.
  intros mask. pose proof (count_nonzero_negb mask) as H.
  rewrite <- H at 1. rewrite qn_plus. ring.
Qed.

(** C6: in the one-off path, after the SNR threshold, the source at
    position [k] is kept if and only if its uniform draw [u] satisfies
    [u <= 1 / (1 + z)], and [too_late] becomes the number of sources this
    step removes. *)
Theorem oneoff_late_keeps_by_draw :
  forall (rng : Rng) (self : SurveyPopulation false) (n : nat),
    derived_rows (frbs self) n ->
    exists mask : list bool,
      length mask = n
      /\ (forall k zk, nth_error (z (frbs self)) k = Some zk ->
            nth_error mask k
            = Some (fle (random_draw rng k) (fdiv (Fin 1) (fadd (Fin 1) zk))))
      /\ (forall k u q,
            nth_error (z (frbs self)) k = Some (Fin q) -> 0 <= q ->
            random_draw rng k = Fin u ->
            (nth_error mask k = Some true <-> u <= 1 / (1 + q)))
      /\ frbs (oneoff_late rng self) = apply1 (frbs self) mask
      /\ late (source_rate (oneoff_late rng self))
         == qn (count_nonzero (map negb mask))
      /\ late (source_rate (oneoff_late rng self))
         == qn n - qn (length (index (frbs (oneoff_late rng self)))).
Proof.
  intros rng self n H.
  assert (Hz : length (z (frbs self)) = n) by apply (rows_z (rows_input H)).
  assert (Hm : length (rate_mask_of rng (z (frbs self))) = n)
    by now rewrite length_rate_mask_of.
  exists (rate_mask_of rng (z (frbs self))).
  split; [exact Hm|]. split; [|split; [|split; [|split]]].
  - intros k zk E. now rewrite nth_error_rate_mask_of, E.
  - intros k u q E Hq Hu. rewrite nth_error_rate_mask_of, E.
    cbn [option_map]. rewrite Hu. split; intros H'.
    + injection H' as H'. now apply survival_limit.
    + apply (survival_limit u Hq) in H'. now rewrite H'.
  - reflexivity.
  - simpl. apply qn_removed.
  - simpl. rewrite length_bmask
      by (rewrite Hm; apply (rows_index (rows_input H))).
    now rewrite Hm.
Qed.

Lemma oneoff_late_rows :
  forall rng (self : SurveyPopulation false) c,
    derived_rows (frbs self) c ->
    length (snr (frbs self)) = c ->
    exists d,
      length (snr (frbs (oneoff_late rng self))) = d
      /\ source_rate (oneoff_late rng self)
         = set_late (set_late (source_rate self) (qn c)) (qn c - qn d).
Proof.
  intros rng self c H Hs.
  assert (Hm : length (rate_mask_of rng (z (frbs self))) = c).
  { rewrite length_rate_mask_of. apply (rows_z (rows_input H)). }
  exists (count_nonzero (rate_mask_of rng (z (frbs self)))).
  change (burst_t false) with float in *.
  unfold oneoff_late. simpl. split.
  - apply length_bmask. congruence.
  - now rewrite Hm.
Qed.

Lemma calc_rates_oneoff_balance :
  forall (scale_area : Rates -> Rates) (self : SurveyPopulation false) sv,
    (forall r, oneoff_balance r -> oneoff_balance (scale_area r)) ->
    ~ n_days self == 0 -> ~ vol_co_max self == 0 ->
    oneoff_balance (source_rate self) ->
    exists self',
      calc_rates scale_area self sv = Ok self'
      /\ oneoff_balance (source_rate self').
Proof.
  intros scale_area self sv Hscale Hnd Hv Hb.
  unfold calc_rates.
  rewrite (save_scaling_ok (sp_name self) (source_rate self) Hnd Hv).
  simpl. eexists. split; [reflexivity|].
  simpl. apply Hscale. exact Hb.
Qed.

Section OneOffConservation.

Variable Rates_scale_by_area : Rates -> Rates.
Variable Frbs_clean_up : Frbs true -> Frbs true.
Variable np_arange_length : Q -> Q -> Q -> nat.

(** C2: for a generated one-off population whose frame holds one entry per
    source in every column ([n_srcs] of them), the constructor completes
    and leaves source-level counters with
    [total == out_of_region + too_late + too_faint + detected].  When the
    rates are scaled by area, the run needs a non-zero day count and
    volume, and the method [Rates.scale_by_area], which is not part of the
    sources, is taken to preserve the balance. *)
Theorem oneoff_conservation :
  forall (p : Population false) (sv : Survey) (scat scin scale : bool)
         (rng : Rng) (n : nat),
    input_rows (pop_frbs p) n ->
    n_srcs p = Z.of_nat n ->
    (scale = true ->
     forall r, oneoff_balance r -> oneoff_balance (Rates_scale_by_area r)) ->
    (scale = true -> ~ pop_n_days p == 0) ->
    (scale = true -> ~ pop_vol_co_max p == 0) ->
    exists self : SurveyPopulation false,
      SurveyPopulation_init Rates_scale_by_area Frbs_clean_up
        np_arange_length (APopulation p)
        sv scat scin scale rng = Ok self
      /\ oneoff_balance (source_rate self).
Proof.
  intros p sv scat scin scale rng n Hrows Hn Hscale Hnd Hv.
  unfold SurveyPopulation_init.
  destruct (rows_ra Hrows) as (l & Era & _). rewrite Era.
  cbn [andb count_late_before count_out_bursts detect].
  set (sv' := with_n_days sv (pop_n_days p)).
  set (rm := region_mask_of sv' _).
  assert (Hrm : length rm = n).
  { apply length_region_mask_of. exact Hrows. }
  set (self0 := set_frbs _ (derive_columns _ _ _ _ _)).
  assert (H0 : derived_rows (frbs self0) (count_nonzero rm)).
  { subst self0. simpl. apply derive_columns_rows.
    eapply apply1_input_rows; eauto. }
  assert (Hsr0 : source_rate self0
                 = set_out (set_tot (Rates_new "source") (inject_Z (n_srcs p)))
                     (qn (count_nonzero (map negb rm)))) by reflexivity.
  assert (Hsv0 : survey self0 = Some sv') by reflexivity.
  assert (Hsc0 : scale_by_area self0 = scale) by reflexivity.
  assert (Hnd0 : n_days self0 = pop_n_days p) by reflexivity.
  assert (Hv0 : vol_co_max self0 = pop_vol_co_max p) by reflexivity.
  clearbody self0.
  unfold det_oneoffs. rewrite Hsv0. unfold det_oneoffs_with.
  destruct (oneoff_snr_rows sv' self0 H0) as (c & H1 & Hs1 & Hr1).
  destruct (oneoff_late_rows rng (oneoff_snr sv' self0) H1 Hs1)
    as (d & Hs2 & Hr2).
  set (self2 := oneoff_late rng (oneoff_snr sv' self0)) in *.
  assert (Hsc2 : scale_by_area self2 = scale) by (subst self2; exact Hsc0).
  assert (Hnd2 : n_days self2 = pop_n_days p) by (subst self2; exact Hnd0).
  assert (Hv2 : vol_co_max self2 = pop_vol_co_max p)
    by (subst self2; exact Hv0).
  clearbody self2.
  unfold oneoff_finish.
  set (self3 := set_source_rate self2 _).
  assert (Hb : oneoff_balance (source_rate self3)).
  { subst self3. unfold oneoff_balance. simpl.
    change (burst_t false) with float in *.
    rewrite Hs2, Hr2, Hr1, Hsr0. simpl.
    rewrite <- (qn_removed rm), Hrm, Hn. fold (qn n). ring. }
  change (scale_by_area self3) with (scale_by_area self2). rewrite Hsc2.
  destruct scale.
  - destruct (@calc_rates_oneoff_balance Rates_scale_by_area self3 sv')
      as (self' & E & Hb'); auto.
    + change (n_days self3) with (n_days self2). rewrite Hnd2. auto.
    + change (vol_co_max self3) with (vol_co_max self2). rewrite Hv2. auto.
    + rewrite E. simpl. eexists. split; [reflexivity|]. exact Hb'.
  - simpl. eexists. split; [reflexivity|]. exact Hb.
Qed.

End OneOffConservation.

(** ** fast_where, row by row *)

Lemma where1_from :
  forall mask s,
    map fst (filter snd (combine (seq s (length mask)) mask))
    = filter (fun u => nth (u - s) mask false) (seq s (length mask)).
Proof.
  induction mask as [|b mask IH]; intros s; [reflexivity|].
  assert (E : filter (fun u => nth (u - s) (b :: mask) false)
                (seq (S s) (length mask))
              = filter (fun u => nth (u - S s) mask false)
                  (seq (S s) (length mask))).
  { apply filter_ext_in. intros u Hu. apply in_seq in Hu.
    replace (u - s)%nat with (S (u - S s)) by lia. reflexivity. }
  cbn [length seq combine filter snd].
  rewrite E, Nat.sub_diag. cbn [nth].
  destruct b; cbn [map fst]; rewrite IH; reflexivity.
Qed.

Lemma where1_filter :
  forall mask,
    where1 mask = filter (fun u => nth u mask false) (seq 0 (length mask)).
Proof.
  intros mask. unfold where1, enumerate. rewrite where1_from.
  apply filter_ext. intros u. now rewrite Nat.sub_0_r.
Qed.

Lemma flat_map_filter_nil :
  forall (A B : Type) (h : A -> list B) (p : A -> bool) (l : list A),
    (forall x, In x l -> p x = false -> h x = []) ->
    flat_map h (filter p l) = flat_map h l.
Proof.
  induction l as [|x l IH]; intros H; simpl; [reflexivity|].
  destruct (p x) eqn:E; simpl.
  - rewrite IH; auto. intros y Hy. apply H. now right.
  - rewrite (H x); auto; [|now left]. simpl.
    apply IH. intros y Hy. apply H. now right.
Qed.

Lemma np_repeat_flat_map :
  forall (f : nat -> nat) (U : list nat),
    np_repeat U (map f U) = flat_map (fun u => repeat u (f u)) U.
Proof.
  induction U as [|u U IH]; simpl; [reflexivity|]. now rewrite IH.
Qed.

Lemma np_sum_app :
  forall l1 l2, np_sum (l1 ++ l2) = (np_sum l1 + np_sum l2)%nat.
Proof.
  induction l1 as [|x l1 IH]; intros l2; simpl; [reflexivity|].
  rewrite IH. lia.
Qed.

Lemma nth_cumsum_from :
  forall l1 l2 acc,
    nth (length l1) (acc :: cumsum_from acc (l1 ++ l2)) 0%nat
    = (acc + np_sum l1)%nat.
Proof.
  induction l1 as [|x l1 IH]; intros l2 acc; simpl.
  - lia.
  - specialize (IH l2 (acc + x)%nat). simpl in IH. rewrite IH. lia.
Qed.

Lemma length_cumsum_from :
  forall l acc, length (cumsum_from acc l) = length l.
Proof.
  induction l as [|x l IH]; intros acc; simpl; auto.
Qed.

(** The loop of lines 399-401 writes the column ranges one after the
    other. *)
Lemma fill_cols_segments :
  forall (L R U2 U1 : list nat) (P Z : list nat),
    let f := fun u => (nth u R 0 - nth u L 0)%nat in
    let g := fun u => arange_nat (nth u L 0%nat) (nth u R 0%nat) in
    let U := U1 ++ U2 in
    let cum := 0%nat :: np_cumsum (map f U) in
    length P = np_sum (map f U1) ->
    length Z = np_sum (map f U2) ->
    fill_cols L R U cum
      (combine (seq (length U1) (length U2))
         (cumsum_from (np_sum (map f U1)) (map f U2)))
      (P ++ Z)
    = P ++ flat_map g U2.
Proof.
  intros L R U2. induction U2 as [|u U2 IH]; intros U1 P Z f g U cum HP HZ.
  - simpl in *. destruct Z; [reflexivity|discriminate].
  - simpl combine. cbn [fill_cols].
    assert (Hu : nth (length U1) U 0%nat = u).
    { unfold U. rewrite app_nth2 by lia. now rewrite Nat.sub_diag. }
    assert (Hc : nth (length U1) cum 0%nat = np_sum (map f U1)).
    { unfold cum, np_cumsum, U. rewrite map_app.
      rewrite <- (length_map f U1) at 1.
      rewrite nth_cumsum_from. lia. }
    rewrite Hu, Hc.
    assert (Hg : length (g u) = f u).
    { unfold g, f, arange_nat. now rewrite length_seq. }
    simpl in HZ.
    assert (HZ' : exists Z1 Z2, Z = Z1 ++ Z2 /\ length Z1 = f u
                                /\ length Z2 = np_sum (map f U2)).
    { exists (firstn (f u) Z), (skipn (f u) Z).
      rewrite firstn_skipn, length_firstn, length_skipn. fold f in HZ.
      repeat split; lia. }
    destruct HZ' as (Z1 & Z2 & -> & HZ1 & HZ2).
    assert (Hs : set_slice (P ++ Z1 ++ Z2) (np_sum (map f U1))
                   (np_sum (map f U1) + f u) (g u)
                 = (P ++ g u) ++ Z2).
    { unfold set_slice. rewrite <- HP.
      rewrite firstn_app, firstn_all, Nat.sub_diag. simpl.
      rewrite app_nil_r.
      rewrite skipn_app, skipn_all2 by lia. simpl.
      replace (length P + f u - length P)%nat with (f u) by lia.
      rewrite skipn_app, skipn_all2 by lia.
      replace (f u - length Z1)%nat with 0%nat by lia. simpl.
      now rewrite <- app_assoc. }
    fold f. change (arange_nat (nth u L 0%nat) (nth u R 0%nat)) with (g u).
    rewrite Hs.
    assert (E1 : length (U1 ++ [u]) = S (length U1))
      by (rewrite length_app; simpl; lia).
    assert (E2 : np_sum (map f (U1 ++ [u])) = (np_sum (map f U1) + f u)%nat)
      by (rewrite map_app, np_sum_app; simpl; lia).
    specialize (IH (U1 ++ [u]) (P ++ g u) Z2).
    cbv zeta in IH. fold f g in IH.
    rewrite <- app_assoc in IH. cbn [app] in IH.
    rewrite E1, E2 in IH. fold U cum in IH.
    rewrite IH.
    + simpl. now rewrite <- app_assoc.
    + rewrite length_app. lia.
    + exact HZ2.
Qed.

Lemma map_fst_pairs :
  forall (g : nat -> list nat) (U : list nat),
    map fst (flat_map (fun u => map (pair u) (g u)) U)
    = flat_map (fun u => repeat u (length (g u))) U.
Proof.
  induction U as [|u U IH]; simpl; [reflexivity|].
  rewrite map_app, IH. f_equal.
  induction (g u) as [|c l IHl]; simpl; [reflexivity|]. now rewrite IHl.
Qed.

Lemma map_snd_pairs :
  forall (g : nat -> list nat) (U : list nat),
    map snd (flat_map (fun u => map (pair u) (g u)) U) = flat_map g U.
Proof.
  induction U as [|u U IH]; simpl; [reflexivity|].
  rewrite map_app, IH. f_equal.
  rewrite map_map. simpl. apply map_id.
Qed.

Lemma nth_leb_mask :
  forall (L R : list nat) u,
    length L = length R -> (u < length L)%nat ->
    nth u (map (fun '(l, r) => l <=? r) (combine L R)) false
    = (nth u L 0 <=? nth u R 0)%nat.
Proof.
  intros L R u Hlen Hu.
  set (F := fun '(l, r) => (l <=? r)%nat).
  transitivity (nth u (map F (combine L R)) (F (0%nat, 0%nat))).
  - apply nth_indep. rewrite length_map, length_combine. lia.
  - rewrite (map_nth F), combine_nth by exact Hlen. reflexivity.
Qed.

Lemma nth_searchsorted :
  forall (a : matrix float) (v : float) (r : nat),
    nth r (map (fun row => searchsorted row v) a) 0%nat
    = searchsorted (nth r a []) v.
Proof.
  intros a v r. exact (map_nth (fun row => searchsorted row v) a [] r).
Qed.

(** [fast_where] returns the pairs of [window_hits], rows in the first
    array and columns in the second; it raises on a matrix without
    rows. *)
Lemma fast_where_hits :
  forall (a : matrix float) (min_v max_v : float),
    a <> [] ->
    fast_where a min_v max_v
    = Ok (map fst (window_hits a min_v max_v),
          map snd (window_hits a min_v max_v)).
Proof.
  intros a min_v max_v Ha. unfold fast_where.
  assert (E : forall (B : Type) (f : list float -> B),
             apply_along_axis1 f a = Ok (map f a)).
  { intros B f. destruct a; [contradiction|reflexivity]. }
  rewrite !E. cbn [bind].
  set (L := map (fun row => searchsorted row min_v) a).
  set (R := map (fun row => searchsorted row max_v) a).
  set (U := where1 _).
  set (f := fun u => (nth u R 0 - nth u L 0)%nat).
  set (g := fun u => arange_nat (nth u L 0%nat) (nth u R 0%nat)).
  assert (HL : length L = length a) by (unfold L; now rewrite length_map).
  assert (HR : length R = length a) by (unfold R; now rewrite length_map).
  assert (Hg : forall u, length (g u) = f u).
  { intros u. unfold g, f, arange_nat. now rewrite length_seq. }
  assert (Hhits : window_hits a min_v max_v
                  = flat_map (fun u => map (pair u) (g u)) U).
  { unfold window_hits, U. rewrite where1_filter.
    rewrite length_map, length_combine, HL, HR, Nat.min_id.
    rewrite flat_map_filter_nil.
    - apply flat_map_ext. intros r. unfold row_window, g, L, R.
      now rewrite !nth_searchsorted.
    - intros u Hu Hmask. apply in_seq in Hu.
      rewrite nth_leb_mask in Hmask by lia.
      apply Nat.leb_gt in Hmask.
      unfold g, arange_nat.
      replace (nth u R 0 - nth u L 0)%nat with 0%nat by lia. reflexivity. }
  rewrite Hhits, map_fst_pairs, map_snd_pairs.
  f_equal. f_equal.
  - fold f. change (map (fun u => (nth u R 0 - nth u L 0)%nat) U)
      with (map f U).
    rewrite np_repeat_flat_map. apply flat_map_ext. intros u.
    now rewrite Hg.
  - change (map (fun u => (nth u R 0 - nth u L 0)%nat) U) with (map f U).
    cbn [tl]. unfold enumerate, np_cumsum.
    rewrite length_cumsum_from, length_map.
    pose proof (@fill_cols_segments L R U [] [] (repeat 0%nat (np_sum (map f U))))
      as H.
    cbv zeta in H. simpl in H. fold f g in H.
    unfold np_cumsum in H. rewrite H; [reflexivity|reflexivity|].
    now rewrite repeat_length.
Qed.

(** ** Writes into 2-D arrays keep the shape *)

Lemma length_set_nth :
  forall (A : Type) (l : list A) i v, length (set_nth l i v) = length l.
Proof.
  induction l as [|x l IH]; intros [|i] v; simpl; auto.
Qed.

Lemma nth_set_nth_same :
  forall (A : Type) (l : list A) i v d,
    (i < length l)%nat -> nth i (set_nth l i v) d = v.
Proof.
  induction l as [|x l IH]; intros [|i] v d H; simpl in *; try lia; auto.
  apply IH. lia.
Qed.

Lemma nth_set_nth_other :
  forall (A : Type) (l : list A) i j v d,
    i <> j -> nth j (set_nth l i v) d = nth j l d.
Proof.
  induction l as [|x l IH]; intros [|i] [|j] v d H; simpl; auto.
  contradiction.
Qed.

Lemma set_nth_out_of_range :
  forall (A : Type) (l : list A) i v,
    (length l <= i)%nat -> set_nth l i v = l.
Proof.
  induction l as [|x l IH]; intros [|i] v H; simpl in *; auto; try lia.
  f_equal. apply IH. lia.
Qed.

Lemma shape_set2 :
  forall (A : Type) (m : matrix A) rc v, shape (set2 m rc v) = shape m.
Proof.
  intros A m [r c] v. unfold shape, set2. simpl.
  revert r. induction m as [|row m IH]; intros [|r]; simpl; auto.
  - now rewrite length_set_nth.
  - f_equal. apply IH.
Qed.

Lemma shape_scatter2 :
  forall (A : Type) (ix : list (nat * nat)) (vals : list A) (m : matrix A),
    shape (scatter2 m ix vals) = shape m.
Proof.
  induction ix as [|rc ix IH]; intros [|v vals] m; simpl; auto.
  now rewrite IH, shape_set2.
Qed.

Lemma shape_scatter2_const :
  forall (A : Type) (ix : list (nat * nat)) (v : A) (m : matrix A),
    shape (scatter2_const m ix v) = shape m.
Proof.
  unfold scatter2_const.
  induction ix as [|rc ix IH]; intros v m; simpl; auto.
  now rewrite IH, shape_set2.
Qed.

Lemma shape_full_like :
  forall (A B : Type) (m : matrix A) (v : B), shape (full_like m v) = shape m.
Proof.
  intros A B m v. unfold shape, full_like. rewrite map_map.
  apply map_ext. intros row. apply length_map.
Qed.

Lemma bmask_map :
  forall (A B : Type) (f : A -> B) (l : list A) (mask : list bool),
    bmask (map f l) mask = map f (bmask l mask).
Proof.
  induction l as [|x l IH]; intros [|b mask]; simpl; auto.
  destruct b; simpl; now rewrite IH.
Qed.

Lemma combine_fst_snd :
  forall (A B : Type) (l : list (A * B)),
    combine (map fst l) (map snd l) = l.
Proof.
  induction l as [|[x y] l IH]; simpl; auto. now rewrite IH.
Qed.

Lemma bmask_partition_length :
  forall (A : Type) (l : list A) (mask : list bool),
    length mask = length l ->
    (length (bmask l (map negb mask)) + length (bmask l mask))%nat = length l.
Proof.
  induction l as [|x l IH]; intros [|b mask] H; simpl in *; try discriminate;
    auto.
  injection H as H. specialize (IH mask H). destruct b; simpl; lia.
Qed.

Lemma length_gather :
  forall (A : Type) (d : A) l ix, length (gather d l ix) = length ix.
Proof. intros. unfold gather. apply length_map. Qed.

Lemma length_beam_in_window :
  forall sv fr ra_pt dec_pt lst rows,
    length (beam_in_window sv fr ra_pt dec_pt lst rows) = length rows.
Proof.
  intros. unfold beam_in_window.
  rewrite length_map2, !length_gather. lia.
Qed.

(** ** One pointing *)

Lemma time_measure_window :
  forall sv fr ix nix ip u nb,
    time (measure_window sv fr ix nix ip u nb) = time fr
    /\ index (measure_window sv fr ix nix ip u nb) = index fr
    /\ shape (snr (measure_window sv fr ix nix ip u nb)) = shape (snr fr).
Proof.
  intros. unfold measure_window. simpl.
  repeat split. apply shape_scatter2.
Qed.

Lemma time_scintillate_pointing :
  forall sv fr u nb ix fr',
    scintillate_pointing sv fr u nb ix = Ok fr' ->
    time fr' = time fr /\ index fr' = index fr
    /\ shape (snr fr') = shape (snr fr).
Proof.
  intros sv fr u nb ix fr' H. unfold scintillate_pointing in H.
  destruct (t_scat fr); [|discriminate].
  injection H as <-. simpl. repeat split. apply shape_scatter2.
Qed.

(** What one call of [_iter_pointings] does to the object: the bursts in
    the window are split by the beam mask [p_ix]; those in the beam are
    split by the SNR mask. *)
Lemma iter_pointings_effect :
  forall sv (self self' : SurveyPopulation true) ra_pt dec_pt lst t_min t_max
         xy,
    iter_pointings sv self ra_pt dec_pt lst t_min t_max = Ok (self', xy) ->
    exists (p_ix : list bool) (ix1 ix2 : list nat),
      let hits := window_hits (time (frbs self)) t_min t_max in
      let tp := bmask hits p_ix in
      let kept := bmask tp (snr_mask_window sv (frbs self') tp) in
      time (frbs self) <> []
      /\ length p_ix = length hits
      /\ xy = (map fst kept, map snd kept)
      /\ burst_rate self'
         = set_faint
             (set_pointing (burst_rate self)
                (pointing (burst_rate self)
                 + qn (length (bmask hits (map negb p_ix)))))
             (faint (burst_rate self) + (qn (length tp) - qn (length kept)))
      /\ srcs_not_in_pointing self'
         = clear_flags (srcs_not_in_pointing self) ix1
      /\ srcs_not_bright self' = clear_flags (srcs_not_bright self) ix2
      /\ source_rate self' = source_rate self
      /\ time (frbs self') = time (frbs self)
      /\ index (frbs self') = index (frbs self)
      /\ shape (snr (frbs self')) = shape (snr (frbs self))
      /\ scin self' = scin self
      /\ (sp_name self', vol_co_max self', n_days self')
         = (sp_name self, vol_co_max self, n_days self).
Proof.
  intros sv self self' ra_pt dec_pt lst t_min t_max xy H.
  unfold iter_pointings in H.
  assert (Ha : time (frbs self) <> []).
  { intros E. rewrite E in H. discriminate H. }
  rewrite (fast_where_hits _ _ Ha) in H. cbn [bind fst snd] in H.
  set (hits := window_hits (time (frbs self)) t_min t_max) in *.
  set (int_pro := beam_in_window sv (frbs self) ra_pt dec_pt lst _) in *.
  set (p_ix := map (fun x => negb (isnan x)) int_pro) in *.
  assert (Hp : length p_ix = length hits).
  { unfold p_ix, int_pro.
    now rewrite length_map, length_beam_in_window, length_map. }
  unfold np_unique_counts in H. cbv zeta in H.
  rewrite !bmask_map, !combine_fst_snd, !length_map in H.
  set (tp := bmask hits p_ix) in *.
  set (fr1 := measure_window _ _ _ _ _ _ _) in *.
  destruct (time_measure_window sv (frbs self) tp
              (bmask hits (map negb p_ix)) (bmask int_pro p_ix)
              (np_unique (map fst tp))
              (map (fun x => count_occ Nat.eq_dec (map fst tp) x)
                 (np_unique (map fst tp)))) as (Ht1 & Hi1 & Hs1).
  fold fr1 in Ht1, Hi1, Hs1.
  assert (Hfr : exists fr2,
             (if scin self
              then scintillate_pointing sv fr1 (np_unique (map fst tp))
                     (map (fun x => count_occ Nat.eq_dec (map fst tp) x)
                        (np_unique (map fst tp))) tp
              else Ok fr1) = Ok fr2
             /\ time fr2 = time (frbs self)
             /\ index fr2 = index (frbs self)
             /\ shape (snr fr2) = shape (snr (frbs self))).
  { destruct (scin self).
    - destruct (scintillate_pointing sv fr1 _ _ tp) as [fr2|e] eqn:E;
        [|discriminate H].
      destruct (time_scintillate_pointing _ _ _ _ _ E) as (A & B & C).
      exists fr2. repeat split; congruence.
    - exists fr1. repeat split; assumption. }
  destruct Hfr as (fr2 & E2 & Ht2 & Hi2 & Hs2).
  rewrite E2 in H. cbn [bind] in H.
  rewrite !bmask_map, !length_map in H.
  injection H as <- <-.
  exists p_ix, (np_unique (map fst tp)),
    (np_unique (map fst (bmask tp (snr_mask_window sv fr2 tp)))).
  cbv zeta. simpl. fold hits. fold tp.
  repeat split; auto.
Qed.

(** ** The loop over the pointings *)

Lemma set_false_at_cleared :
  forall flags i k,
    nth k flags true = false -> nth k (set_false_at flags i) true = false.
Proof.
  induction flags as [|b flags IH]; intros [|i] [|k] H; simpl in *; auto.
Qed.

Lemma clear_flags_cleared :
  forall ix flags k,
    nth k flags true = false -> nth k (clear_flags flags ix) true = false.
Proof.
  unfold clear_flags.
  induction ix as [|i ix IH]; intros flags k H; simpl; auto.
  apply IH. now apply set_false_at_cleared.
Qed.

Lemma pointing_step_effect :
  forall sv times lst self keep i self' keep',
    pointing_step sv times lst (self, keep) i = Ok (self', keep') ->
    exists ra_pt dec_pt lst_i t_min t_max xy,
      nth_error times i = Some t_min
      /\ nth_error times (i + 1) = Some t_max
      /\ iter_pointings sv self ra_pt dec_pt (Fin lst_i) (Fin t_min)
           (Fin t_max) = Ok (self', xy)
      /\ keep' = (fst keep ++ fst xy, snd keep ++ snd xy).
Proof.
  intros sv times lst self keep i self' keep' H.
  unfold pointing_step, index_at in H.
  destruct (nth_error (fst (pointings sv)) _) as [ra_pt|]; [|discriminate].
  destruct (nth_error (snd (pointings sv)) _) as [dec_pt|]; [|discriminate].
  destruct (nth_error lst i) as [lst_i|]; [|discriminate].
  destruct (nth_error times i) as [t_min|]; [|discriminate].
  destruct (nth_error times (i + 1)) as [t_max|]; [|discriminate].
  cbn [bind] in H.
  destruct (iter_pointings sv self ra_pt dec_pt (Fin lst_i) (Fin t_min)
              (Fin t_max)) as [[self1 xy]|e] eqn:E; [|discriminate].
  cbn [bind] in H. injection H as <- <-.
  exists ra_pt, dec_pt, lst_i, t_min, t_max, xy. repeat split.
  exact E.
Qed.

Lemma pointing_loop_app :
  forall sv times lst l1 l2 st,
    pointing_loop sv times lst (l1 ++ l2) st
    = (st1 <- pointing_loop sv times lst l1 st ;;
       pointing_loop sv times lst l2 st1).
Proof.
  induction l1 as [|i l1 IH]; intros l2 st; simpl; [reflexivity|].
  destruct (pointing_step sv times lst st i); simpl; auto.
Qed.

Lemma pointing_loop_flags :
  forall sv times lst todo st st',
    pointing_loop sv times lst todo st = Ok st' ->
    flags_cleared_only (fst st) (fst st').
Proof.
  induction todo as [|i todo IH]; intros st st' H; simpl in H.
  - injection H as <-. intros k. auto.
  - destruct (pointing_step sv times lst st i) as [st1|e] eqn:E;
      [|discriminate].
    cbn [bind] in H. specialize (IH _ _ H).
    destruct st as [self keep], st1 as [self1 keep1].
    destruct (pointing_step_effect _ _ _ _ _ _ E)
      as (ra_pt & dec_pt & lst_i & t_min & t_max & xy & _ & _ & Hit & _).
    destruct (iter_pointings_effect _ _ _ _ _ _ _ Hit)
      as (p_ix & ix1 & ix2 & Heff).
    cbv zeta in Heff.
    destruct Heff as (_ & _ & _ & _ & Hn & Hb & _).
    intros k. destruct (IH k) as [IH1 IH2]. simpl in *. split; intros Hk.
    + apply IH1. rewrite Hn. now apply clear_flags_cleared.
    + apply IH2. rewrite Hb. now apply clear_flags_cleared.
Qed.

(** C9: the flags [srcs_not_in_pointing] and [srcs_not_bright] start true
    for every source, and across the pointing loop they are only cleared:
    a flag that is false after iteration [i] is still false after any
    later iteration [j]. *)
Theorem pointing_flags_cleared_only :
  forall (sv : Survey) (times lst : list Q) (self0 : SurveyPopulation true)
         (i j : nat) (st_i st_j : loop_state) (k : nat),
    (i <= j)%nat ->
    pointing_loop sv times lst (seq 0 i) (init_loop self0, ([], [])) = Ok st_i ->
    pointing_loop sv times lst (seq 0 j) (init_loop self0, ([], [])) = Ok st_j ->
    (forall b, In b (srcs_not_in_pointing (init_loop self0)) -> b = true)
    /\ (forall b, In b (srcs_not_bright (init_loop self0)) -> b = true)
    /\ (nth k (srcs_not_in_pointing (fst st_i)) true = false ->
        nth k (srcs_not_in_pointing (fst st_j)) true = false)
    /\ (nth k (srcs_not_bright (fst st_i)) true = false ->
        nth k (srcs_not_bright (fst st_j)) true = false).
Proof.
  intros sv times lst self0 i j st_i st_j k Hij Hi Hj.
  assert (Hinit : forall b l, In b (map (fun _ : nat => true) l) -> b = true).
  { intros b l Hb. apply in_map_iff in Hb. destruct Hb as (x & <- & _).
    reflexivity. }
  split; [|split].
  - intros b. unfold init_loop. simpl. apply Hinit.
  - intros b. unfold init_loop. simpl. apply Hinit.
  - replace j with (i + (j - i))%nat in Hj by lia.
    rewrite seq_app, pointing_loop_app, Hi in Hj. cbn [bind] in Hj.
    apply pointing_loop_flags in Hj. apply (Hj k).
Qed.

(** ** The SNR threshold *)

Lemma feq_fge : forall x y, feq x y = true -> fge x y = true.
Proof.
  intros [| |p|] [| |q|] H; simpl in *; try reflexivity; try discriminate.
  apply Qeq_bool_iff in H. apply Qle_bool_iff. rewrite H. apply Qle_refl.
Qed.

Lemma feq_not_fgt : forall x y, feq x y = true -> fgt x y = false.
Proof.
  intros [| |p|] [| |q|] H; simpl in *; try reflexivity; try discriminate.
  apply Qeq_bool_iff in H. apply negb_false_iff. apply Qle_bool_iff.
  rewrite H. apply Qle_refl.
Qed.

Lemma bmask_map_filter :
  forall (A : Type) (p : A -> bool) (l : list A),
    bmask l (map p l) = filter p l.
Proof.
  induction l as [|x l IH]; simpl; [reflexivity|].
  destruct (p x); now rewrite IH.
Qed.

Lemma snr_mask_window_filter :
  forall sv fr ix,
    bmask ix (snr_mask_window sv fr ix)
    = filter (fun rc => fgt (get2 NaN (snr fr) rc) (snr_limit sv)) ix.
Proof.
  intros sv fr ix. unfold snr_mask_window, gather2.
  rewrite map_map. apply bmask_map_filter.
Qed.

Lemma in_window_hits_eq :
  forall (fr : Frbs true) t_min t_max,
    time fr <> [] ->
    in_window fr t_min t_max = window_hits (time fr) t_min t_max.
Proof.
  intros fr t_min t_max Ha. unfold in_window.
  rewrite (fast_where_hits _ _ Ha). cbn [pairs_of]. apply combine_fst_snd.
Qed.

(** What one call of [_iter_pointings] selects and books: the bursts in
    the window and outside the beam are out of the pointing; of those in
    the beam, the bursts above the SNR limit are returned and the others
    are too faint. *)
Lemma iter_pointings_selection :
  forall sv (self self' : SurveyPopulation true) ra_pt dec_pt lst t_min t_max
         xy,
    iter_pointings sv self ra_pt dec_pt lst t_min t_max = Ok (self', xy) ->
    let tp := in_beam sv (frbs self) ra_pt dec_pt lst t_min t_max in
    let tnp := off_beam sv (frbs self) ra_pt dec_pt lst t_min t_max in
    let kept := above_limit sv (frbs self') tp in
    xy = (map fst kept, map snd kept)
    /\ burst_rate self'
       = set_faint
           (set_pointing (burst_rate self)
              (pointing (burst_rate self) + qn (length tnp)))
           (faint (burst_rate self) + (qn (length tp) - qn (length kept)))
    /\ srcs_not_in_pointing self'
       = clear_flags (srcs_not_in_pointing self) (np_unique (map fst tp))
    /\ srcs_not_bright self'
       = clear_flags (srcs_not_bright self) (np_unique (map fst kept)).
Proof.
  intros sv self self' ra_pt dec_pt lst t_min t_max xy H.
  unfold iter_pointings in H.
  assert (Ha : time (frbs self) <> []).
  { intros E. rewrite E in H. discriminate H. }
  cbv zeta. unfold above_limit, in_beam, off_beam, beam_mask.
  rewrite <- !snr_mask_window_filter.
  rewrite (in_window_hits_eq _ _ _ Ha).
  rewrite (fast_where_hits _ _ Ha) in H. cbn [bind fst snd] in H.
  set (hits := window_hits (time (frbs self)) t_min t_max) in *.
  set (int_pro := beam_in_window sv (frbs self) ra_pt dec_pt lst _) in *.
  set (p_ix := map (fun x => negb (isnan x)) int_pro) in *.
  unfold np_unique_counts in H. cbv zeta in H.
  rewrite !bmask_map, !combine_fst_snd, !length_map in H.
  set (tp := bmask hits p_ix) in *.
  set (fr1 := measure_window _ _ _ _ _ _ _) in *.
  assert (Hfr : exists fr2,
             (if scin self
              then scintillate_pointing sv fr1 (np_unique (map fst tp))
                     (map (fun x => count_occ Nat.eq_dec (map fst tp) x)
                        (np_unique (map fst tp))) tp
              else Ok fr1) = Ok fr2).
  { destruct (scin self).
    - destruct (scintillate_pointing sv fr1 _ _ tp) as [fr2|e] eqn:E;
        [|discriminate H].
      now exists fr2.
    - now exists fr1. }
  destruct Hfr as (fr2 & E2).
  rewrite E2 in H. cbn [bind] in H.
  rewrite !bmask_map, !length_map in H.
  injection H as <- <-.
  cbn [frbs set_frbs set_srcs_not_bright set_srcs_not_in_pointing
         set_burst_rate burst_rate srcs_not_bright srcs_not_in_pointing].
  repeat split; reflexivity.
Qed.

(** C10: at an SNR exactly equal to the survey's limit the two paths
    differ.  A one-off source is kept by the mask [snr >= limit].  In a
    pointing of a repeater survey [_iter_pointings] returns exactly the
    bursts in the window and in the beam whose SNR is above the limit
    ([snr > limit]), and [burst_rate.faint] grows by the number of the
    bursts in the window and in the beam whose SNR is not above it: such
    a burst with the SNR at the limit is not returned, and it is one of
    the bursts counted as too faint. *)
Theorem threshold_asymmetry :
  forall (sv : Survey) (oneoff : SurveyPopulation false) (k : nat)
         (x : float) (self self' : SurveyPopulation true)
         (ra_pt dec_pt lst t_min t_max : float) (xy : list nat * list nat)
         (rc : nat * nat),
    nth_error (snr (oneoff_measure sv oneoff)) k = Some x ->
    feq x (snr_limit sv) = true ->
    iter_pointings sv self ra_pt dec_pt lst t_min t_max = Ok (self', xy) ->
    In rc (in_beam sv (frbs self) ra_pt dec_pt lst t_min t_max) ->
    feq (get2 NaN (snr (frbs self')) rc) (snr_limit sv) = true ->
    nth_error (snr_mask_oneoff sv (oneoff_measure sv oneoff)) k = Some true
    /\ combine (fst xy) (snd xy)
       = above_limit sv (frbs self')
           (in_beam sv (frbs self) ra_pt dec_pt lst t_min t_max)
    /\ ~ In rc (combine (fst xy) (snd xy))
    /\ In rc (not_above_limit sv (frbs self')
                (in_beam sv (frbs self) ra_pt dec_pt lst t_min t_max))
    /\ faint (burst_rate self')
       == faint (burst_rate self)
          + qn (length
                  (not_above_limit sv (frbs self')
                     (in_beam sv (frbs self) ra_pt dec_pt lst t_min t_max))).
Proof.
  intros sv oneoff k x self self' ra_pt dec_pt lst t_min t_max xy rc
         Hk Hx Hit Hin Hrc.
  destruct (iter_pointings_selection _ _ _ _ _ _ _ Hit) as (Hxy & Hbr & _).
  set (tp := in_beam sv (frbs self) ra_pt dec_pt lst t_min t_max) in *.
  assert (Hfaint : fgt (get2 NaN (snr (frbs self')) rc) (snr_limit sv)
                   = false) by (now apply feq_not_fgt).
  split; [|split; [|split; [|split]]].
  - unfold snr_mask_oneoff. rewrite nth_error_map.
    change (burst_t false) with float in *. rewrite Hk. simpl.
    now rewrite (feq_fge _ _ Hx).
  - rewrite Hxy. cbn [fst snd]. apply combine_fst_snd.
  - rewrite Hxy. cbn [fst snd]. rewrite combine_fst_snd.
    unfold above_limit. intros Hc. apply filter_In in Hc.
    destruct Hc as [_ Hc]. rewrite Hfaint in Hc. discriminate Hc.
  - unfold not_above_limit. apply filter_In. split; [exact Hin|].
    now rewrite Hfaint.
  - rewrite Hbr. cbn [faint set_faint].
    pose proof (filter_length
                  (fun rc' => fgt (get2 NaN (snr (frbs self')) rc')
                                  (snr_limit sv)) tp) as L.
    fold (above_limit sv (frbs self') tp) in L.
    rewrite <- L, qn_plus. unfold not_above_limit. ring.
Qed.

(** ** The SNR of the bursts of a repeater *)

(** C4 (as the code behaves): in every pointing the SNR written for the
    selected bursts is [calc_snr] of the attenuated peak flux, the arrival
    width [w_arr] and the system temperature, where the one-off path passes
    the effective width [w_eff].  For the toy survey, whose SNR is
    [s_peak * width / T_sys], the burst at 0.5 days of the source with
    [s_peak = 100], [w_arr = 1], [w_eff = 2] and [T_sys = 2] gets the SNR
    50 in the first pointing; the one-off formula gives 100. *)
Theorem repeater_snr_uses_arrival_width :
  (forall sv fr ix nix ip u nb,
      snr (measure_window sv fr ix nix ip u nb)
      = scatter2 (snr fr) ix
          (map3 (calc_snr sv)
             (gather2 NaN
                (scatter2_const
                   (scatter2 (s_peak fr) ix
                      (map2 fmul (gather2 NaN (s_peak fr) ix) ip)) nix NaN)
                ix)
             (gather2 NaN (w_arr fr) ix)
             (np_repeat (gather NaN (T_sys fr) u) nb)))
  /\ (let self :=
        init_loop (cut_late 20 (Examples.prepared Examples.toy_survey
                                  Examples.single_frbs)) in
      exists self' xy,
        iter_pointings Examples.toy_survey self (Fin 0) (Fin 0) (Fin 0)
          (Fin 0) (Fin 1) = Ok (self', xy)
        /\ get2 NaN (s_peak (frbs self')) (0, 0)%nat = Fin 100
        /\ get2 NaN (w_arr (frbs self')) (0, 0)%nat = Fin 1
        /\ get2 NaN (w_eff (frbs self')) (0, 0)%nat = Fin 2
        /\ nth 0 (T_sys (frbs self')) NaN = Fin 2
        /\ get2 NaN (snr (frbs self')) (0, 0)%nat = Fin (100 # 2)
        /\ calc_snr Examples.toy_survey (Fin 100) (Fin 2) (Fin 2)
           = Fin (200 # 2)).
Proof.
  split.
  - intros. reflexivity.
  - eexists. eexists. vm_compute. repeat split.
Qed.

(** ** The times of the pointings *)

Lemma t_obs_days_pos : forall sv, 0 < t_obs sv -> 0 < t_obs_days sv.
Proof.
  intros sv H. unfold t_obs_days. apply Qlt_shift_div_l; [reflexivity|].
  now rewrite Qmult_0_l.
Qed.

Lemma index_last_map_seq :
  forall (A : Type) (f : nat -> A) m,
    index_last (map f (seq 0 (S m))) = Ok (f m).
Proof.
  intros A f m. unfold index_last.
  rewrite seq_S, map_app, rev_app_distr. reflexivity.
Qed.

(** With a positive pointing duration the pointings start at
    [0, t_obs, 2 t_obs, ...]; there is one more time than pointings, and
    [times[-1]] is the end of the last pointing. *)
Lemma pointing_times_ok :
  forall (len : Q -> Q -> Q -> nat) sv nd m,
    survey_n_days sv = Some nd -> 0 < t_obs sv ->
    len 0 (nd + t_obs_days sv) (t_obs_days sv) = S m ->
    pointing_times len sv = Ok (map (pointing_time sv) (seq 0 (S m))).
Proof.
  intros len sv nd m Hnd Ht Hlen.
  pose proof (t_obs_days_pos sv Ht) as Hd.
  unfold pointing_times. rewrite Hnd. cbn [bind].
  fold (t_obs_days sv). rewrite Hlen. unfold np_arange.
  rewrite Qeq_bool_false by (intros E; rewrite E in Hd; discriminate Hd).
  reflexivity.
Qed.

Lemma end_of_survey_last :
  forall (len : Q -> Q -> Q -> nat) sv t_end,
    0 < t_obs sv ->
    end_of_survey len sv = Ok t_end ->
    exists m : nat,
      pointing_times len sv = Ok (map (pointing_time sv) (seq 0 (S m)))
      /\ t_end = pointing_time sv m.
Proof.
  intros len sv t_end Ht Hend.
  unfold end_of_survey in Hend.
  destruct (survey_n_days sv) as [nd|] eqn:Hnd.
  - destruct (len 0 (nd + t_obs_days sv) (t_obs_days sv)) as [|m] eqn:Hlen.
    + pose proof (t_obs_days_pos sv Ht) as Hd.
      unfold pointing_times in Hend. rewrite Hnd in Hend. cbn [bind] in Hend.
      fold (t_obs_days sv) in Hend. rewrite Hlen in Hend.
      unfold np_arange in Hend.
      rewrite Qeq_bool_false in Hend
        by (intros E; rewrite E in Hd; discriminate Hd).
      discriminate Hend.
    + rewrite (pointing_times_ok len sv Hnd Ht Hlen) in *.
      cbn [bind] in Hend. rewrite index_last_map_seq in Hend.
      injection Hend as <-. exists m. split; reflexivity.
  - unfold pointing_times in Hend. rewrite Hnd in Hend. discriminate Hend.
Qed.

(** ** The cut at the end of the survey *)

Lemma nan_cells_map :
  forall (p : float -> bool) row,
    nan_cells row (map p row) = map (fun x => if p x then x else NaN) row.
Proof.
  unfold nan_cells. induction row as [|x row IH]; simpl; [reflexivity|].
  now rewrite IH.
Qed.

Lemma map2_nan_cells_map :
  forall (p : float -> bool) (m : matrix float),
    map2 nan_cells m (map (map p) m)
    = map (map (fun x => if p x then x else NaN)) m.
Proof.
  induction m as [|row m IH]; simpl; [reflexivity|].
  now rewrite nan_cells_map, IH.
Qed.

Lemma any_row_map :
  forall (p : float -> bool) (m : matrix float),
    any_row (map (map p) m) = map (existsb p) m.
Proof.
  intros p m. unfold any_row. rewrite map_map. apply map_ext.
  intros row. induction row as [|x row IH]; simpl; [reflexivity|].
  now rewrite IH.
Qed.

Lemma time_cut_late :
  forall t (self : SurveyPopulation true),
    time (frbs (cut_late t self)) = cut_time (time (frbs self)) t.
Proof.
  intros t self. unfold cut_late, cut_time, time_mask_of. simpl.
  now rewrite map2_nan_cells_map, any_row_map.
Qed.

Lemma In_bmask :
  forall (A : Type) (l : list A) mask x, In x (bmask l mask) -> In x l.
Proof.
  induction l as [|y l IH]; intros mask x H; destruct mask as [|b mask];
    simpl in *; try contradiction.
  destruct b; simpl in H; [destruct H|]; eauto.
Qed.

Lemma cut_time_within :
  forall time t row x,
    In row (cut_time time t) -> In x row -> isnan x = false ->
    fle x (Fin t) = true.
Proof.
  intros time t row x Hrow Hx Hnan. unfold cut_time in Hrow.
  apply In_bmask in Hrow. apply in_map_iff in Hrow.
  destruct Hrow as (row0 & <- & _).
  apply in_map_iff in Hx. destruct Hx as (y & E & _).
  destruct (fle y (Fin t)) eqn:Ey; subst x; [exact Ey|discriminate].
Qed.

Lemma fle_not_nan : forall x y, fle x y = true -> isnan x = false.
Proof. intros [| |q|] y H; simpl in *; auto; discriminate. Qed.

Lemma late_in_row_split :
  forall t row,
    count_not_nan row
    = (count_nonzero (map (fun x => fle x (Fin t)) row) + late_in_row t row)%nat.
Proof.
  intros t row. unfold late_in_row, count_not_nan, count_nonzero.
  induction row as [|x row IH]; [reflexivity|].
  cbn [map filter].
  destruct (fle x (Fin t)) eqn:E.
  - rewrite (fle_not_nan _ _ E). cbn [negb andb length]. lia.
  - destruct (isnan x); cbn [negb andb length]; lia.
Qed.

Lemma late_in_row_count :
  forall t row,
    (Z.of_nat (count_not_nan row)
     - Z.of_nat (count_nonzero (map (fun x => fle x (Fin t)) row)))%Z
    = Z.of_nat (late_in_row t row).
Proof.
  intros t row. rewrite (late_in_row_split t row). lia.
Qed.

Lemma late_bursts_sum :
  forall t time,
    np_sumZ
      (map2 (fun n c => (Z.of_nat n - Z.of_nat c)%Z)
         (map count_not_nan time)
         (map count_nonzero (time_mask_of time t)))
    = Z.of_nat (late_bursts time t).
Proof.
  intros t time. unfold late_bursts, time_mask_of.
  induction time as [|row time IH]; simpl; [reflexivity|].
  rewrite IH, late_in_row_count. lia.
Qed.

Lemma late_sources_count :
  forall t time,
    qn (length (time_mask_of time t)) - qn (length (cut_time time t))
    == qn (late_sources time t).
Proof.
  intros t time. unfold late_sources, cut_time, time_mask_of.
  rewrite length_bmask by now rewrite !length_map.
  rewrite length_map.
  rewrite <- (length_map (existsb (fun x => fle x (Fin t))) time) at 1.
  rewrite qn_removed. now rewrite map_map.
Qed.

Lemma late_counters_cut_late :
  forall t (self : SurveyPopulation true),
    late (source_rate (cut_late t self))
    = late (source_rate self)
      + (qn (length (time_mask_of (time (frbs self)) t))
         - qn (length (time (frbs (cut_late t self)))))
    /\ late (burst_rate (cut_late t self))
       = late (burst_rate self)
         + inject_Z
             (np_sumZ
                (map2 (fun n c => (Z.of_nat n - Z.of_nat c)%Z)
                   (n_brst_pr_src self)
                   (map count_nonzero (time_mask_of (time (frbs self)) t)))).
Proof. intros t self. split; reflexivity. Qed.

(** C5 (as the code behaves): with pointings of three days and a survey of
    20 days the last pointing ends at day 21, and the burst at day 20.5,
    strictly after [n_days], is neither removed by the cut nor counted as
    too late: the run ends with [too_late == 0] for the bursts. *)
Lemma burst_after_n_days_survives_cut :
  survey_n_days Examples.slow_survey = Some 20
  /\ (exists times,
        pointing_times Examples.exact_length Examples.slow_survey = Ok times
        /\ index_last times = Ok (pointing_time Examples.slow_survey 7)
        /\ pointing_time Examples.slow_survey 7 == 21)
  /\ time (frbs (cut_late (pointing_time Examples.slow_survey 7)
                   (Examples.prepared Examples.slow_survey
                      Examples.overtime_frbs)))
     = [[Fin 0.5; Fin 20.5]]
  /\ late (burst_rate (cut_late (pointing_time Examples.slow_survey 7)
                         (Examples.prepared Examples.slow_survey
                            Examples.overtime_frbs))) == 0
  /\ (exists self,
        SurveyPopulation_init Examples.scale_vol Examples.keep_frbs
          Examples.exact_length
          (APopulation Examples.overtime_pop) Examples.slow_survey
          false false true Examples.toy_rng = Ok self
        /\ late (burst_rate self) == 0
        /\ late (source_rate self) == 0).
Proof.
  split; [reflexivity|]. split; [|split; [|split]].
  - eexists. split; [reflexivity|]. split; vm_compute; reflexivity.
  - vm_compute. reflexivity.
  - vm_compute. reflexivity.
  - eexists. split; [vm_compute; reflexivity|]. split; vm_compute; reflexivity.
Qed.

(** C5, amended: the cut is at [times[-1]], the end of the last pointing
    of [times = np.arange(0, n_days + t_obs, t_obs)], that is
    [(len(times) - 1) * t_obs], and not at [n_days].  Every burst strictly
    after it is removed before the loop and every burst up to it is kept;
    the burst-level [too_late] grows by the number of bursts dropped, the
    source-level one by the number of sources left without a burst.  With
    pointings of one day, the source with bursts at 0.5, 10.5 and 50.5
    days in a survey of 20 days gives [too_late == 1]. *)
Theorem late_bursts_cut_at_last_pointing :
  forall (len : Q -> Q -> Q -> nat) (sv : Survey) (t_end : Q)
         (self : SurveyPopulation true),
    0 < t_obs sv ->
    end_of_survey len sv = Ok t_end ->
    n_brst_pr_src self = map count_not_nan (time (frbs self)) ->
    (exists m : nat,
        pointing_times len sv = Ok (map (pointing_time sv) (seq 0 (S m)))
        /\ t_end = pointing_time sv m
        /\ time (frbs (cut_late t_end self))
           = cut_time (time (frbs self)) t_end
        /\ (forall row x,
              In row (time (frbs (cut_late t_end self))) ->
              In x row -> isnan x = false ->
              fle x (Fin t_end) = true)
        /\ late (burst_rate (cut_late t_end self))
           == late (burst_rate self)
              + qn (late_bursts (time (frbs self)) t_end)
        /\ late (source_rate (cut_late t_end self))
           == late (source_rate self)
              + qn (late_sources (time (frbs self)) t_end))
    /\ (end_of_survey Examples.exact_length Examples.toy_survey
        = Ok (pointing_time Examples.toy_survey 20)
        /\ pointing_time Examples.toy_survey 20 == 20
        /\ late (burst_rate
                   (cut_late (pointing_time Examples.toy_survey 20)
                      (Examples.prepared Examples.toy_survey
                         Examples.scenario_c_frbs))) == 1
        /\ exists done,
             SurveyPopulation_init Examples.scale_vol Examples.keep_frbs
               Examples.exact_length
               (APopulation Examples.scenario_c_pop) Examples.toy_survey
               false false true Examples.toy_rng = Ok done
             /\ late (burst_rate done) == 1).
Proof.
  intros len sv t_end self Ht Hend Hn. split.
  - destruct (end_of_survey_last len sv Ht Hend) as (m & Htimes & ->).
    exists m. split; [exact Htimes|]. split; [reflexivity|].
    split; [apply time_cut_late|]. split; [|split].
    + intros row x Hrow Hx Hnan. rewrite time_cut_late in Hrow.
      eapply cut_time_within; eauto.
    + rewrite (proj2 (late_counters_cut_late _ self)), Hn, late_bursts_sum.
      reflexivity.
    + rewrite (proj1 (late_counters_cut_late _ self)), time_cut_late.
      now rewrite late_sources_count.
  - split; [vm_compute; reflexivity|].
    split; [vm_compute; reflexivity|]. split; [vm_compute; reflexivity|].
    eexists. split; vm_compute; reflexivity.
Qed.

(** ** Sorted rows and the search *)

Lemma searchsorted_le_length :
  forall row v, (searchsorted row v <= length row)%nat.
Proof.
  induction row as [|x row IH]; intros v; simpl; [lia|].
  destruct (np_lt x v); [specialize (IH v)|]; lia.
Qed.

Lemma np_lt_Fin : forall x t, np_lt x (Fin t) = flt x (Fin t).
Proof. intros x t. unfold np_lt. simpl. apply orb_false_r. Qed.

Lemma flt_Fin_mono :
  forall x a b, a <= b -> flt x (Fin a) = true -> flt x (Fin b) = true.
Proof.
  intros [| |q|] a b Hab H; simpl in *; auto.
  apply negb_true_iff in H. apply negb_true_iff.
  destruct (Qle_bool b q) eqn:E; [|reflexivity].
  apply Qle_bool_iff in E.
  assert (Hq : a <= q) by (eapply Qle_trans; eauto).
  apply Qle_bool_iff in Hq. congruence.
Qed.

Lemma searchsorted_mono :
  forall row a b,
    a <= b ->
    (searchsorted row (Fin a) <= searchsorted row (Fin b))%nat.
Proof.
  induction row as [|x row IH]; intros a b Hab; simpl; [lia|].
  rewrite !np_lt_Fin.
  destruct (flt x (Fin a)) eqn:E.
  - rewrite (flt_Fin_mono x Hab E). specialize (IH a b Hab). lia.
  - lia.
Qed.






(** ** fast_where against the element-wise mask *)

Lemma np_lt_trans_false :
  forall x y v, np_lt y x = false -> np_lt x v = false -> np_lt y v = false.
Proof.
  intros x y v Hyx Hxv. unfold np_lt in *.
  destruct x as [| |qx|], y as [| |qy|], v as [| |qv|]; simpl in *;
    try reflexivity; try discriminate.
  rewrite orb_false_r in *.
  apply negb_false_iff in Hyx, Hxv. apply negb_false_iff.
  apply Qle_bool_iff in Hyx, Hxv. apply Qle_bool_iff.
  eapply Qle_trans; eauto.
Qed.

(** On a sorted row the cells below [v] are the first [searchsorted]
    ones. *)
Lemma searchsorted_prefix :
  forall row v c,
    ascending row -> (c < length row)%nat ->
    (c <? searchsorted row v)%nat = np_lt (nth c row NaN) v.
Proof.
  intros row v c Hs. revert c.
  induction Hs as [|x row Hs IH Hx]; intros c Hc; simpl in Hc; [lia|].
  cbn [searchsorted]. destruct (np_lt x v) eqn:E.
  - destruct c as [|c]; cbn [nth]; [now rewrite E|].
    rewrite <- IH by lia. reflexivity.
  - destruct c as [|c]; cbn [nth]; [now rewrite E|].
    rewrite Forall_forall in Hx.
    assert (Hin : In (nth c row NaN) row) by (apply nth_In; lia).
    rewrite (np_lt_trans_false _ _ _ (Hx _ Hin) E). reflexivity.
Qed.

Lemma in_window_by_search :
  forall x min_v max_v,
    isnan max_v = false ->
    fge x min_v && flt x max_v = negb (np_lt x min_v) && np_lt x max_v.
Proof.
  intros x min_v max_v Hmax. unfold np_lt, fge.
  rewrite Hmax. cbn [andb]. rewrite orb_false_r.
  destruct (flt x max_v) eqn:E; [|now rewrite !andb_false_r].
  rewrite !andb_true_r.
  destruct x as [| |qx|], min_v as [| |qm|]; simpl in *;
    try reflexivity; try discriminate;
    rewrite ?orb_false_r, ?negb_involutive; try reflexivity;
    destruct max_v; discriminate.
Qed.

Lemma filter_seq_interval :
  forall l h n s,
    filter (fun c => (l <=? c)%nat && (c <? h)%nat) (seq s n)
    = seq (Nat.max l s) (Nat.min h (s + n) - Nat.max l s).
Proof.
  intros l h n. induction n as [|n IH]; intros s.
  - simpl. replace (Nat.min h (s + 0) - Nat.max l s)%nat with 0%nat by lia.
    reflexivity.
  - cbn [seq filter]. rewrite IH.
    destruct (Nat.leb_spec l s) as [Hl|Hl];
      destruct (Nat.ltb_spec s h) as [Hh|Hh]; cbn [andb].
    + replace (Nat.max l s) with s by lia.
      replace (Nat.max l (S s)) with (S s) by lia.
      replace (Nat.min h (s + S n) - s)%nat
        with (S (Nat.min h (S s + n) - S s)) by lia.
      reflexivity.
    + replace (Nat.min h (S s + n) - Nat.max l (S s))%nat with 0%nat by lia.
      replace (Nat.min h (s + S n) - Nat.max l s)%nat with 0%nat by lia.
      reflexivity.
    + replace (Nat.max l (S s)) with (Nat.max l s) by lia.
      replace (S s + n)%nat with (s + S n)%nat by lia. reflexivity.
    + replace (Nat.max l (S s)) with (Nat.max l s) by lia.
      replace (S s + n)%nat with (s + S n)%nat by lia. reflexivity.
Qed.

Lemma where1_map :
  forall (p : float -> bool) (row : list float),
    where1 (map p row)
    = filter (fun c => p (nth c row NaN)) (seq 0 (length row)).
Proof.
  intros p row. rewrite where1_filter, length_map.
  apply filter_ext_in. intros c Hc. apply in_seq in Hc.
  rewrite nth_indep with (d' := p NaN) by (rewrite length_map; lia).
  apply map_nth.
Qed.

(** On a sorted row the mask [(row >= min_v) & (row < max_v)] selects the
    columns between the two insertion points. *)
Lemma row_window_mask :
  forall row min_v max_v,
    ascending row -> isnan max_v = false ->
    where1 (map (fun x => fge x min_v && flt x max_v) row)
    = row_window row min_v max_v.
Proof.
  intros row min_v max_v Hs Hmax. rewrite where1_map.
  unfold row_window, arange_nat.
  pose proof (searchsorted_le_length row max_v) as Hle.
  transitivity
    (filter (fun c => (searchsorted row min_v <=? c)%nat
                      && (c <? searchsorted row max_v)%nat)
            (seq 0 (length row))).
  - apply filter_ext_in. intros c Hc. apply in_seq in Hc.
    rewrite (@in_window_by_search _ min_v _ Hmax).
    rewrite <- !(@searchsorted_prefix row _ c Hs) by lia.
    f_equal. rewrite Nat.leb_antisym. reflexivity.
  - rewrite filter_seq_interval.
    rewrite Nat.max_0_r, Nat.add_0_l, Nat.min_l by lia. reflexivity.
Qed.

Lemma flat_map_ext_seq :
  forall (B : Type) (f g : nat -> list B) (l : list nat),
    (forall r, In r l -> f r = g r) -> flat_map f l = flat_map g l.
Proof.
  induction l as [|r l IH]; intros H; [reflexivity|].
  cbn [flat_map]. rewrite (H r) by now left.
  rewrite IH; [reflexivity|]. intros r' Hr'. apply H. now right.
Qed.

Lemma enumerate_from :
  forall (A : Type) (d : A) (l : list A) (s : nat),
    combine (seq s (length l)) l
    = map (fun r => (r, nth (r - s) l d)) (seq s (length l)).
Proof.
  induction l as [|x l IH]; intros s; [reflexivity|].
  cbn [length seq combine map]. rewrite Nat.sub_diag. cbn [nth]. f_equal.
  rewrite IH. apply map_ext_in. intros r Hr. apply in_seq in Hr.
  replace (r - s)%nat with (S (r - S s)) by lia. reflexivity.
Qed.

Lemma where2_by_row :
  forall (mask : matrix bool),
    where2 mask
    = (map fst (flat_map (fun r => map (pair r) (where1 (nth r mask [])))
                         (seq 0 (length mask))),
       map snd (flat_map (fun r => map (pair r) (where1 (nth r mask [])))
                         (seq 0 (length mask)))).
Proof.
  intros mask. unfold where2, enumerate.
  rewrite (@enumerate_from _ [] mask 0).
  assert (E : forall l : list nat,
             flat_map (fun '(r, row) => map (fun c => (r, c)) (where1 row))
               (map (fun r => (r, nth (r - 0) mask [])) l)
             = flat_map (fun r => map (pair r) (where1 (nth r mask []))) l).
  { induction l as [|r l IH]; [reflexivity|].
    cbn [map flat_map]. rewrite IH, Nat.sub_0_r. reflexivity. }
  now rewrite E.
Qed.

(** X1: what [fast_where] computes: on a matrix with at least one row,
    sorted rows and an upper bound that is a number, the result of
    [np.where((a >= min_v) & (a < max_v))]. *)
Lemma fast_where_half_open :
  forall (a : matrix float) (min_v max_v : float),
    a <> [] -> Forall ascending a -> isnan max_v = false ->
    fast_where a min_v max_v = Ok (where2 (half_open_mask a min_v max_v)).
Proof.
  intros a min_v max_v Ha Hs Hmax.
  rewrite (fast_where_hits _ _ Ha), where2_by_row.
  unfold half_open_mask, window_hits. rewrite length_map.
  assert (E : flat_map
                (fun r => map (pair r) (row_window (nth r a []) min_v max_v))
                (seq 0 (length a))
              = flat_map
                  (fun r =>
                     map (pair r)
                       (where1
                          (nth r
                             (map (map (fun x => fge x min_v && flt x max_v))
                                a) [])))
                  (seq 0 (length a))).
  { apply flat_map_ext_seq. intros r Hr. apply in_seq in Hr.
    change (@nil bool)
      with (map (fun x => fge x min_v && flt x max_v) (@nil float)).
    rewrite map_nth, row_window_mask; [reflexivity| |exact Hmax].
    rewrite Forall_forall in Hs. apply Hs. apply nth_In. lia. }
  now rewrite E.
Qed.

(** ** The bursts of one window *)

Lemma in_window_hits :
  forall a lo hi r c,
    In (r, c) (window_hits a lo hi) <->
    (r < length a)%nat
    /\ (searchsorted (nth r a []) lo <= c)%nat
    /\ (c < searchsorted (nth r a []) hi)%nat.
Proof.
  intros a lo hi r c. unfold window_hits, row_window, arange_nat.
  rewrite in_flat_map. split.
  - intros (r' & Hr' & Hin). apply in_seq in Hr'.
    apply in_map_iff in Hin. destruct Hin as (c' & E & Hc').
    injection E as -> ->. apply in_seq in Hc'. lia.
  - intros (Hr & Hlo & Hhi). exists r. split.
    + apply in_seq. lia.
    + apply in_map. apply in_seq. lia.
Qed.

Lemma NoDup_map_pair :
  forall (r : nat) (l : list nat), NoDup l -> NoDup (map (pair r) l).
Proof.
  intros r l H. induction H as [|c l Hc H IH]; simpl; constructor; auto.
  intros Hin. apply in_map_iff in Hin. destruct Hin as (c' & E & Hc').
  injection E as ->. contradiction.
Qed.

Lemma NoDup_pairs_by_row :
  forall (g : nat -> list nat) (rs : list nat),
    NoDup rs -> (forall r, NoDup (g r)) ->
    NoDup (flat_map (fun r => map (pair r) (g r)) rs).
Proof.
  intros g rs H Hg. induction H as [|r rs Hr H IH]; simpl; [constructor|].
  apply NoDup_app; auto.
  - now apply NoDup_map_pair.
  - intros [r' c] H1 H2.
    apply in_map_iff in H1. destruct H1 as (c' & E & _). injection E as <- <-.
    apply in_flat_map in H2. destruct H2 as (r2 & Hr2 & Hin).
    apply in_map_iff in Hin. destruct Hin as (c2 & E & _).
    injection E as -> _. contradiction.
Qed.

Lemma NoDup_window_hits :
  forall a lo hi, NoDup (window_hits a lo hi).
Proof.
  intros a lo hi. unfold window_hits.
  apply NoDup_pairs_by_row with
    (g := fun r => row_window (nth r a []) lo hi).
  - apply seq_NoDup.
  - intros r. apply seq_NoDup.
Qed.

Lemma map_seq_nth_from :
  forall (A B : Type) (g : A -> B) (d : A) (a : list A) (s : nat),
    map (fun r => g (nth (r - s) a d)) (seq s (length a)) = map g a.
Proof.
  induction a as [|x a IH]; intros s; simpl; [reflexivity|].
  rewrite Nat.sub_diag. f_equal.
  rewrite <- (IH (S s)). apply map_ext_in. intros r Hr. apply in_seq in Hr.
  replace (r - s)%nat with (S (r - S s)) by lia. reflexivity.
Qed.

Lemma map_seq_nth :
  forall (A B : Type) (g : A -> B) (d : A) (a : list A),
    map (fun r => g (nth r a d)) (seq 0 (length a)) = map g a.
Proof.
  intros A B g d a. rewrite <- (map_seq_nth_from g d a 0).
  apply map_ext. intros r. now rewrite Nat.sub_0_r.
Qed.

Lemma length_window_hits :
  forall a lo hi,
    length (window_hits a lo hi)
    = np_sum (map (fun row => searchsorted row hi - searchsorted row lo)%nat a).
Proof.
  intros a lo hi. unfold window_hits. rewrite length_flat_map.
  change list_sum with np_sum. f_equal.
  rewrite <- (map_seq_nth
                (fun row => (searchsorted row hi - searchsorted row lo)%nat)
                [] a).
  apply map_ext. intros r. unfold row_window, arange_nat.
  now rewrite length_map, length_seq.
Qed.

Lemma hits_telescope :
  forall a lo hi,
    Forall (fun row => (searchsorted row lo <= searchsorted row hi)%nat) a ->
    (length (window_hits a lo hi) + inserted a lo = inserted a hi)%nat.
Proof.
  intros a lo hi H. rewrite length_window_hits. unfold inserted.
  induction H as [|row a Hrow H IH]; simpl; [reflexivity|]. lia.
Qed.

(** ** The SNR mask *)

Lemma in_shape_row :
  forall (A : Type) (m : matrix A) rc,
    in_shape (shape m) rc ->
    (fst rc < length m)%nat /\ (snd rc < length (nth (fst rc) m []))%nat.
Proof.
  intros A m [r c] H. unfold in_shape, shape in H. simpl in *.
  change 0%nat with (@length A []) in H. rewrite map_nth in H.
  split; [|exact H].
  destruct (Nat.lt_ge_cases r (length m)) as [Hr|Hr]; [exact Hr|].
  rewrite nth_overflow in H by exact Hr. simpl in H. lia.
Qed.

Lemma get2_set2_same :
  forall (A : Type) (d : A) (m : matrix A) rc v,
    in_shape (shape m) rc -> get2 d (set2 m rc v) rc = v.
Proof.
  intros A d m rc v H. destruct (@in_shape_row _ _ _ H) as [Hr Hc].
  unfold get2, set2. rewrite nth_set_nth_same by exact Hr.
  now apply nth_set_nth_same.
Qed.

Lemma get2_set2_other :
  forall (A : Type) (d : A) (m : matrix A) rc rc' v,
    rc <> rc' -> get2 d (set2 m rc v) rc' = get2 d m rc'.
Proof.
  intros A d m [r c] [r' c'] v H. unfold get2, set2. simpl.
  destruct (Nat.eq_dec r r') as [<-|Hr].
  - destruct (Nat.lt_ge_cases r (length m)) as [Hlt|Hge].
    + rewrite nth_set_nth_same by exact Hlt.
      apply nth_set_nth_other. congruence.
    + now rewrite set_nth_out_of_range by exact Hge.
  - now rewrite nth_set_nth_other by exact Hr.
Qed.

Lemma count_nonzero_app :
  forall l1 l2,
    count_nonzero (l1 ++ l2) = (count_nonzero l1 + count_nonzero l2)%nat.
Proof.
  intros l1 l2. unfold count_nonzero. now rewrite filter_app, length_app.
Qed.

Lemma count_set_nth_true :
  forall (row : list bool) c,
    (c < length row)%nat -> nth c row false = false ->
    count_nonzero (set_nth row c true) = S (count_nonzero row).
Proof.
  unfold count_nonzero.
  induction row as [|b row IH]; intros [|c] Hc Hb; simpl in *; try lia.
  - subst b. reflexivity.
  - destruct b; simpl; rewrite IH; auto; lia.
Qed.

Lemma count2_set2_true :
  forall (m : matrix bool) rc,
    in_shape (shape m) rc -> get2 false m rc = false ->
    count_nonzero2 (set2 m rc true) = S (count_nonzero2 m).
Proof.
  intros m [r c] H Hg. destruct (@in_shape_row _ _ _ H) as [Hr Hc].
  unfold get2, set2, count_nonzero2 in *. simpl in *. clear H.
  revert r Hr Hc Hg. induction m as [|row m IH]; intros [|r] Hr Hc Hg;
    simpl in *; try lia.
  - rewrite !count_nonzero_app. now rewrite count_set_nth_true.
  - rewrite !count_nonzero_app. rewrite IH; auto; lia.
Qed.

Lemma count2_scatter_true :
  forall (ix : list (nat * nat)) (m : matrix bool),
    NoDup ix ->
    Forall (in_shape (shape m)) ix ->
    Forall (fun rc => get2 false m rc = false) ix ->
    count_nonzero2 (scatter2_const m ix true)
    = (count_nonzero2 m + length ix)%nat.
Proof.
  unfold scatter2_const.
  induction ix as [|rc ix IH]; intros m Hnd Hsh Hf; simpl; [lia|].
  apply NoDup_cons_iff in Hnd. destruct Hnd as [Hnot Hnd].
  apply Forall_cons_iff in Hsh. destruct Hsh as [Hrc Hsh].
  apply Forall_cons_iff in Hf. destruct Hf as [Hfrc Hf].
  rewrite IH; auto.
  - rewrite count2_set2_true by assumption. lia.
  - now rewrite shape_set2.
  - apply Forall_forall. intros rc' Hin.
    rewrite get2_set2_other.
    + rewrite Forall_forall in Hf. now apply Hf.
    + intros ->. contradiction.
Qed.

Lemma get2_full_like_false :
  forall (A : Type) (m : matrix A) rc, get2 false (full_like m false) rc = false.
Proof.
  intros A m [r c]. unfold get2, full_like. simpl.
  destruct (nth_in_or_default c
              (nth r (map (map (fun _ : A => false)) m) []) false)
    as [Hin|E]; [|exact E].
  destruct (nth_in_or_default r (map (map (fun _ : A => false)) m) [])
    as [Hrow|E].
  - apply in_map_iff in Hrow. destruct Hrow as (row & E & _).
    rewrite <- E in Hin. apply in_map_iff in Hin.
    destruct Hin as (x & E' & _). rewrite <- E. symmetry. exact E'.
  - rewrite E in Hin. contradiction.
Qed.

Lemma count2_full_like_false :
  forall (A : Type) (m : matrix A), count_nonzero2 (full_like m false) = 0%nat.
Proof.
  intros A m. unfold count_nonzero2, full_like.
  induction m as [|row m IH]; simpl; [reflexivity|].
  rewrite count_nonzero_app, IH.
  unfold count_nonzero. induction row; simpl; auto.
Qed.

(** The SNR mask of lines 236-237 has one true cell for every index pair
    that was kept, once the pairs are distinct and inside the array. *)
Lemma count_snr_mask :
  forall (A : Type) (m : matrix A) (ix : list (nat * nat)),
    NoDup ix -> Forall (in_shape (shape m)) ix ->
    count_nonzero2 (scatter2_const (full_like m false) ix true) = length ix.
Proof.
  intros A m ix Hnd Hsh.
  rewrite count2_scatter_true; auto.
  - now rewrite count2_full_like_false.
  - now rewrite shape_full_like.
  - apply Forall_forall. intros rc _. apply get2_full_like_false.
Qed.

(** ** The invariant of the loop over the pointings *)

Lemma NoDup_bmask :
  forall (A : Type) (l : list A) mask, NoDup l -> NoDup (bmask l mask).
Proof.
  induction l as [|x l IH]; intros mask H; destruct mask as [|b mask];
    simpl; try constructor.
  apply NoDup_cons_iff in H. destruct H as [Hx H].
  destruct b; [constructor|]; auto.
  intros Hin. apply In_bmask in Hin. contradiction.
Qed.

Lemma iter_pointings_ok :
  forall sv (self : SurveyPopulation true) ra_pt dec_pt lst t_min t_max,
    time (frbs self) <> [] -> scin self = false ->
    exists self' xy,
      iter_pointings sv self ra_pt dec_pt lst t_min t_max = Ok (self', xy).
Proof.
  intros sv self ra_pt dec_pt lst t_min t_max Ha Hscin.
  unfold iter_pointings.
  rewrite (fast_where_hits _ _ Ha). cbn [bind].
  unfold np_unique_counts. cbv zeta. rewrite Hscin. cbn [bind].
  eexists. eexists. reflexivity.
Qed.

Lemma pointing_time_mono :
  forall sv i j,
    0 < t_obs sv -> (i <= j)%nat -> pointing_time sv i <= pointing_time sv j.
Proof.
  intros sv i j Ht Hij. unfold pointing_time.
  pose proof (t_obs_days_pos sv Ht) as Hd.
  assert (H : qn i <= qn j).
  { unfold qn. rewrite <- Zle_Qle. lia. }
  apply (Qmult_le_r _ _ _ Hd) in H. lra.
Qed.

Lemma nth_error_pointing_times :
  forall sv m i,
    (i <= m)%nat ->
    nth_error (map (pointing_time sv) (seq 0 (S m))) i
    = Some (pointing_time sv i).
Proof.
  intros sv m i Hi. rewrite nth_error_map, nth_error_seq.
  destruct (Nat.ltb_spec i (S m)); [reflexivity|lia].
Qed.

Lemma loop_inv_start :
  forall sv (self0 : SurveyPopulation true),
    scin self0 = false ->
    shape (snr (frbs self0)) = shape (time (frbs self0)) ->
    loop_inv sv self0 0 (self0, ([], [])).
Proof.
  intros sv self0 Hscin Hshape. constructor; cbn [fst snd]; auto.
  exists []. split; [reflexivity|]. split; [constructor|].
  split; [constructor|].
  change (qn (length (@nil (nat * nat)))) with (inject_Z 0). ring.
Qed.

Lemma index_at_ok :
  forall (A : Type) (l : list A) i,
    (i < length l)%nat -> exists x, index_at l i = Ok x.
Proof.
  intros A l i H. unfold index_at.
  destruct (nth_error l i) as [x|] eqn:E; [now exists x|].
  apply nth_error_None in E. lia.
Qed.

Lemma loop_inv_step :
  forall sv (self0 : SurveyPopulation true) m lst i st,
    0 < t_obs sv -> pointings_ok sv -> time (frbs self0) <> [] ->
    (i < m)%nat -> length lst = m ->
    loop_inv sv self0 i st ->
    exists st',
      pointing_step sv (map (pointing_time sv) (seq 0 (S m))) lst st i = Ok st'
      /\ loop_inv sv self0 (S i) st'.
Proof.
  intros sv self0 m lst i [self keep] Ht Hpt Ha Him Hlst Hinv.
  destruct Hinv as [It Ish Isc Isr Ime Ikeep Icnt]. cbn [fst snd] in *.
  destruct Ikeep as (K & HK & Hnd & Hrange & Hsum).
  unfold pointing_step.
  destruct (index_at_ok (fst (pointings sv)) (proj1 (Hpt i))) as (ra_pt & ->).
  destruct (index_at_ok (snd (pointings sv)) (proj2 (Hpt i))) as (dec_pt & ->).
  destruct (index_at_ok lst (i := i)) as (lst_i & ->); [lia|].
  unfold index_at at 1 2.
  rewrite !nth_error_pointing_times by lia. cbn [bind].
  replace (i + 1)%nat with (S i) by lia.
  assert (Ha' : time (frbs self) <> []) by (now rewrite It).
  destruct (iter_pointings_ok sv self ra_pt dec_pt (Fin lst_i)
              (Fin (pointing_time sv i)) (Fin (pointing_time sv (S i)))
              Ha' Isc) as (self' & xy & Hit).
  rewrite Hit. cbn [bind].
  eexists. split; [reflexivity|].
  destruct (iter_pointings_effect _ _ _ _ _ _ _ Hit)
    as (p_ix & ix1 & ix2 & Heff).
  cbv zeta in Heff. rewrite It in Heff.
  set (T := time (frbs self0)) in *.
  set (hits := window_hits T (Fin (pointing_time sv i))
                 (Fin (pointing_time sv (S i)))) in *.
  set (tp := bmask hits p_ix) in *.
  set (kept := bmask tp (snr_mask_window sv (frbs self') tp)) in *.
  destruct Heff as (_ & Hp & Hxy & Hbr & _ & _ & Hsr & Htime & _ & Hshape
                    & Hscin & Hmeta).
  assert (Hmono : Forall (fun row =>
                            (searchsorted row (Fin (pointing_time sv i))
                             <= searchsorted row (Fin (pointing_time sv (S i))))%nat)
                         T).
  { apply Forall_forall. intros row _. apply searchsorted_mono.
    apply pointing_time_mono; [exact Ht|lia]. }
  assert (Hkept : forall rc, In rc kept -> In rc hits).
  { intros rc Hin. unfold kept, tp in Hin.
    apply In_bmask in Hin. now apply In_bmask in Hin. }
  constructor; cbn [fst snd].
  - exact Htime.
  - now rewrite Hshape.
  - now rewrite Hscin.
  - now rewrite Hsr.
  - now rewrite Hmeta.
  - exists (K ++ kept). split; [|split; [|split]].
    + rewrite HK, Hxy. cbn [fst snd]. now rewrite !map_app.
    + apply NoDup_app; auto.
      * unfold kept, tp. apply NoDup_bmask, NoDup_bmask.
        apply NoDup_window_hits.
      * intros [r c] HinK Hink. apply Hkept in Hink.
        apply in_window_hits in Hink.
        rewrite Forall_forall in Hrange. specialize (Hrange _ HinK).
        cbn [fst snd] in Hrange. lia.
    + apply Forall_app. split.
      * rewrite Forall_forall in *. intros rc HinK.
        specialize (Hrange _ HinK). destruct Hrange as [Hr Hc].
        split; [exact Hr|].
        specialize (Hmono (nth (fst rc) T [])).
        assert (Hin : In (nth (fst rc) T []) T) by (apply nth_In; exact Hr).
        specialize (Hmono Hin). cbn beta in Hmono. fold T. lia.
      * apply Forall_forall. intros [r c] Hin. apply Hkept in Hin.
        apply in_window_hits in Hin. cbn [fst snd]. fold T. lia.
    + rewrite Hbr. cbn [pointing faint set_faint set_pointing].
      rewrite length_app, qn_plus.
      pose proof (bmask_partition_length hits p_ix Hp) as Hpart.
      pose proof (@hits_telescope _ _ _ Hmono) as Htel. fold hits in Htel.
      fold tp in Hpart. fold T.
      assert (E1 : qn (length (bmask hits (map negb p_ix))) + qn (length tp)
                   == qn (length hits)).
      { rewrite <- qn_plus. now rewrite Hpart. }
      assert (E2 : qn (length hits)
                      + qn (inserted T (Fin (pointing_time sv i)))
                   == qn (inserted T (Fin (pointing_time sv (S i))))).
      { rewrite <- qn_plus. now rewrite Htel. }
      lra.
    - rewrite Hbr. cbn [tot late out det set_faint set_pointing].
      exact Icnt.
Qed.

Lemma loop_inv_run :
  forall sv (self0 : SurveyPopulation true) m lst,
    0 < t_obs sv -> pointings_ok sv -> time (frbs self0) <> [] ->
    length lst = m ->
    forall k i st,
      (i + k <= m)%nat ->
      loop_inv sv self0 i st ->
      exists st',
        pointing_loop sv (map (pointing_time sv) (seq 0 (S m))) lst
          (seq i k) st = Ok st'
        /\ loop_inv sv self0 (i + k) st'.
Proof.
  intros sv self0 m lst Ht Hpt Ha Hlst.
  induction k as [|k IH]; intros i st Hik Hinv.
  - exists st. rewrite Nat.add_0_r. split; [reflexivity|exact Hinv].
  - destruct (@loop_inv_step sv self0 m lst i st) as (st1 & E1 & Hinv1);
      auto; [lia|].
    destruct (IH (S i) st1) as (st' & E' & Hinv'); [lia|exact Hinv1|].
    exists st'. change (seq i (S k)) with (i :: seq (S i) k).
    cbn [pointing_loop]. rewrite E1. cbn [bind].
    rewrite E'. split; [reflexivity|].
    now rewrite Nat.add_succ_r.
Qed.

Lemma nth_shape :
  forall (A : Type) (m : matrix A) r,
    nth r (shape m) 0%nat = length (nth r m []).
Proof.
  intros A m r. unfold shape.
  change 0%nat with (@length A []). apply map_nth.
Qed.

Lemma finish_repeaters_counters :
  forall (scale_area : Rates -> Rates) (clean : Frbs true -> Frbs true)
         sv (self0 : SurveyPopulation true) m st,
    ~ n_days self0 == 0 -> ~ vol_co_max self0 == 0 ->
    loop_inv sv self0 m st ->
    exists self',
      finish_repeaters scale_area clean sv st = Ok self'
      /\ tot (burst_rate self') = tot (burst_rate self0)
      /\ late (burst_rate self') = late (burst_rate self0)
      /\ out (burst_rate self') = out (burst_rate self0)
      /\ pointing (burst_rate self') + faint (burst_rate self')
         + det (burst_rate self')
         == pointing (burst_rate self0) + faint (burst_rate self0)
            + (qn (inserted (time (frbs self0)) (Fin (pointing_time sv m)))
               - qn (inserted (time (frbs self0))
                       (Fin (pointing_time sv 0)))).
Proof.
  intros scale_area clean sv self0 m [self keep] Hnd Hv Hinv.
  destruct Hinv as [It Ish Isc Isr Ime Ikeep Icnt]. cbn [fst snd] in *.
  destruct Ikeep as (K & HK & HndK & Hrange & Hsum).
  injection Ime as Hname Hvol Hdays. injection Icnt as Htot Hlate Hout Hdet.
  unfold finish_repeaters. subst keep. cbn [fst snd].
  rewrite combine_fst_snd.
  rewrite count_snr_mask.
  2: exact HndK.
  2: { rewrite Ish. apply Forall_forall. intros rc Hin.
       rewrite Forall_forall in Hrange. destruct (Hrange _ Hin) as [Hr Hc].
       unfold in_shape. rewrite nth_shape.
       pose proof (searchsorted_le_length (nth (fst rc) (time (frbs self0)) [])
                     (Fin (pointing_time sv m))).
       lia. }
  unfold calc_rates. cbn [source_rate burst_rate set_burst_rate
                            set_source_rate set_frbs sp_name vol_co_max
                            n_days set_srcs_not_bright].
  rewrite Hname, Hvol, Hdays.
  rewrite !save_scaling_ok by assumption. cbn [bind].
  eexists. split; [reflexivity|].
  cbn. rewrite Htot, Hlate, Hout.
  repeat split; try reflexivity. exact Hsum.
Qed.

(** ** The conservation of the bursts *)





Lemma with_n_days_same :
  forall sv d,
    t_obs (with_n_days sv d) = t_obs sv
    /\ pointings (with_n_days sv d) = pointings sv
    /\ n_pointings (with_n_days sv d) = n_pointings sv
    /\ in_region (with_n_days sv d) = in_region sv.
Proof.
  intros sv d. unfold with_n_days.
  destruct (survey_n_days sv); repeat split; reflexivity.
Qed.

Lemma length_removelast_pred :
  forall (A : Type) (l : list A), length (removelast l) = (length l - 1)%nat.
Proof.
  induction l as [|x l IH]; [reflexivity|].
  destruct l as [|y l]; [reflexivity|].
  change (removelast (x :: y :: l)) with (x :: removelast (y :: l)).
  cbn [length] in *. rewrite IH. lia.
Qed.

Lemma init_loop_fields :
  forall (self : SurveyPopulation true),
    time (frbs (init_loop self)) = time (frbs self)
    /\ shape (snr (frbs (init_loop self))) = shape (time (frbs self))
    /\ scin (init_loop self) = scin self
    /\ burst_rate (init_loop self) = burst_rate self
    /\ n_days (init_loop self) = n_days self
    /\ vol_co_max (init_loop self) = vol_co_max self.
Proof.
  intros self. unfold init_loop. simpl. repeat split.
  apply shape_full_like.
Qed.

Lemma cut_late_fields :
  forall t (self : SurveyPopulation true),
    scin (cut_late t self) = scin self
    /\ n_days (cut_late t self) = n_days self
    /\ vol_co_max (cut_late t self) = vol_co_max self
    /\ tot (burst_rate (cut_late t self)) = tot (burst_rate self)
    /\ out (burst_rate (cut_late t self)) = out (burst_rate self)
    /\ pointing (burst_rate (cut_late t self)) = pointing (burst_rate self)
    /\ faint (burst_rate (cut_late t self)) = faint (burst_rate self).
Proof. intros t self. repeat split. Qed.

Lemma time_derive_columns :
  forall rep sv scat fl fh (f : Frbs rep),
    time (derive_columns sv scat fl fh f) = time f.
Proof.
  intros rep sv scat fl fh f. unfold derive_columns.
  destruct scat; reflexivity.
Qed.

Section RepeaterConservation.

Variable Rates_scale_by_area : Rates -> Rates.
Variable Frbs_clean_up : Frbs true -> Frbs true.
Variable np_arange_length : Q -> Q -> Q -> nat.


End RepeaterConservation.

(** ** The counters on the examples *)


(** A burst exactly at the end of the last pointing passes the cut
    ([time <= times[-1]]) and falls in no window ([t_min <= time < t_max]):
    it is in none of the counters. *)
Lemma burst_at_end_of_survey_uncounted :
  exists self : SurveyPopulation true,
    SurveyPopulation_init Examples.scale_vol Examples.keep_frbs
      Examples.exact_length
      (APopulation Examples.boundary_pop) Examples.toy_survey
      false false true Examples.toy_rng = Ok self
    /\ tot (burst_rate self) == 2
    /\ out (burst_rate self) + late (burst_rate self)
       + pointing (burst_rate self) + faint (burst_rate self)
       + det (burst_rate self) == 1.
Proof.
  eexists. split; [vm_compute; reflexivity|].
  split; vm_compute; reflexivity.
Qed.

(** Without a source left in the frame, [np.apply_along_axis] raises in the
    first pointing. *)
Lemma no_source_left_raises :
  exists msg,
    SurveyPopulation_init Examples.scale_vol Examples.keep_frbs
      Examples.exact_length
      (APopulation Examples.outside_pop) Examples.toy_survey
      false false true Examples.toy_rng = Raise (ValueError msg).
Proof. eexists. vm_compute. reflexivity. Qed.

(** ** The theorems on the examples *)

Lemma Q_nonzero_1 : ~ 1 == 0.
Proof. intros H. discriminate H. Defined.

Lemma Q_nonzero_20 : ~ 20 == 0.
Proof. intros H. discriminate H. Defined.

Lemma scale_vol_balance :
  forall r, oneoff_balance r -> oneoff_balance (Examples.scale_vol r).
Proof. intros r H. exact H. Defined.

Lemma oneoff_frbs_rows : input_rows Examples.oneoff_frbs 4.
Proof.
  constructor; try reflexivity.
  - eexists. split; reflexivity.
  - intros H. discriminate H.
  - intros l H. discriminate H.
Defined.

(** The four one-off sources: one outside the region, one too faint, one
    too late, one detected. *)
Lemma oneoff_conservation_witness :
  exists self : SurveyPopulation false,
    SurveyPopulation_init Examples.scale_vol Examples.keep_frbs
      Examples.exact_length
      (APopulation Examples.oneoff_pop) Examples.toy_survey
      false false true Examples.toy_rng = Ok self
    /\ oneoff_balance (source_rate self).
Proof.
  apply (@oneoff_conservation Examples.scale_vol Examples.keep_frbs
           Examples.exact_length
           Examples.oneoff_pop Examples.toy_survey false false true
           Examples.toy_rng 4).
  - exact oneoff_frbs_rows.
  - reflexivity.
  - intros _. exact scale_vol_balance.
  - intros _. exact Q_nonzero_1.
  - intros _. exact Q_nonzero_1.
Defined.

Lemma oneoff_prepared_rows :
  derived_rows (frbs (oneoff_snr Examples.toy_survey Examples.oneoff_prepared))
    2.
Proof.
  constructor; [constructor|..]; try (vm_compute; reflexivity).
  - eexists. split; vm_compute; reflexivity.
  - intros H. discriminate H.
  - intros l H. vm_compute in H. discriminate H.
Defined.

(** After the SNR threshold two sources are left, at redshifts 0 and 1;
    with the draw 0.75 the first is kept and the second is too late. *)
Lemma oneoff_late_keeps_by_draw_witness :
  exists mask : list bool,
    length mask = 2%nat
    /\ (nth_error mask 0 = Some true <-> 0.75 <= 1 / (1 + 0))
    /\ (nth_error mask 1 = Some true <-> 0.75 <= 1 / (1 + 1))
    /\ late (source_rate
               (oneoff_late Examples.toy_rng
                  (oneoff_snr Examples.toy_survey Examples.oneoff_prepared)))
       == qn (count_nonzero (map negb mask)).
Proof.
  destruct (@oneoff_late_keeps_by_draw Examples.toy_rng
              (oneoff_snr Examples.toy_survey Examples.oneoff_prepared) 2
              oneoff_prepared_rows)
    as (mask & Hlen & _ & Hiff & _ & Hlate & _).
  exists mask. split; [exact Hlen|]. split; [|split; [|exact Hlate]].
  - apply (Hiff 0%nat 0.75 0); [reflexivity| |reflexivity].
    intros H. discriminate H.
  - apply (Hiff 1%nat 0.75 1); [reflexivity| |reflexivity].
    intros H. discriminate H.
Defined.

(** The area factor of a one-off survey with counters 1, 1, 1. *)
Lemma calc_rates_area_scaling_witness :
  exists (sr' : Rates) (self' : SurveyPopulation false),
    calc_rates Examples.scale_vol Examples.counted Examples.toy_survey
    = Ok self'
    /\ source_rate self'
       = Examples.scale_vol
           (set_f_area sr' (spec_area_factor 1 4 1 1 1 area_sky)).
Proof.
  destruct (@calc_rates_area_scaling Examples.scale_vol false
              Examples.counted Examples.toy_survey)
    as (sr' & self' & _ & _ & Hc & Hs).
  - intros H. discriminate H.
  - intros H. discriminate H.
  - intros H. discriminate H.
  - exact Q_nonzero_1.
  - exact Q_nonzero_1.
  - exists sr', self'. split; [exact Hc|exact Hs].
Defined.

Lemma toy_pointings_ok : pointings_ok Examples.toy_survey.
Proof.
  intros i.
  change ((np_mod i 2 < 2)%nat /\ (np_mod i 2 < 2)%nat).
  unfold np_mod. cbn [Nat.eqb].
  split; apply Nat.mod_upper_bound; discriminate.
Defined.

Lemma repeater_frbs_rows : input_rows Examples.repeater_frbs 2.
Proof.
  constructor; try reflexivity.
  - eexists. split; reflexivity.
  - intros l H. discriminate H.
Defined.

Lemma repeater_rows_ascending :
  Forall ascending (time Examples.repeater_frbs).
Proof.
  repeat constructor.
Defined.



(** Scenario C: the cut is at day 20 and drops the burst at 50.5 days. *)
Lemma late_bursts_cut_witness :
  exists m : nat,
    pointing_times Examples.exact_length Examples.toy_survey
    = Ok (map (pointing_time Examples.toy_survey) (seq 0 (S m)))
    /\ pointing_time Examples.toy_survey 20
       = pointing_time Examples.toy_survey m
    /\ late (burst_rate
               (cut_late (pointing_time Examples.toy_survey 20)
                  (Examples.prepared Examples.toy_survey
                     Examples.scenario_c_frbs)))
       == late (burst_rate
                  (Examples.prepared Examples.toy_survey
                     Examples.scenario_c_frbs))
          + qn (late_bursts
                  (time (frbs (Examples.prepared Examples.toy_survey
                                 Examples.scenario_c_frbs)))
                  (pointing_time Examples.toy_survey 20)).
Proof.
  destruct (@late_bursts_cut_at_last_pointing Examples.exact_length
              Examples.toy_survey (pointing_time Examples.toy_survey 20)
              (Examples.prepared Examples.toy_survey Examples.scenario_c_frbs))
    as [(m & H1 & H2 & _ & _ & H3 & _) _].
  - reflexivity.
  - vm_compute. reflexivity.
  - reflexivity.
  - exists m. repeat split; assumption.
Defined.

(** The source of the example is in the beam and bright in the first
    pointing: both flags are cleared after two pointings and still are
    after eleven. *)
Lemma pointing_flags_cleared_only_witness :
  pointing_loop Examples.toy_survey Examples.toy_times Examples.toy_lst
    (seq 0 2) (init_loop (cut_late (pointing_time Examples.toy_survey 20)
                            (Examples.prepared Examples.toy_survey
                               Examples.single_frbs)), ([], []))
  = Ok Examples.after_2
  /\ nth 0 (srcs_not_in_pointing (fst Examples.after_2)) true = false
  /\ nth 0 (srcs_not_in_pointing (fst Examples.after_11)) true = false
  /\ nth 0 (srcs_not_bright (fst Examples.after_11)) true = false.
Proof.
  assert (E2 : pointing_loop Examples.toy_survey Examples.toy_times
                 Examples.toy_lst (seq 0 2)
                 (init_loop (cut_late (pointing_time Examples.toy_survey 20)
                               (Examples.prepared Examples.toy_survey
                                  Examples.single_frbs)), ([], []))
               = Ok Examples.after_2) by (vm_compute; reflexivity).
  assert (E11 : pointing_loop Examples.toy_survey Examples.toy_times
                  Examples.toy_lst (seq 0 11)
                  (init_loop (cut_late (pointing_time Examples.toy_survey 20)
                                (Examples.prepared Examples.toy_survey
                                   Examples.single_frbs)), ([], []))
                = Ok Examples.after_11) by (vm_compute; reflexivity).
  destruct (@pointing_flags_cleared_only Examples.toy_survey
              Examples.toy_times Examples.toy_lst
              (cut_late (pointing_time Examples.toy_survey 20)
                 (Examples.prepared Examples.toy_survey Examples.single_frbs))
              2 11 Examples.after_2 Examples.after_11 0)
    as (_ & _ & Hn & Hb).
  - lia.
  - exact E2.
  - exact E11.
  - split; [exact E2|]. split; [reflexivity|]. split.
    + apply Hn. reflexivity.
    + apply Hb. reflexivity.
Defined.

(** The one-off source with SNR 20/2 and the burst at 10.5 days with SNR
    200/20, at the limit 10: the source is kept; the burst, alone in the
    window and in the beam of the pointing of day 10, is not returned and
    makes the count of the too faint bursts grow from 0 to 1. *)
Lemma threshold_asymmetry_witness :
  nth_error (snr (oneoff_measure Examples.toy_survey Examples.oneoff_prepared))
    1 = Some (Fin (20 # 2))
  /\ get2 NaN (snr (frbs (fst Examples.day_10))) (0, 2)%nat = Fin (200 # 20)
  /\ in_beam Examples.toy_survey (frbs Examples.ready) (Fin 0) (Fin 0)
       (Fin 0) (Fin 10) (Fin 11) = [(0, 2)%nat]
  /\ nth_error
       (snr_mask_oneoff Examples.toy_survey
          (oneoff_measure Examples.toy_survey Examples.oneoff_prepared)) 1
     = Some true
  /\ combine (fst (snd Examples.day_10)) (snd (snd Examples.day_10)) = []
  /\ faint (burst_rate Examples.ready) == 0
  /\ faint (burst_rate (fst Examples.day_10)) == 1.
Proof.
  destruct (@threshold_asymmetry Examples.toy_survey Examples.oneoff_prepared
              1 (Fin (20 # 2)) Examples.ready (fst Examples.day_10)
              (Fin 0) (Fin 0) (Fin 0) (Fin 10) (Fin 11)
              (snd Examples.day_10) (0, 2)%nat)
    as (H1 & H2 & _ & _ & H5).
  - vm_compute. reflexivity.
  - reflexivity.
  - vm_compute. reflexivity.
  - vm_compute. left. reflexivity.
  - vm_compute. reflexivity.
  - split; [vm_compute; reflexivity|]. split; [vm_compute; reflexivity|].
    split; [vm_compute; reflexivity|]. split; [exact H1|].
    split; [rewrite H2; vm_compute; reflexivity|].
    split; [vm_compute; reflexivity|].
    rewrite H5. vm_compute. reflexivity.
Defined.

(** * Further properties *)

(** ** fast_where on consecutive windows *)

Lemma row_window_empty :
  forall row lo hi,
    (searchsorted row hi <= searchsorted row lo)%nat ->
    row_window row lo hi = [].
Proof.
  intros row lo hi H. unfold row_window, arange_nat.
  replace (searchsorted row hi - searchsorted row lo)%nat with 0%nat by lia.
  reflexivity.
Qed.

Lemma window_hits_empty :
  forall a lo hi,
    (forall row, (searchsorted row hi <= searchsorted row lo)%nat) ->
    window_hits a lo hi = [].
Proof.
  intros a lo hi H. unfold window_hits.
  induction (seq 0 (length a)) as [|r l IH]; [reflexivity|].
  cbn [flat_map]. rewrite IH, row_window_empty by apply H. reflexivity.
Qed.

Lemma pairs_of_fast_where :
  forall a lo hi,
    a <> [] -> pairs_of (fast_where a lo hi) = window_hits a lo hi.
Proof.
  intros a lo hi Ha. rewrite (fast_where_hits _ _ Ha). cbn [pairs_of].
  apply combine_fst_snd.
Qed.

(** X3: a window whose upper bound is not above its lower bound selects
    nothing: on sorted rows no row has [left < right], and [fast_where]
    returns two empty index arrays. *)
Theorem fast_where_empty_window :
  forall (a : matrix float) (t_min t_max : Q),
    a <> [] -> Forall ascending a -> t_max <= t_min ->
    fast_where a (Fin t_min) (Fin t_max) = Ok ([], []).
Proof.
  intros a t_min t_max Ha _ Hle.
  rewrite (fast_where_hits _ _ Ha).
  rewrite window_hits_empty; [reflexivity|].
  intros row. now apply searchsorted_mono.
Qed.

(** X2: on sorted rows, two consecutive windows [t0, t1) and [t1, t2)
    select disjoint sets of cells, whose union is the selection of the
    window [t0, t2): a burst is in one pointing at most. *)
Theorem fast_where_windows_compose :
  forall (a : matrix float) (t0 t1 t2 : Q),
    a <> [] -> Forall ascending a -> t0 <= t1 -> t1 <= t2 ->
    (forall rc,
        In rc (pairs_of (fast_where a (Fin t0) (Fin t2)))
        <-> In rc (pairs_of (fast_where a (Fin t0) (Fin t1)))
            \/ In rc (pairs_of (fast_where a (Fin t1) (Fin t2))))
    /\ (forall rc,
           In rc (pairs_of (fast_where a (Fin t0) (Fin t1))) ->
           ~ In rc (pairs_of (fast_where a (Fin t1) (Fin t2))))
    /\ length (pairs_of (fast_where a (Fin t0) (Fin t2)))
       = (length (pairs_of (fast_where a (Fin t0) (Fin t1)))
          + length (pairs_of (fast_where a (Fin t1) (Fin t2))))%nat.
Proof.
  intros a t0 t1 t2 Ha _ H01 H12.
  rewrite !pairs_of_fast_where by exact Ha.
  assert (M01 : forall row,
             (searchsorted row (Fin t0) <= searchsorted row (Fin t1))%nat)
    by (intros row; now apply searchsorted_mono).
  assert (M12 : forall row,
             (searchsorted row (Fin t1) <= searchsorted row (Fin t2))%nat)
    by (intros row; now apply searchsorted_mono).
  split; [|split].
  - intros [r c]. rewrite !in_window_hits.
    specialize (M01 (nth r a [])). specialize (M12 (nth r a [])). lia.
  - intros [r c]. rewrite !in_window_hits. lia.
  - pose proof (@hits_telescope a (Fin t0) (Fin t1)) as A.
    pose proof (@hits_telescope a (Fin t1) (Fin t2)) as B.
    pose proof (@hits_telescope a (Fin t0) (Fin t2)) as C.
    assert (F : forall lo hi,
               (forall row, (searchsorted row lo <= searchsorted row hi)%nat) ->
               Forall (fun row =>
                         (searchsorted row lo <= searchsorted row hi)%nat) a).
    { intros lo hi H. apply Forall_forall. intros row _. apply H. }
    specialize (A (F _ _ M01)). specialize (B (F _ _ M12)).
    assert (M02 : forall row,
               (searchsorted row (Fin t0) <= searchsorted row (Fin t2))%nat).
    { intros row. specialize (M01 row). specialize (M12 row). lia. }
    specialize (C (F _ _ M02)). lia.
Qed.

(** ** The bursts of one pointing *)


(** ** np.unique and the flags *)

Lemma In_insert_unique :
  forall x y l, In y (insert_unique x l) <-> y = x \/ In y l.
Proof.
  intros x y l. induction l as [|z l IH]; simpl.
  - intuition.
  - destruct (x <? z)%nat eqn:E1; [simpl; intuition|].
    destruct (x =? z)%nat eqn:E2.
    + apply Nat.eqb_eq in E2. subst z. simpl. intuition.
    + simpl. rewrite IH. intuition.
Qed.

Lemma In_np_unique : forall y l, In y (np_unique l) <-> In y l.
Proof.
  intros y l. unfold np_unique. induction l as [|x l IH]; simpl.
  - reflexivity.
  - rewrite In_insert_unique, IH. intuition.
Qed.

Lemma insert_unique_sorted :
  forall x l,
    StronglySorted lt l -> StronglySorted lt (insert_unique x l).
Proof.
  intros x l H. induction H as [|z l Hs IH Hz]; simpl.
  - repeat constructor.
  - destruct (x <? z)%nat eqn:E1.
    + apply Nat.ltb_lt in E1. constructor; [now constructor|].
      constructor; [exact E1|].
      rewrite Forall_forall in *. intros y Hy. specialize (Hz _ Hy). lia.
    + destruct (x =? z)%nat eqn:E2; [now constructor|].
      apply Nat.ltb_ge in E1. apply Nat.eqb_neq in E2.
      constructor; [exact IH|].
      apply Forall_forall. intros y Hy. apply In_insert_unique in Hy.
      destruct Hy as [->|Hy]; [lia|].
      rewrite Forall_forall in Hz. now apply Hz.
Qed.

Lemma np_unique_sorted : forall l, StronglySorted lt (np_unique l).
Proof.
  unfold np_unique. induction l as [|x l IH]; simpl.
  - constructor.
  - now apply insert_unique_sorted.
Qed.

Lemma sorted_lt_NoDup : forall l, StronglySorted lt l -> NoDup l.
Proof.
  intros l H. induction H as [|z l Hs IH Hz]; constructor; auto.
  intros Hin. rewrite Forall_forall in Hz. specialize (Hz _ Hin). lia.
Qed.

Lemma NoDup_np_unique : forall l, NoDup (np_unique l).
Proof. intros l. apply sorted_lt_NoDup, np_unique_sorted. Qed.

(** The number of distinct values, counted over the range of the values. *)
Lemma length_np_unique :
  forall l n,
    Forall (fun k => (k < n)%nat) l ->
    length (np_unique l)
    = length (filter (fun k => existsb (Nat.eqb k) l) (seq 0 n)).
Proof.
  intros l n Hl. apply Permutation_length, NoDup_Permutation.
  - apply NoDup_np_unique.
  - apply NoDup_filter, seq_NoDup.
  - intros k. rewrite In_np_unique, filter_In, in_seq, existsb_exists.
    rewrite Forall_forall in Hl. split.
    + intros Hk. split; [specialize (Hl _ Hk); lia|].
      exists k. split; [exact Hk|apply Nat.eqb_refl].
    + intros (_ & x & Hx & E). apply Nat.eqb_eq in E. now subst x.
Qed.

(** ** The flags *)

Lemma length_set_false_at :
  forall flags i, length (set_false_at flags i) = length flags.
Proof.
  induction flags as [|b flags IH]; intros [|i]; simpl; auto.
Qed.

Lemma length_clear_flags :
  forall ix flags, length (clear_flags flags ix) = length flags.
Proof.
  unfold clear_flags. induction ix as [|i ix IH]; intros flags; simpl; auto.
  now rewrite IH, length_set_false_at.
Qed.

Lemma nth_set_false_at :
  forall flags i k,
    nth k (set_false_at flags i) true = false
    <-> nth k flags true = false \/ (k = i /\ (i < length flags)%nat).
Proof.
  induction flags as [|b flags IH]; intros [|i] [|k]; simpl;
    try (intuition (discriminate || lia)).
  rewrite IH. intuition lia.
Qed.

Lemma nth_clear_flags :
  forall ix flags k,
    nth k (clear_flags flags ix) true = false
    <-> nth k flags true = false \/ (In k ix /\ (k < length flags)%nat).
Proof.
  unfold clear_flags. induction ix as [|i ix IH]; intros flags k; simpl.
  - intuition.
  - rewrite IH, nth_set_false_at, length_set_false_at. intuition (subst; auto).
Qed.

Lemma nth_clear_where :
  forall flags mask k,
    length flags = length mask ->
    nth k (clear_where flags mask) true
    = if nth k mask true then negb (k <? length flags)%nat
      else nth k flags true.
Proof.
  unfold clear_where.
  induction flags as [|b flags IH]; intros [|m mask] k H; simpl in *;
    try discriminate.
  - destruct k; reflexivity.
  - injection H as H. destruct k as [|k]; simpl.
    + destruct m; reflexivity.
    + rewrite IH by exact H. reflexivity.
Qed.

Lemma length_clear_where :
  forall flags mask,
    length flags = length mask -> length (clear_where flags mask) = length flags.
Proof.
  unfold clear_where.
  induction flags as [|b flags IH]; intros [|m mask] H; simpl in *;
    try discriminate; auto.
Qed.

(** A count of the true entries, index by index. *)
Lemma count_nonzero_from :
  forall l s,
    count_nonzero l
    = length (filter (fun k => nth (k - s) l false) (seq s (length l))).
Proof.
  unfold count_nonzero.
  induction l as [|b l IH]; intros s; [reflexivity|].
  assert (E : filter (fun k => nth (k - s) (b :: l) false)
                (seq (S s) (length l))
              = filter (fun k => nth (k - S s) l false)
                  (seq (S s) (length l))).
  { apply filter_ext_in. intros k Hk. apply in_seq in Hk.
    replace (k - s)%nat with (S (k - S s)) by lia. reflexivity. }
  change (seq s (length (b :: l))) with (s :: seq (S s) (length l)).
  cbn [filter]. rewrite Nat.sub_diag, E. cbn [nth].
  destruct b; cbn [length]; rewrite <- (IH (S s)); reflexivity.
Qed.

Lemma count_nonzero_seq :
  forall l,
    count_nonzero l
    = length (filter (fun k => nth k l false) (seq 0 (length l))).
Proof.
  intros l. rewrite (count_nonzero_from l 0).
  f_equal. apply filter_ext. intros k. now rewrite Nat.sub_0_r.
Qed.

Lemma filter_three_way :
  forall (A : Type) (p1 p2 p3 : A -> bool) (s : list A),
    (forall x, In x s ->
       (p1 x = true /\ p2 x = false /\ p3 x = false)
       \/ (p1 x = false /\ p2 x = true /\ p3 x = false)
       \/ (p1 x = false /\ p2 x = false /\ p3 x = true)) ->
    (length (filter p1 s) + length (filter p2 s) + length (filter p3 s))%nat
    = length s.
Proof.
  induction s as [|x s IH]; intros H; [reflexivity|].
  assert (Hs : forall y, In y s ->
             (p1 y = true /\ p2 y = false /\ p3 y = false)
             \/ (p1 y = false /\ p2 y = true /\ p3 y = false)
             \/ (p1 y = false /\ p2 y = false /\ p3 y = true))
    by (intros y Hy; apply H; now right).
  specialize (IH Hs). cbn [filter].
  destruct (H x (or_introl eq_refl))
    as [(-> & -> & ->)|[(-> & -> & ->)|(-> & -> & ->)]]; simpl; lia.
Qed.

Lemma nth_default_in_range :
  forall (l : list bool) k d d',
    (k < length l)%nat -> nth k l d = nth k l d'.
Proof. intros l k d d' H. apply nth_indep. exact H. Qed.

(** The sources of the frame are split three ways by the two flags: never
    in a pointing, in a pointing but never bright, and bright. *)
Lemma flags_three_way :
  forall (nip nb : list bool) (keep0 : list nat),
    length nb = length nip ->
    (forall k, nth k nb true = false -> nth k nip true = false) ->
    (forall k, nth k nb true = false <-> In k keep0) ->
    (count_nonzero nip + count_nonzero (clear_where nb nip)
     + length (np_unique keep0))%nat = length nip.
Proof.
  intros nip nb keep0 Hlen Himp Hkeep.
  assert (Hrange : Forall (fun k => (k < length nip)%nat) keep0).
  { apply Forall_forall. intros k Hk. apply Hkeep in Hk.
    destruct (Nat.lt_ge_cases k (length nb)) as [Hlt|Hge]; [lia|].
    rewrite nth_overflow in Hk by exact Hge. discriminate Hk. }
  rewrite (length_np_unique Hrange).
  rewrite (count_nonzero_seq nip), (count_nonzero_seq (clear_where nb nip)).
  rewrite length_clear_where by exact Hlen. rewrite Hlen.
  transitivity (length (seq 0 (length nip))); [|apply length_seq].
  apply filter_three_way.
  intros k Hk. apply in_seq in Hk.
  rewrite (@nth_default_in_range nip k false true) by lia.
  rewrite (@nth_default_in_range (clear_where nb nip) k false true)
    by (rewrite length_clear_where; lia).
  rewrite nth_clear_where by exact Hlen.
  assert (Hlt : (k <? length nb)%nat = true) by (apply Nat.ltb_lt; lia).
  rewrite Hlt.
  assert (Hex : existsb (Nat.eqb k) keep0 = negb (nth k nb true)).
  { destruct (nth k nb true) eqn:Eb; simpl.
    - apply not_true_is_false. intros Hx. apply existsb_exists in Hx.
      destruct Hx as (x & Hx & E). apply Nat.eqb_eq in E. subst x.
      apply Hkeep in Hx. congruence.
    - apply existsb_exists. exists k. split; [|apply Nat.eqb_refl].
      now apply Hkeep. }
  rewrite Hex.
  destruct (nth k nip true) eqn:En, (nth k nb true) eqn:Eb; simpl; auto.
  specialize (Himp k Eb). congruence.
Qed.

(** ** The flags across the loop *)

Lemma init_before_detect :
  forall (scale_area : Rates -> Rates) (clean : Frbs true -> Frbs true)
         (len : Q -> Q -> Q -> nat)
         rep (p : Population rep) sv scat scin scale rng l,
    ra (pop_frbs p) = Some l -> rep && scin = false ->
    SurveyPopulation_init scale_area clean len (APopulation p) sv scat scin
      scale rng
    = (self <- detect scale_area clean len rng
                 (before_detect p sv scat scin scale) ;;
       Ok (set_survey self None)).
Proof.
  intros scale_area clean len rep p sv scat scin scale rng l Hra Hg.
  unfold SurveyPopulation_init. rewrite Hra, Hg. reflexivity.
Qed.

Lemma window_hits_rows :
  forall a lo hi rc, In rc (window_hits a lo hi) -> (fst rc < length a)%nat.
Proof.
  intros a lo hi [r c] H. apply in_window_hits in H. simpl. lia.
Qed.

Lemma pointing_step_flags :
  forall sv times lst n st i st',
    pointing_step sv times lst st i = Ok st' ->
    flags_inv n st -> flags_inv n st'.
Proof.
  intros sv times lst n [self keep] i [self' keep'] H Hinv.
  destruct (pointing_step_effect _ _ _ _ _ _ H)
    as (ra_pt & dec_pt & lst_i & t_min & t_max & xy & _ & _ & Hit & Hk).
  destruct (iter_pointings_selection _ _ _ _ _ _ _ Hit)
    as (Hxy & _ & Hn & Hb).
  destruct (iter_pointings_effect _ _ _ _ _ _ _ Hit) as (p_ix & ix1 & ix2 & H').
  cbv zeta in H'. destruct H' as (Ha & _ & _ & _ & _ & _ & _ & Ht & _).
  destruct Hinv as (It & Iln & Ilb & Iimp & Ikeep). cbn [fst snd] in *.
  set (tp := in_beam sv (frbs self) ra_pt dec_pt (Fin lst_i) (Fin t_min)
               (Fin t_max)) in *.
  set (kept := above_limit sv (frbs self') tp) in *.
  assert (Hrows : forall k, In k (map fst tp) -> (k < n)%nat).
  { intros k Hin. apply in_map_iff in Hin. destruct Hin as (rc & <- & Hin).
    unfold tp, in_beam in Hin. apply In_bmask in Hin.
    rewrite (in_window_hits_eq _ _ _ Ha) in Hin.
    apply window_hits_rows in Hin. lia. }
  assert (Hsub : forall k, In k (map fst kept) -> In k (map fst tp)).
  { intros k Hin. apply in_map_iff in Hin. destruct Hin as (rc & <- & Hin).
    unfold kept, above_limit in Hin. apply filter_In in Hin.
    apply in_map. tauto. }
  subst keep' xy. cbn [fst snd].
  unfold flags_inv. cbn [fst snd].
  rewrite Hn, Hb, Ht, !length_clear_flags.
  repeat split; auto.
  - intros k Hk. apply nth_clear_flags in Hk. apply nth_clear_flags.
    destruct Hk as [Hk|[Hk Hlt]]; [left; now apply Iimp|].
    right. rewrite In_np_unique in Hk. split; [|lia].
    rewrite In_np_unique. now apply Hsub.
  - intros Hk. apply nth_clear_flags in Hk. apply in_or_app.
    destruct Hk as [Hk|[Hk _]]; [left; now apply Ikeep|].
    right. now rewrite In_np_unique in Hk.
  - intros Hk. apply nth_clear_flags. apply in_app_or in Hk.
    destruct Hk as [Hk|Hk]; [left; now apply Ikeep|].
    right. split; [now rewrite In_np_unique|].
    rewrite Ilb. apply Hrows. now apply Hsub.
Qed.

Lemma pointing_loop_flags_inv :
  forall sv times lst n todo st st',
    pointing_loop sv times lst todo st = Ok st' ->
    flags_inv n st -> flags_inv n st'.
Proof.
  induction todo as [|i todo IH]; intros st st' H Hinv; simpl in H.
  - now injection H as <-.
  - destruct (pointing_step sv times lst st i) as [st1|e] eqn:E;
      [|discriminate].
    cbn [bind] in H. apply (IH _ _ H).
    exact (@pointing_step_flags _ _ _ _ _ _ _ E Hinv).
Qed.

Lemma nth_all_true :
  forall (A : Type) (l : list A) k, nth k (map (fun _ => true) l) true = true.
Proof.
  induction l as [|x l IH]; intros [|k]; simpl; auto.
Qed.

Lemma flags_inv_start :
  forall (self : SurveyPopulation true),
    length (index (frbs self)) = length (time (frbs self)) ->
    flags_inv (length (time (frbs self))) (init_loop self, ([], [])).
Proof.
  intros self Hlen. unfold flags_inv, init_loop.
  cbn [fst snd frbs set_frbs set_srcs_not_bright set_srcs_not_in_pointing
         srcs_not_bright srcs_not_in_pointing time index set_snr
         set_fluence].
  rewrite !length_map. repeat split; auto.
  - intros Hk. rewrite nth_all_true in Hk. discriminate Hk.
  - contradiction.
Qed.

Lemma save_scaling_counters :
  forall name vcm nd r r',
    save_scaling name vcm nd r = Ok r' ->
    (tot r', out r', late r', pointing r', faint r', det r')
    = (tot r, out r, late r, pointing r, faint r, det r).
Proof.
  intros name vcm nd r r' H. unfold save_scaling, py_div in H.
  destruct (Qeq_bool nd 0); [discriminate H|]. cbn [bind] in H.
  destruct (Qeq_bool _ 0); [discriminate H|]. cbn [bind] in H.
  injection H as <-. reflexivity.
Qed.

Lemma finish_repeaters_sources :
  forall (scale_area : Rates -> Rates) (clean : Frbs true -> Frbs true)
         sv n st self',
    finish_repeaters scale_area clean sv st = Ok self' ->
    flags_inv n st ->
    tot (source_rate self') = tot (source_rate (fst st))
    /\ out (source_rate self') = out (source_rate (fst st))
    /\ late (source_rate self') = late (source_rate (fst st))
    /\ pointing (source_rate self') + faint (source_rate self')
       + det (source_rate self') == qn n
    /\ det (source_rate self') = qn (length (np_unique (fst (snd st)))).
Proof.
  intros scale_area clean sv n [self keep] self' H Hinv.
  destruct Hinv as (_ & Iln & Ilb & Iimp & Ikeep). cbn [fst snd] in *.
  pose proof (@flags_three_way (srcs_not_in_pointing self)
                (srcs_not_bright self) (fst keep)
                (eq_trans Ilb (eq_sym Iln)) Iimp Ikeep) as T.
  rewrite Iln in T.
  unfold finish_repeaters, calc_rates in H.
  cbn [source_rate burst_rate set_burst_rate set_source_rate set_frbs
         sp_name vol_co_max n_days set_srcs_not_bright srcs_not_bright
         srcs_not_in_pointing] in H.
  destruct (save_scaling (sp_name self) (vol_co_max self) (n_days self) _)
    as [sr|e] eqn:Es; [|discriminate H].
  cbn [bind] in H.
  destruct (save_scaling (sp_name self) (vol_co_max self) (n_days self) _)
    as [br|e] eqn:Eb in H; [|discriminate H].
  cbn [bind] in H. injection H as <-.
  cbn [source_rate set_burst_rate set_source_rate].
  apply save_scaling_counters in Es. cbn in Es.
  injection Es as -> -> -> -> -> ->.
  repeat split; try reflexivity.
  rewrite <- T, !qn_plus. reflexivity.
Qed.

(** ** The run of a repeater survey *)

(** The run of [det_repeaters] on an object that keeps a source after the
    cut at the end of the survey: the loop over the pointings and the final
    bookkeeping complete. *)
Lemma det_repeaters_with_runs :
  forall (scale_area : Rates -> Rates) (clean : Frbs true -> Frbs true)
         (len : Q -> Q -> Q -> nat)
         sv rng (self0 : SurveyPopulation true) t_end,
    0 < t_obs sv ->
    end_of_survey len sv = Ok t_end ->
    pointings_ok sv -> scin self0 = false ->
    ~ n_days self0 == 0 -> ~ vol_co_max self0 == 0 ->
    cut_time (time (frbs self0)) t_end <> [] ->
    exists (m : nat) (st : loop_state) (self' : SurveyPopulation true),
      t_end = pointing_time sv m
      /\ pointing_loop sv (map (pointing_time sv) (seq 0 (S m)))
           (removelast
              (sidereal_times rng (map (pointing_time sv) (seq 0 (S m)))))
           (seq 0 m) (init_loop (cut_late t_end self0), ([], [])) = Ok st
      /\ loop_inv sv (init_loop (cut_late t_end self0)) m st
      /\ finish_repeaters scale_area clean sv st = Ok self'
      /\ det_repeaters_with scale_area clean len sv rng self0 = Ok self'.
Proof.
  intros scale_area clean len sv rng self0 t_end Ht Hend Hpt Hscin
         Hdays Hvol Hne.
  destruct (end_of_survey_last len sv Ht Hend) as (m & Htimes & ->).
  set (t_last := pointing_time sv m) in *.
  destruct (cut_late_fields t_last self0) as (Cs & Cd & Cv & _).
  pose proof (time_cut_late t_last self0) as Ctime.
  set (selfc := cut_late t_last self0) in *.
  destruct (init_loop_fields selfc) as (Itime & Ishape & Iscin & _ & Id & Iv).
  set (selfi := init_loop selfc) in *.
  assert (Hlst : length (removelast
                           (sidereal_times rng
                              (map (pointing_time sv) (seq 0 (S m))))) = m).
  { rewrite length_removelast_pred. unfold sidereal_times.
    rewrite !length_map, length_seq. lia. }
  assert (Hne' : time (frbs selfi) <> []).
  { rewrite Itime, Ctime. exact Hne. }
  assert (Hinv0 : loop_inv sv selfi 0 (selfi, ([], []))).
  { apply loop_inv_start.
    - now rewrite Iscin, Cs.
    - now rewrite Ishape, Itime. }
  destruct (@loop_inv_run sv selfi m _ Ht Hpt Hne' Hlst m 0%nat
              (selfi, ([], []))) as (st & Eloop & Hinv); [lia|exact Hinv0|].
  destruct (@finish_repeaters_counters scale_area clean sv selfi m st)
    as (self' & Efin & _).
  { now rewrite Id, Cd. }
  { now rewrite Iv, Cv. }
  { exact Hinv. }
  exists m, st, self'. split; [reflexivity|]. split; [exact Eloop|].
  split; [exact Hinv|]. split; [exact Efin|].
  unfold det_repeaters_with. rewrite Htimes. cbn [bind].
  rewrite index_last_map_seq. cbn [bind]. fold t_last. fold selfc. fold selfi.
  rewrite length_map, length_seq.
  replace (S m - 1)%nat with m by lia.
  rewrite Eloop. cbn [bind]. exact Efin.
Qed.

Lemma length_bmask_same :
  forall (A B : Type) (l1 : list A) (l2 : list B) mask,
    length l1 = length l2 -> length (bmask l1 mask) = length (bmask l2 mask).
Proof.
  induction l1 as [|x l1 IH]; intros [|y l2] [|b mask] H; simpl in *;
    try discriminate; auto.
  destruct b; simpl; auto.
Qed.

Lemma index_cut_late :
  forall t (self : SurveyPopulation true),
    length (index (frbs self)) = length (time (frbs self)) ->
    length (index (frbs (cut_late t self)))
    = length (time (frbs (cut_late t self))).
Proof.
  intros t self H. unfold cut_late, apply2.
  cbn [frbs set_frbs set_source_rate set_burst_rate index time].
  apply length_bmask_same.
  rewrite length_map2. unfold time_mask_of. rewrite length_map. lia.
Qed.

(** The object [__init__] hands to [det_repeaters]. *)
Lemma before_detect_repeater :
  forall (p : Population true) sv scat scale,
    let self0 := before_detect p sv scat false scale in
    let rm := region_mask_of sv (pop_frbs p) in
    survey self0 = Some (with_n_days sv (pop_n_days p))
    /\ scin self0 = false
    /\ n_days self0 = pop_n_days p
    /\ vol_co_max self0 = pop_vol_co_max p
    /\ time (frbs self0) = bmask (time (pop_frbs p)) rm
    /\ index (frbs self0) = bmask (index (pop_frbs p)) rm
    /\ tot (source_rate self0) = inject_Z (n_srcs p)
    /\ out (source_rate self0) = qn (count_nonzero (map negb rm))
    /\ late (source_rate self0)
       = 0 + (inject_Z (n_srcs p) - qn (length (time (pop_frbs p)))).
Proof.
  intros p sv scat scale.
  destruct (with_n_days_same sv (pop_n_days p)) as (_ & _ & _ & Ereg).
  assert (Erm : region_mask_of (with_n_days sv (pop_n_days p)) (pop_frbs p)
                = region_mask_of sv (pop_frbs p)).
  { unfold region_mask_of. now rewrite Ereg. }
  cbv zeta. unfold before_detect. cbv zeta.
  cbn [count_late_before count_out_bursts frbs set_frbs set_source_rate
         set_burst_rate set_n_brst_pr_src source_rate burst_rate survey scin
         n_days vol_co_max].
  rewrite time_derive_columns.
  cbn [frbs set_frbs].
  rewrite Erm.
  repeat split; try reflexivity.
  - unfold derive_columns. destruct scat; reflexivity.
  - cbn. now rewrite length_map.
Qed.

Lemma cut_late_source_rate :
  forall t (self : SurveyPopulation true),
    tot (source_rate (cut_late t self)) = tot (source_rate self)
    /\ out (source_rate (cut_late t self)) = out (source_rate self).
Proof. intros t self. split; reflexivity. Qed.

Lemma init_loop_source_rate :
  forall (self : SurveyPopulation true),
    source_rate (init_loop self) = source_rate self.
Proof. reflexivity. Qed.

Lemma length_insert_unique :
  forall x l, (length (insert_unique x l) <= S (length l))%nat.
Proof.
  intros x l. induction l as [|y l IH]; simpl; [lia|].
  destruct (x <? y)%nat; [simpl; lia|].
  destruct (x =? y)%nat; simpl; lia.
Qed.

Lemma length_np_unique_le :
  forall l, (length (np_unique l) <= length l)%nat.
Proof.
  unfold np_unique. induction l as [|x l IH]; simpl; [lia|].
  pose proof (length_insert_unique x (fold_right insert_unique [] l)). lia.
Qed.

Lemma np_unique_nil : forall l, np_unique l = [] -> l = [].
Proof.
  intros [|x l] H; [reflexivity|].
  assert (Hin : In x (np_unique (x :: l))).
  { rewrite In_np_unique. now left. }
  rewrite H in Hin. contradiction.
Qed.

Lemma qn_le : forall a b : nat, (a <= b)%nat -> qn a <= qn b.
Proof. intros a b H. unfold qn. rewrite <- Zle_Qle. lia. Qed.

Lemma qn_zero : forall a : nat, qn a == 0 <-> a = 0%nat.
Proof.
  intros a. unfold qn. split.
  - intros H. change 0 with (inject_Z 0) in H.
    rewrite inject_Z_injective in H. lia.
  - intros ->. reflexivity.
Qed.

(** The detections [det_repeaters] books after the loop: the bursts of
    [keep], and the distinct sources among them. *)
Lemma finish_repeaters_detections :
  forall (scale_area : Rates -> Rates) (clean : Frbs true -> Frbs true)
         sv (self0 : SurveyPopulation true) m st self',
    finish_repeaters scale_area clean sv st = Ok self' ->
    loop_inv sv self0 m st ->
    det (burst_rate self') = qn (length (fst (snd st)))
    /\ det (source_rate self') = qn (length (np_unique (fst (snd st)))).
Proof.
  intros scale_area clean sv self0 m [self keep] self' H Hinv.
  destruct Hinv as [It Ish _ _ _ Ikeep _]. cbn [fst snd] in *.
  destruct Ikeep as (K & HK & HndK & Hrange & _).
  unfold finish_repeaters in H. subst keep. cbn [fst snd] in *.
  rewrite combine_fst_snd in H.
  rewrite count_snr_mask in H.
  2: exact HndK.
  2: { rewrite Ish. apply Forall_forall. intros rc Hin.
       rewrite Forall_forall in Hrange. destruct (Hrange _ Hin) as [Hr Hc].
       unfold in_shape. rewrite nth_shape.
       pose proof (searchsorted_le_length (nth (fst rc) (time (frbs self0)) [])
                     (Fin (pointing_time sv m))).
       lia. }
  unfold calc_rates in H.
  cbn [source_rate burst_rate set_burst_rate set_source_rate set_frbs
         sp_name vol_co_max n_days set_srcs_not_bright] in H.
  destruct (save_scaling (sp_name self) (vol_co_max self) (n_days self) _)
    as [sr|e] eqn:Es; [|discriminate H].
  cbn [bind] in H.
  destruct (save_scaling (sp_name self) (vol_co_max self) (n_days self) _)
    as [br|e] eqn:Eb in H; [|discriminate H].
  cbn [bind] in H. injection H as <-.
  cbn [source_rate burst_rate set_burst_rate set_source_rate].
  apply save_scaling_counters in Es. apply save_scaling_counters in Eb.
  cbn in Es, Eb.
  injection Es as _ _ _ _ _ ->. injection Eb as _ _ _ _ _ ->.
  rewrite !length_map. split; reflexivity.
Qed.

(** Without a row of burst times the first search raises. *)
Lemma iter_pointings_no_rows :
  forall sv (self : SurveyPopulation true) ra_pt dec_pt lst t_min t_max,
    time (frbs self) = [] ->
    iter_pointings sv self ra_pt dec_pt lst t_min t_max
    = Raise (ValueError msg_no_rows).
Proof.
  intros sv self ra_pt dec_pt lst t_min t_max H.
  unfold iter_pointings. rewrite H. reflexivity.
Qed.

Lemma pointing_step_no_rows :
  forall sv times lst (self : SurveyPopulation true) keep i,
    time (frbs self) = [] -> pointings_ok sv ->
    (i < length lst)%nat -> (i + 1 < length times)%nat ->
    pointing_step sv times lst (self, keep) i
    = Raise (ValueError msg_no_rows).
Proof.
  intros sv times lst self keep i H Hpt Hl Ht.
  unfold pointing_step.
  destruct (Hpt i) as [Hra Hdec].
  destruct (index_at_ok _ Hra) as (ra_pt & ->).
  destruct (index_at_ok _ Hdec) as (dec_pt & ->).
  destruct (index_at_ok lst Hl) as (lst_i & ->).
  destruct (@index_at_ok _ times i) as (t_min & ->); [lia|].
  destruct (index_at_ok times Ht) as (t_max & ->).
  cbn [bind]. now rewrite iter_pointings_no_rows.
Qed.

Section RepeaterSources.

Variable Rates_scale_by_area : Rates -> Rates.
Variable Frbs_clean_up : Frbs true -> Frbs true.
Variable np_arange_length : Q -> Q -> Q -> nat.

(** The run of the constructor on a repeating population that keeps a
    source: the object handed to [det_repeaters], the state after the
    loop, and the result. *)
Lemma repeater_init_runs :
  forall (p : Population true) (sv : Survey) (scat scale : bool) (rng : Rng)
         (n : nat) (t_end : Q),
    input_rows (pop_frbs p) n ->
    0 < t_obs sv ->
    end_of_survey np_arange_length (with_n_days sv (pop_n_days p))
    = Ok t_end ->
    pointings_ok sv ->
    cut_time (bmask (time (pop_frbs p)) (region_mask_of sv (pop_frbs p)))
      t_end <> [] ->
    ~ pop_n_days p == 0 ->
    ~ pop_vol_co_max p == 0 ->
    exists (m : nat) (st : loop_state) (self' : SurveyPopulation true),
      let sv' := with_n_days sv (pop_n_days p) in
      let selfc := cut_late t_end (before_detect p sv scat false scale) in
      SurveyPopulation_init Rates_scale_by_area Frbs_clean_up
        np_arange_length (APopulation p) sv scat false scale rng
      = Ok (set_survey self' None)
      /\ pointing_loop sv' (map (pointing_time sv') (seq 0 (S m)))
           (removelast
              (sidereal_times rng (map (pointing_time sv') (seq 0 (S m)))))
           (seq 0 m) (init_loop selfc, ([], [])) = Ok st
      /\ loop_inv sv' (init_loop selfc) m st
      /\ finish_repeaters Rates_scale_by_area Frbs_clean_up sv' st = Ok self'.
Proof.
  intros p sv scat scale rng n t_end Hrows Ht Hend Hpt Hne Hdays Hvol.
  destruct (with_n_days_same sv (pop_n_days p)) as (Et & Ep & Enp & _).
  cbv zeta.
  set (sv' := with_n_days sv (pop_n_days p)) in *.
  assert (Ht' : 0 < t_obs sv') by (now rewrite Et).
  assert (Hpt' : pointings_ok sv').
  { intros i. unfold pointings_ok in Hpt. rewrite Ep, Enp. apply Hpt. }
  destruct (rows_ra Hrows) as (l & Era & _).
  rewrite (@init_before_detect Rates_scale_by_area Frbs_clean_up
             np_arange_length true p sv scat false scale rng l Era eq_refl).
  destruct (before_detect_repeater p sv scat scale)
    as (Bs & Bscin & Bd & Bv & Btime & _).
  cbv zeta in Bs, Bscin, Bd, Bv, Btime.
  fold sv' in Bs.
  set (self0 := before_detect p sv scat false scale) in *.
  cbn [detect]. unfold det_repeaters. rewrite Bs.
  destruct (@det_repeaters_with_runs Rates_scale_by_area Frbs_clean_up
              np_arange_length sv' rng self0 t_end Ht' Hend Hpt' Bscin)
    as (m & st & self' & Em & Eloop & Hinv & Efin & Erun).
  { now rewrite Bd. }
  { now rewrite Bv. }
  { now rewrite Btime. }
  exists m, st, self'.
  rewrite Erun. cbn [bind]. split; [reflexivity|].
  split; [exact Eloop|]. split; [exact Hinv|exact Efin].
Qed.

(** X5: the source-level counters of a repeater survey are conserved:
    every source of the population is outside the region, too late (no
    burst up to the end of the last pointing), never in a pointing, in a
    pointing but never bright, or detected. *)
Theorem repeater_source_conservation :
  forall (p : Population true) (sv : Survey) (scat scale : bool) (rng : Rng)
         (n : nat) (t_end : Q),
    input_rows (pop_frbs p) n ->
    n_srcs p = Z.of_nat n ->
    0 < t_obs sv ->
    end_of_survey np_arange_length (with_n_days sv (pop_n_days p))
    = Ok t_end ->
    Forall ascending (time (pop_frbs p)) ->
    pointings_ok sv ->
    cut_time (bmask (time (pop_frbs p)) (region_mask_of sv (pop_frbs p)))
      t_end <> [] ->
    ~ pop_n_days p == 0 ->
    ~ pop_vol_co_max p == 0 ->
    exists self : SurveyPopulation true,
      SurveyPopulation_init Rates_scale_by_area Frbs_clean_up
        np_arange_length (APopulation p) sv scat false scale rng = Ok self
      /\ tot (source_rate self) = qn n
      /\ out (source_rate self)
         = qn (count_nonzero (map negb (region_mask_of sv (pop_frbs p))))
      /\ late (source_rate self)
         == qn (late_sources
                  (bmask (time (pop_frbs p))
                     (region_mask_of sv (pop_frbs p))) t_end)
      /\ repeater_source_balance (source_rate self).
Proof.
  intros p sv scat scale rng n t_end Hrows Hn Ht Hend _ Hpt Hne Hdays Hvol.
  destruct (@repeater_init_runs p sv scat scale rng n t_end Hrows Ht Hend Hpt
              Hne Hdays Hvol)
    as (m & st & self' & Hrun & Eloop & Hinv & Efin).
  cbv zeta in Hrun, Eloop, Hinv.
  destruct (before_detect_repeater p sv scat scale)
    as (_ & _ & _ & _ & Btime & Bindex & Btot & Bout & Blate).
  cbv zeta in Btime, Bindex, Btot, Bout, Blate.
  set (sv' := with_n_days sv (pop_n_days p)) in *.
  set (self0 := before_detect p sv scat false scale) in *.
  set (T0 := time (pop_frbs p)) in *.
  set (rm := region_mask_of sv (pop_frbs p)) in *.
  assert (Hrm : length rm = n) by (apply (length_region_mask_of sv Hrows)).
  assert (HT0 : length T0 = n) by (apply (rows_time Hrows); reflexivity).
  exists (set_survey self' None). split; [exact Hrun|].
  cbn [source_rate set_survey].
  set (selfc := cut_late t_end self0) in *.
  assert (Hlen : length (index (frbs selfc)) = length (time (frbs selfc))).
  { apply index_cut_late. rewrite Bindex, Btime.
    apply length_bmask_same. rewrite HT0. apply (rows_index Hrows). }
  pose proof (flags_inv_start selfc Hlen) as F0.
  pose proof (pointing_loop_flags_inv _ _ _ _ Eloop F0) as F.
  destruct (finish_repeaters_sources _ _ _ Efin F)
    as (Gtot & Gout & Glate & Gsum & _).
  rewrite (inv_source Hinv), init_loop_source_rate in Gtot, Gout, Glate.
  destruct (cut_late_source_rate t_end self0) as [Ctot Cout].
  destruct (late_counters_cut_late t_end self0) as [Clate _].
  pose proof (time_cut_late t_end self0) as Ctime.
  fold selfc in Ctot, Cout, Clate, Ctime.
  rewrite Btime in Ctime.
  assert (Elate : late (source_rate self')
                  == qn (late_sources (bmask T0 rm) t_end)).
  { rewrite Glate, Clate, Blate, Ctime, Btime, Hn, HT0.
    rewrite <- late_sources_count.
    change (inject_Z (Z.of_nat n)) with (qn n). ring. }
  unfold repeater_source_balance.
  split; [rewrite Gtot, Ctot, Btot, Hn; reflexivity|].
  split; [rewrite Gout, Cout, Bout; reflexivity|].
  split; [exact Elate|].
  rewrite Elate. rewrite Gtot, Gout, Ctot, Cout, Btot, Bout, Hn.
  change (inject_Z (Z.of_nat n)) with (qn n).
  rewrite Ctime in Gsum.
  pose proof (late_sources_count t_end (bmask T0 rm)) as LS.
  unfold time_mask_of in LS. rewrite length_map in LS.
  rewrite (length_bmask T0 rm) in LS by lia.
  pose proof (count_nonzero_negb rm) as S1. rewrite Hrm in S1.
  assert (Q1 : qn n == qn (count_nonzero (map negb rm))
                       + qn (count_nonzero rm)).
  { rewrite <- S1, qn_plus. reflexivity. }
  lra.
Qed.

(** X6: a repeater survey never reports more detected sources than
    detected bursts, and it reports no detected source exactly when it
    reports no detected burst. *)
Theorem repeater_detected_sources_and_bursts :
  forall (p : Population true) (sv : Survey) (scat scale : bool) (rng : Rng)
         (n : nat) (t_end : Q),
    input_rows (pop_frbs p) n ->
    0 < t_obs sv ->
    end_of_survey np_arange_length (with_n_days sv (pop_n_days p))
    = Ok t_end ->
    Forall ascending (time (pop_frbs p)) ->
    pointings_ok sv ->
    cut_time (bmask (time (pop_frbs p)) (region_mask_of sv (pop_frbs p)))
      t_end <> [] ->
    ~ pop_n_days p == 0 ->
    ~ pop_vol_co_max p == 0 ->
    exists self : SurveyPopulation true,
      SurveyPopulation_init Rates_scale_by_area Frbs_clean_up
        np_arange_length (APopulation p) sv scat false scale rng = Ok self
      /\ 0 <= det (source_rate self)
      /\ det (source_rate self) <= det (burst_rate self)
      /\ (det (source_rate self) == 0 <-> det (burst_rate self) == 0).
Proof.
  intros p sv scat scale rng n t_end Hrows Ht Hend _ Hpt Hne Hdays Hvol.
  destruct (@repeater_init_runs p sv scat scale rng n t_end Hrows Ht Hend Hpt
              Hne Hdays Hvol)
    as (m & st & self' & Hrun & _ & Hinv & Efin).
  cbv zeta in Hrun, Hinv.
  exists (set_survey self' None). split; [exact Hrun|].
  cbn [source_rate burst_rate set_survey].
  destruct (@finish_repeaters_detections _ _ _ _ _ _ _ Efin Hinv) as [Db Ds].
  rewrite Db, Ds.
  split; [|split].
  - change 0 with (qn 0). apply qn_le. lia.
  - apply qn_le, length_np_unique_le.
  - rewrite !qn_zero. split.
    + intros H. apply length_zero_iff_nil in H. apply np_unique_nil in H.
      now rewrite H.
    + intros H. apply length_zero_iff_nil in H. now rewrite H.
Qed.

(** X7: when no source is left after the region and time cuts and the
    survey has at least one pointing, the constructor does not return an
    empty survey: the first pointing raises the ValueError of
    [np.apply_along_axis]. *)
Theorem repeater_survey_without_sources_raises :
  forall (p : Population true) (sv : Survey) (scat scale : bool) (rng : Rng)
         (n : nat) (t_end : Q),
    input_rows (pop_frbs p) n ->
    0 < t_obs sv ->
    end_of_survey np_arange_length (with_n_days sv (pop_n_days p))
    = Ok t_end ->
    0 < t_end ->
    pointings_ok sv ->
    cut_time (bmask (time (pop_frbs p)) (region_mask_of sv (pop_frbs p)))
      t_end = [] ->
    SurveyPopulation_init Rates_scale_by_area Frbs_clean_up
      np_arange_length (APopulation p) sv scat false scale rng
    = Raise (ValueError msg_no_rows).
Proof.
  intros p sv scat scale rng n t_end Hrows Ht Hend Hpos Hpt Hnone.
  destruct (with_n_days_same sv (pop_n_days p)) as (Et & Ep & Enp & _).
  set (sv' := with_n_days sv (pop_n_days p)) in *.
  assert (Ht' : 0 < t_obs sv') by (now rewrite Et).
  assert (Hpt' : pointings_ok sv').
  { intros i. unfold pointings_ok in Hpt. rewrite Ep, Enp. apply Hpt. }
  destruct (rows_ra Hrows) as (l & Era & _).
  rewrite (@init_before_detect Rates_scale_by_area Frbs_clean_up
             np_arange_length true p sv scat false scale rng l Era eq_refl).
  destruct (before_detect_repeater p sv scat scale)
    as (Bs & _ & _ & _ & Btime & _).
  cbv zeta in Bs, Btime. fold sv' in Bs.
  set (self0 := before_detect p sv scat false scale) in *.
  clearbody self0.
  cbn [detect]. unfold det_repeaters. rewrite Bs.
  destruct (end_of_survey_last np_arange_length sv' Ht' Hend)
    as (m & Htimes & Em).
  assert (Hm : m <> 0%nat).
  { intros ->.
    assert (H0 : pointing_time sv' 0 == 0)
      by (unfold pointing_time, qn; simpl; ring).
    rewrite Em in Hpos. lra. }
  destruct m as [|m']; [contradiction|].
  unfold det_repeaters_with. rewrite Htimes. cbn [bind].
  rewrite index_last_map_seq. cbn [bind]. rewrite <- Em.
  rewrite length_map, length_seq.
  replace (S (S m') - 1)%nat with (S m') by lia.
  pose proof (time_cut_late t_end self0) as Ctime.
  rewrite Btime, Hnone in Ctime.
  destruct (init_loop_fields (cut_late t_end self0)) as (Itime & _).
  rewrite Ctime in Itime.
  set (selfi := init_loop (cut_late t_end self0)) in *. clearbody selfi.
  set (times := map (pointing_time sv') (seq 0 (S (S m')))).
  assert (Htl : length times = S (S m')).
  { unfold times. now rewrite length_map, length_seq. }
  set (lst := removelast (sidereal_times rng times)).
  assert (Hlst : length lst = S m').
  { unfold lst. rewrite length_removelast_pred. unfold sidereal_times.
    rewrite !length_map. lia. }
  clearbody lst. clearbody times.
  change (seq 0 (S m')) with (0%nat :: seq 1 m').
  change (pointing_loop sv' times lst (0%nat :: seq 1 m') (selfi, ([], [])))
    with (st' <- pointing_step sv' times lst (selfi, ([], [])) 0 ;;
          pointing_loop sv' times lst (seq 1 m') st').
  rewrite pointing_step_no_rows; [reflexivity|exact Itime|exact Hpt'|lia|lia].
Qed.

End RepeaterSources.

(** ** The one-off path, end to end *)

Lemma calc_rates_frbs :
  forall (scale_area : Rates -> Rates) rep (self self' : SurveyPopulation rep)
         sv,
    calc_rates scale_area self sv = Ok self' -> frbs self' = frbs self.
Proof.
  intros scale_area rep self self' sv H. unfold calc_rates in H.
  destruct (save_scaling _ _ _ (source_rate self)) as [sr|e];
    [|discriminate H].
  cbn [bind] in H.
  destruct rep.
  - destruct (save_scaling _ _ _ (burst_rate self)) as [br|e];
      [|discriminate H].
    cbn [bind] in H. injection H as <-. reflexivity.
  - cbn [bind] in H. injection H as <-. reflexivity.
Qed.

Lemma oneoff_finish_frbs :
  forall (scale_area : Rates -> Rates) sv (self self' : SurveyPopulation false),
    oneoff_finish scale_area sv self = Ok self' ->
    frbs self' = frbs self
    /\ (scale_by_area self = false ->
        det (source_rate self') = qn (length (snr (frbs self)))).
Proof.
  intros scale_area sv self self' H. unfold oneoff_finish in H.
  cbn [scale_by_area set_source_rate] in H.
  destruct (scale_by_area self) eqn:Es.
  - apply calc_rates_frbs in H. split; [exact H|]. intros E. discriminate E.
  - injection H as <-. split; [reflexivity|]. intros _. reflexivity.
Qed.

Lemma Forall_bmask :
  forall (A : Type) (P : A -> Prop) (l : list A) mask,
    Forall P l -> Forall P (bmask l mask).
Proof.
  intros A P l mask H. apply Forall_forall. intros x Hx.
  apply In_bmask in Hx. rewrite Forall_forall in H. now apply H.
Qed.

Lemma before_detect_oneoff :
  forall (p : Population false) sv scat scin scale n,
    input_rows (pop_frbs p) n ->
    let sv' := with_n_days sv (pop_n_days p) in
    let self0 := before_detect p sv scat scin scale in
    let rm := region_mask_of sv (pop_frbs p) in
    survey self0 = Some sv'
    /\ scale_by_area self0 = scale
    /\ n_days self0 = pop_n_days p
    /\ vol_co_max self0 = pop_vol_co_max p
    /\ length rm = n
    /\ derived_rows (frbs self0) (count_nonzero rm)
    /\ source_rate self0
       = set_out (set_tot (Rates_new "source") (inject_Z (n_srcs p)))
           (qn (count_nonzero (map negb rm))).
Proof.
  intros p sv scat scin scale n Hrows.
  destruct (with_n_days_same sv (pop_n_days p)) as (_ & _ & _ & Ereg).
  assert (Erm : region_mask_of (with_n_days sv (pop_n_days p)) (pop_frbs p)
                = region_mask_of sv (pop_frbs p)).
  { unfold region_mask_of. now rewrite Ereg. }
  cbv zeta. unfold before_detect. cbv zeta.
  cbn [count_late_before count_out_bursts frbs set_frbs set_source_rate
         source_rate survey scale_by_area n_days vol_co_max].
  rewrite Erm.
  assert (Hrm : length (region_mask_of sv (pop_frbs p)) = n)
    by (apply length_region_mask_of; exact Hrows).
  do 4 (split; [reflexivity|]). split; [exact Hrm|].
  split; [|reflexivity].
  apply derive_columns_rows. eapply apply1_input_rows; eauto.
Qed.

Lemma snr_limit_with_n_days :
  forall sv d, snr_limit (with_n_days sv d) = snr_limit sv.
Proof. intros sv d. unfold with_n_days. now destruct (survey_n_days sv). Qed.

Lemma oneoff_snr_frame :
  forall sv (self : SurveyPopulation false),
    snr (frbs (oneoff_snr sv self))
    = filter (fun x => fge x (snr_limit sv)) (snr (oneoff_measure sv self))
    /\ scale_by_area (oneoff_snr sv self) = scale_by_area self.
Proof.
  intros sv self. split; [|reflexivity].
  unfold oneoff_snr, snr_mask_oneoff.
  cbn [frbs set_frbs set_source_rate]. unfold apply1. cbn [snr].
  apply (@bmask_map_filter float).
Qed.

Lemma oneoff_late_frame :
  forall rng (self : SurveyPopulation false),
    frbs (oneoff_late rng self)
    = apply1 (frbs self) (rate_mask_of rng (z (frbs self)))
    /\ scale_by_area (oneoff_late rng self) = scale_by_area self.
Proof. intros rng self. split; reflexivity. Qed.

Lemma fge_not_nan : forall x y, fge x y = true -> isnan x = false.
Proof.
  intros x y H. destruct x; try reflexivity.
  unfold fge in H. destruct y; discriminate H.
Qed.

Lemma det_oneoffs_some :
  forall (scale_area : Rates -> Rates) rng (self : SurveyPopulation false) sv,
    survey self = Some sv ->
    det_oneoffs scale_area rng self = det_oneoffs_with scale_area sv rng self.
Proof. intros scale_area rng self sv H. unfold det_oneoffs. now rewrite H. Qed.

Lemma detect_oneoff :
  forall (scale_area : Rates -> Rates) (clean : Frbs true -> Frbs true)
         (len : Q -> Q -> Q -> nat) rng (self : SurveyPopulation false),
    detect scale_area clean len rng self = det_oneoffs scale_area rng self.
Proof. reflexivity. Qed.

Section OneOffFrame.

Variable Rates_scale_by_area : Rates -> Rates.
Variable Frbs_clean_up : Frbs true -> Frbs true.
Variable np_arange_length : Q -> Q -> Q -> nat.

Lemma det_oneoffs_with_frame :
  forall sv rng (self0 self : SurveyPopulation false) n,
    derived_rows (frbs self0) n ->
    det_oneoffs_with Rates_scale_by_area sv rng self0 = Ok self ->
    Forall (fun x => fge x (snr_limit sv) = true /\ isnan x = false)
           (snr (frbs self))
    /\ derived_rows (frbs self) (length (snr (frbs self)))
    /\ (scale_by_area self0 = false ->
        det (source_rate self) = qn (length (snr (frbs self)))).
Proof.
  intros sv rng self0 self n H0 H.
  unfold det_oneoffs_with in H.
  destruct (oneoff_snr_rows sv self0 H0) as (c & H1 & Hs1 & _).
  destruct (oneoff_snr_frame sv self0) as [Fs1 Fc1].
  set (s1 := oneoff_snr sv self0) in *. clearbody s1.
  assert (Hsnr1 : Forall (fun x => fge x (snr_limit sv) = true
                                   /\ isnan x = false) (snr (frbs s1))).
  { rewrite Fs1. apply Forall_forall. intros x Hx.
    apply filter_In in Hx. destruct Hx as [_ Hx]. split; [exact Hx|].
    exact (fge_not_nan _ _ Hx). }
  destruct (oneoff_late_frame rng s1) as [Hf2 Fc2].
  assert (Hm : length (rate_mask_of rng (z (frbs s1))) = c).
  { rewrite length_rate_mask_of. apply (rows_z (rows_input H1)). }
  pose proof (@apply1_derived_rows _ _ _ _ H1 Hm) as H2.
  assert (Hl2 : length (snr (frbs (oneoff_late rng s1)))
                = count_nonzero (rate_mask_of rng (z (frbs s1)))).
  { rewrite Hf2. unfold apply1. cbn [snr].
    apply length_bmask. rewrite Hm. exact Hs1. }
  assert (Hsnr2 : Forall (fun x => fge x (snr_limit sv) = true
                                   /\ isnan x = false)
                         (snr (frbs (oneoff_late rng s1)))).
  { rewrite Hf2. unfold apply1. cbn [snr]. now apply Forall_bmask. }
  rewrite <- Hf2, <- Hl2 in H2.
  set (s2 := oneoff_late rng s1) in *. clearbody s2.
  destruct (oneoff_finish_frbs _ _ _ H) as [Hf3 Hd3].
  rewrite Hf3.
  split; [exact Hsnr2|]. split; [exact H2|].
  intros E. apply Hd3. now rewrite Fc2, Fc1.
Qed.

(** X8: the frame a one-off survey returns holds detections only: every
    source left has an SNR that is a number and at least the limit, every
    column has one entry per source left, the survey is released, and
    (when the rates are not scaled) [source_rate.det] is the number of
    sources left. *)
Theorem oneoff_survivors_above_limit :
  forall (p : Population false) (sv : Survey) (scat scin scale : bool)
         (rng : Rng) (n : nat) (self : SurveyPopulation false),
    input_rows (pop_frbs p) n ->
    SurveyPopulation_init Rates_scale_by_area Frbs_clean_up
      np_arange_length (APopulation p) sv scat scin scale rng = Ok self ->
    Forall (fun x => fge x (snr_limit sv) = true /\ isnan x = false)
           (snr (frbs self))
    /\ derived_rows (frbs self) (length (snr (frbs self)))
    /\ survey self = None
    /\ (scale = false ->
        det (source_rate self) = qn (length (snr (frbs self)))).
Proof.
  intros p sv scat scin scale rng n self Hrows H.
  destruct (rows_ra Hrows) as (l & Era & _).
  rewrite (@init_before_detect Rates_scale_by_area Frbs_clean_up
             np_arange_length false p sv scat scin scale rng l Era eq_refl)
    in H.
  destruct (before_detect_oneoff p sv scat scin scale Hrows)
    as (Bs & Bsc & _ & _ & Hrm & H0 & _).
  cbv zeta in Bs, Bsc, Hrm, H0.
  pose proof (snr_limit_with_n_days sv (pop_n_days p)) as El.
  set (sv' := with_n_days sv (pop_n_days p)) in *.
  set (self0 := before_detect p sv scat scin scale) in *.
  clearbody self0. clearbody sv'.
  rewrite detect_oneoff, (det_oneoffs_some _ _ _ Bs) in H.
  destruct (det_oneoffs_with Rates_scale_by_area sv' rng self0)
    as [s3|e] eqn:E3; [|discriminate H].
  cbn [bind] in H. injection H as <-.
  destruct (@det_oneoffs_with_frame _ _ _ _ _ H0 E3) as (G1 & G2 & G3).
  rewrite El in G1.
  cbn [frbs set_survey survey source_rate].
  split; [exact G1|]. split; [exact G2|]. split; [reflexivity|].
  intros E. apply G3. now rewrite Bsc.
Qed.

End OneOffFrame.

Lemma calc_rates_zero_days :
  forall (scale_area : Rates -> Rates) rep (self : SurveyPopulation rep) sv,
    n_days self == 0 ->
    calc_rates scale_area self sv = Raise ZeroDivisionError.
Proof.
  intros scale_area rep self sv H. unfold calc_rates, save_scaling, py_div.
  apply Qeq_bool_iff in H. rewrite H. reflexivity.
Qed.

Lemma oneoff_stages_meta :
  forall sv rng (self : SurveyPopulation false),
    n_days (oneoff_late rng (oneoff_snr sv self)) = n_days self
    /\ vol_co_max (oneoff_late rng (oneoff_snr sv self)) = vol_co_max self
    /\ scale_by_area (oneoff_late rng (oneoff_snr sv self))
       = scale_by_area self
    /\ sp_name (oneoff_late rng (oneoff_snr sv self)) = sp_name self.
Proof. intros sv rng self. repeat split. Qed.

Lemma count_nonzero_all_false :
  forall mask, Forall (fun b => b = false) mask -> count_nonzero mask = 0%nat.
Proof.
  unfold count_nonzero. induction 1 as [|b mask Hb _ IH]; [reflexivity|].
  subst b. exact IH.
Qed.

Section OneOffEdges.

Variable Rates_scale_by_area : Rates -> Rates.
Variable Frbs_clean_up : Frbs true -> Frbs true.
Variable np_arange_length : Q -> Q -> Q -> nat.

(** X10: with the rates scaled by area, a one-off population whose day
    count is zero cannot be surveyed: [calc_rates] divides 365.25 by
    [n_days] and the constructor raises ZeroDivisionError. *)
Theorem oneoff_rates_need_days :
  forall (p : Population false) (sv : Survey) (scat scin : bool) (rng : Rng)
         (n : nat),
    input_rows (pop_frbs p) n ->
    pop_n_days p == 0 ->
    SurveyPopulation_init Rates_scale_by_area Frbs_clean_up
      np_arange_length (APopulation p) sv scat scin true rng
    = Raise ZeroDivisionError.
Proof.
  intros p sv scat scin rng n Hrows Hz.
  destruct (rows_ra Hrows) as (l & Era & _).
  rewrite (@init_before_detect Rates_scale_by_area Frbs_clean_up
             np_arange_length false p sv scat scin true rng l Era eq_refl).
  destruct (before_detect_oneoff p sv scat scin true Hrows)
    as (Bs & Bsc & Bd & _).
  cbv zeta in Bs, Bsc, Bd.
  set (sv' := with_n_days sv (pop_n_days p)) in *.
  set (self0 := before_detect p sv scat scin true) in *.
  clearbody self0. clearbody sv'.
  rewrite detect_oneoff, (det_oneoffs_some _ _ _ Bs).
  unfold det_oneoffs_with, oneoff_finish.
  destruct (oneoff_stages_meta sv' rng self0) as (Md & _ & Ms & _).
  set (s2 := oneoff_late rng (oneoff_snr sv' self0)) in *. clearbody s2.
  cbn [scale_by_area set_source_rate]. rewrite Ms, Bsc.
  rewrite calc_rates_zero_days; [reflexivity|].
  cbn [n_days set_source_rate]. now rewrite Md, Bd.
Qed.

(** X9: a one-off population without a source inside the region (or
    without any source) is surveyed without error: the frame is empty,
    every source is counted out of the region, nothing is detected, too
    faint or too late, and the area factor handed to
    [Rates.scale_by_area] is 1. *)
Theorem oneoff_survey_outside_region :
  forall (p : Population false) (sv : Survey) (scat scin scale : bool)
         (rng : Rng) (n : nat),
    input_rows (pop_frbs p) n ->
    n_srcs p = Z.of_nat n ->
    Forall (fun b => b = false) (region_mask_of sv (pop_frbs p)) ->
    (scale = true -> ~ pop_n_days p == 0) ->
    (scale = true -> ~ pop_vol_co_max p == 0) ->
    exists (self : SurveyPopulation false) (r : Rates),
      SurveyPopulation_init Rates_scale_by_area Frbs_clean_up
        np_arange_length (APopulation p) sv scat scin scale rng = Ok self
      /\ snr (frbs self) = []
      /\ source_rate self = (if scale then Rates_scale_by_area r else r)
      /\ tot r == qn n /\ out r == qn n
      /\ det r == 0 /\ faint r == 0 /\ late r == 0
      /\ (scale = true -> f_area r == 1).
Proof.
  intros p sv scat scin scale rng n Hrows Hn Hout Hdays Hvol.
  destruct (rows_ra Hrows) as (l & Era & _).
  rewrite (@init_before_detect Rates_scale_by_area Frbs_clean_up
             np_arange_length false p sv scat scin scale rng l Era eq_refl).
  destruct (before_detect_oneoff p sv scat scin scale Hrows)
    as (Bs & Bsc & Bd & Bv & Hrm & H0 & Bsr).
  cbv zeta in Bs, Bsc, Bd, Bv, Hrm, H0, Bsr.
  set (rm := region_mask_of sv (pop_frbs p)) in *.
  assert (Hc0 : count_nonzero rm = 0%nat)
    by (now apply count_nonzero_all_false).
  assert (Hcn : count_nonzero (map negb rm) = n).
  { pose proof (count_nonzero_negb rm). lia. }
  rewrite Hc0 in H0. rewrite Hcn, Hn in Bsr.
  set (sv' := with_n_days sv (pop_n_days p)) in *.
  set (self0 := before_detect p sv scat scin scale) in *.
  clearbody self0. clearbody sv'.
  rewrite detect_oneoff, (det_oneoffs_some _ _ _ Bs).
  unfold det_oneoffs_with.
  destruct (oneoff_measure_rows sv' self0 H0) as [_ Lm].
  destruct (oneoff_snr_rows sv' self0 H0) as (c & H1 & Hs1 & Hr1).
  destruct (oneoff_snr_frame sv' self0) as [Fs1 _].
  assert (Ec : c = 0%nat).
  { rewrite <- Hs1, Fs1.
    change (burst_t false) with float in *.
    apply length_zero_iff_nil in Lm. now rewrite Lm. }
  rewrite Ec in H1, Hs1, Hr1. clear Ec.
  destruct (oneoff_late_rows rng (oneoff_snr sv' self0) H1 Hs1)
    as (d & Hs2 & Hr2).
  destruct (oneoff_late_frame rng (oneoff_snr sv' self0)) as [Hf2 _].
  assert (Ed : d = 0%nat).
  { rewrite <- Hs2, Hf2. unfold apply1. cbn [snr].
    change (burst_t false) with float in *.
    apply length_zero_iff_nil in Hs1. now rewrite Hs1. }
  rewrite Ed in Hs2, Hr2. clear Ed.
  destruct (oneoff_stages_meta sv' rng self0) as (Md & Mv & Ms & _).
  set (s2 := oneoff_late rng (oneoff_snr sv' self0)) in *. clearbody s2.
  change (burst_t false) with float in *.
  apply length_zero_iff_nil in Hs2.
  unfold oneoff_finish. cbn [scale_by_area set_source_rate].
  rewrite Ms, Bsc, Hs2, Hr2, Hr1, Bsr.
  destruct scale.
  - unfold calc_rates.
    cbn [sp_name vol_co_max n_days source_rate burst_rate set_source_rate
           set_burst_rate].
    rewrite Md, Mv, Bd, Bv.
    rewrite save_scaling_ok by auto.
    cbn [bind].
    eexists. eexists. split; [reflexivity|].
    cbn [frbs set_survey set_source_rate set_burst_rate source_rate].
    split; [exact Hs2|]. split; [reflexivity|].
    cbn [tot out det faint late f_area set_f_area set_vol set_name set_days
           set_det set_late set_faint set_out set_tot Rates_new length].
    change (inject_Z (Z.of_nat n)) with (qn n).
    repeat split; reflexivity.
  - cbn [bind]. eexists. eexists. split; [reflexivity|].
    cbn [frbs set_survey set_source_rate source_rate].
    split; [exact Hs2|]. split; [reflexivity|].
    cbn [tot out det faint late f_area set_det set_late set_faint set_out
           set_tot Rates_new length].
    change (inject_Z (Z.of_nat n)) with (qn n).
    repeat split; reflexivity.
Qed.

End OneOffEdges.

(** ** The further properties on the examples *)

Lemma window_rows_ascending : Forall ascending Examples.window_rows.
Proof. repeat constructor. Defined.

Lemma window_rows_not_empty : Examples.window_rows <> [].
Proof. intros H. discriminate H. Defined.

(** In the two rows, the cells with [1 <= t < 2] are (0, 1) and (1, 0);
    the cell (1, 1), equal to the upper bound, is not selected. *)
Lemma fast_where_half_open_witness :
  fast_where Examples.window_rows (Fin 1) (Fin 2)
  = Ok (where2 (half_open_mask Examples.window_rows (Fin 1) (Fin 2)))
  /\ where2 (half_open_mask Examples.window_rows (Fin 1) (Fin 2))
     = ([0; 1], [1; 0])%nat.
Proof.
  split.
  - apply fast_where_half_open.
    + exact window_rows_not_empty.
    + exact window_rows_ascending.
    + reflexivity.
  - vm_compute. reflexivity.
Defined.

(** The window [2, 1) of the two rows. *)
Lemma fast_where_empty_window_witness :
  fast_where Examples.window_rows (Fin 2) (Fin 1) = Ok ([], []).
Proof.
  apply fast_where_empty_window.
  - exact window_rows_not_empty.
  - exact window_rows_ascending.
  - intros H. discriminate H.
Defined.

(** The windows [0, 1), [1, 2) and [0, 2) of the two rows: one, two and
    three cells. *)
Lemma fast_where_windows_compose_witness :
  length (pairs_of (fast_where Examples.window_rows (Fin 0) (Fin 2)))
  = (length (pairs_of (fast_where Examples.window_rows (Fin 0) (Fin 1)))
     + length (pairs_of (fast_where Examples.window_rows (Fin 1) (Fin 2))))%nat
  /\ pairs_of (fast_where Examples.window_rows (Fin 0) (Fin 1)) = [(0, 0)%nat]
  /\ pairs_of (fast_where Examples.window_rows (Fin 1) (Fin 2))
     = [(0, 1); (1, 0)]%nat.
Proof.
  destruct (@fast_where_windows_compose Examples.window_rows 0 1 2)
    as (_ & _ & H).
  - exact window_rows_not_empty.
  - exact window_rows_ascending.
  - intros E. discriminate E.
  - intros E. discriminate E.
  - split; [exact H|]. split; vm_compute; reflexivity.
Defined.


(** The two repeating sources of the example: one outside the region,
    one detected. *)
Lemma repeater_source_conservation_witness :
  exists self : SurveyPopulation true,
    SurveyPopulation_init Examples.scale_vol Examples.keep_frbs
      Examples.exact_length
      (APopulation Examples.repeater_pop) Examples.toy_survey
      false false true Examples.toy_rng = Ok self
    /\ tot (source_rate self) == 2
    /\ out (source_rate self) == 1
    /\ late (source_rate self) == 0
    /\ repeater_source_balance (source_rate self).
Proof.
  destruct (@repeater_source_conservation Examples.scale_vol
              Examples.keep_frbs Examples.exact_length
              Examples.repeater_pop Examples.toy_survey false true
              Examples.toy_rng 2 (pointing_time Examples.toy_survey 20))
    as (self & Hrun & Htot & Hout & Hlate & Hbal).
  - exact repeater_frbs_rows.
  - reflexivity.
  - reflexivity.
  - vm_compute. reflexivity.
  - exact repeater_rows_ascending.
  - exact toy_pointings_ok.
  - vm_compute. intros H. discriminate H.
  - exact Q_nonzero_20.
  - exact Q_nonzero_1.
  - exists self. split; [exact Hrun|].
    split; [rewrite Htot; vm_compute; reflexivity|].
    split; [rewrite Hout; vm_compute; reflexivity|].
    split; [rewrite Hlate; vm_compute; reflexivity|exact Hbal].
Defined.

Lemma repeater_detected_sources_and_bursts_witness :
  exists self : SurveyPopulation true,
    SurveyPopulation_init Examples.scale_vol Examples.keep_frbs
      Examples.exact_length
      (APopulation Examples.repeater_pop) Examples.toy_survey
      false false true Examples.toy_rng = Ok self
    /\ det (source_rate self) <= det (burst_rate self).
Proof.
  destruct (@repeater_detected_sources_and_bursts Examples.scale_vol
              Examples.keep_frbs Examples.exact_length
              Examples.repeater_pop Examples.toy_survey false true
              Examples.toy_rng 2 (pointing_time Examples.toy_survey 20))
    as (self & Hrun & _ & Hle & _).
  - exact repeater_frbs_rows.
  - reflexivity.
  - vm_compute. reflexivity.
  - exact repeater_rows_ascending.
  - exact toy_pointings_ok.
  - vm_compute. intros H. discriminate H.
  - exact Q_nonzero_20.
  - exact Q_nonzero_1.
  - exists self. split; [exact Hrun|exact Hle].
Defined.

Lemma outside_frbs_rows : input_rows Examples.outside_frbs 1.
Proof.
  constructor; try reflexivity.
  - eexists. split; reflexivity.
  - intros l H. discriminate H.
Defined.

(** The repeating source outside the region. *)
Lemma repeater_survey_without_sources_raises_witness :
  SurveyPopulation_init Examples.scale_vol Examples.keep_frbs
    Examples.exact_length
    (APopulation Examples.outside_pop) Examples.toy_survey
    false false true Examples.toy_rng
  = Raise (ValueError msg_no_rows).
Proof.
  apply (@repeater_survey_without_sources_raises Examples.scale_vol
           Examples.keep_frbs Examples.exact_length
           Examples.outside_pop Examples.toy_survey false true
           Examples.toy_rng 1 (pointing_time Examples.toy_survey 20)).
  - exact outside_frbs_rows.
  - reflexivity.
  - vm_compute. reflexivity.
  - reflexivity.
  - exact toy_pointings_ok.
  - vm_compute. reflexivity.
Defined.

(** The four one-off sources: the one at the limit is left, with the SNR
    20 / 2. *)
Lemma oneoff_survivors_above_limit_witness :
  Forall (fun x => fge x (snr_limit Examples.toy_survey) = true
                   /\ isnan x = false) (snr (frbs Examples.oneoff_done))
  /\ snr (frbs Examples.oneoff_done) = [Fin (20 # 2)]
  /\ det (source_rate Examples.oneoff_done) = qn 1.
Proof.
  destruct (@oneoff_survivors_above_limit Examples.scale_vol
              Examples.keep_frbs Examples.exact_length Examples.oneoff_pop
              Examples.toy_survey false false false Examples.toy_rng 4
              Examples.oneoff_done)
    as (H1 & _ & _ & H4).
  - exact oneoff_frbs_rows.
  - vm_compute. reflexivity.
  - split; [exact H1|]. split; [vm_compute; reflexivity|].
    exact (H4 eq_refl).
Defined.

Lemma far_frbs_rows : input_rows Examples.far_frbs 4.
Proof.
  constructor; try reflexivity.
  - eexists. split; reflexivity.
  - intros H. discriminate H.
  - intros l H. discriminate H.
Defined.

(** The four sources outside the region. *)
Lemma oneoff_survey_outside_region_witness :
  exists (self : SurveyPopulation false) (r : Rates),
    SurveyPopulation_init Examples.scale_vol Examples.keep_frbs
      Examples.exact_length (APopulation Examples.far_pop)
      Examples.toy_survey false false true Examples.toy_rng = Ok self
    /\ snr (frbs self) = []
    /\ source_rate self = Examples.scale_vol r
    /\ out r == 4 /\ det r == 0 /\ f_area r == 1.
Proof.
  destruct (@oneoff_survey_outside_region Examples.scale_vol
              Examples.keep_frbs Examples.exact_length Examples.far_pop
              Examples.toy_survey false false true Examples.toy_rng 4)
    as (self & r & H1 & H2 & H3 & _ & H5 & H6 & _ & _ & H9).
  - exact far_frbs_rows.
  - reflexivity.
  - repeat constructor.
  - intros _. exact Q_nonzero_1.
  - intros _. exact Q_nonzero_1.
  - exists self, r. split; [exact H1|]. split; [exact H2|].
    split; [exact H3|]. split; [exact H5|]. split; [exact H6|].
    exact (H9 eq_refl).
Defined.

(** The four one-off sources with a day count of zero. *)
Lemma oneoff_rates_need_days_witness :
  SurveyPopulation_init Examples.scale_vol Examples.keep_frbs
    Examples.exact_length (APopulation Examples.still_pop)
    Examples.toy_survey false false true Examples.toy_rng
  = Raise ZeroDivisionError.
Proof.
  apply (@oneoff_rates_need_days Examples.scale_vol Examples.keep_frbs
           Examples.exact_length Examples.still_pop Examples.toy_survey
           false false Examples.toy_rng 4).
  - exact oneoff_frbs_rows.
  - reflexivity.
Defined.

(** ** Reads after writes in 2-D arrays *)

Lemma get2_scatter2_out :
  forall (A : Type) (d : A) (ix : list (nat * nat)) (vals : list A)
         (m : matrix A) rc,
    ~ In rc ix -> get2 d (scatter2 m ix vals) rc = get2 d m rc.
Proof.
  induction ix as [|rc0 ix IH]; intros [|v vals] m rc Hn; simpl; auto.
  rewrite IH by (intros H; apply Hn; now right).
  apply get2_set2_other. intros E. apply Hn. now left.
Qed.

Lemma get2_scatter2_in :
  forall (A : Type) (d : A) (f : nat * nat -> A) (ix : list (nat * nat))
         (m : matrix A) rc,
    NoDup ix -> Forall (in_shape (shape m)) ix -> In rc ix ->
    get2 d (scatter2 m ix (map f ix)) rc = f rc.
Proof.
  induction ix as [|rc0 ix IH]; intros m rc Hnd Hsh Hin; [contradiction|].
  apply NoDup_cons_iff in Hnd. destruct Hnd as [Hn0 Hnd].
  apply Forall_cons_iff in Hsh. destruct Hsh as [Hs0 Hsh].
  cbn [map scatter2]. destruct Hin as [<-|Hin].
  - rewrite get2_scatter2_out by exact Hn0. now apply get2_set2_same.
  - apply IH; auto. now rewrite shape_set2.
Qed.

Lemma get2_scatter2_const_out :
  forall (A : Type) (d v : A) (ix : list (nat * nat)) (m : matrix A) rc,
    ~ In rc ix -> get2 d (scatter2_const m ix v) rc = get2 d m rc.
Proof.
  unfold scatter2_const.
  induction ix as [|rc0 ix IH]; intros m rc Hn; simpl; auto.
  rewrite IH by (intros H; apply Hn; now right).
  apply get2_set2_other. intros E. apply Hn. now left.
Qed.

Lemma get2_scatter2_const_in :
  forall (A : Type) (d v : A) (ix : list (nat * nat)) (m : matrix A) rc,
    Forall (in_shape (shape m)) ix -> In rc ix ->
    get2 d (scatter2_const m ix v) rc = v.
Proof.
  unfold scatter2_const.
  induction ix as [|rc0 ix IH]; intros m rc Hsh Hin; [contradiction|].
  apply Forall_cons_iff in Hsh. destruct Hsh as [Hs0 Hsh].
  cbn [fold_left].
  destruct (in_dec (fun a b : nat * nat =>
                      ltac:(decide equality; apply Nat.eq_dec)) rc ix)
    as [Hi|Hni].
  - apply IH; auto. now rewrite shape_set2.
  - destruct Hin as [<-|Hin]; [|contradiction].
    pose proof (@get2_scatter2_const_out A d v ix (set2 m rc0 v) rc0 Hni) as E.
    unfold scatter2_const in E. rewrite E. now apply get2_set2_same.
Qed.

Lemma map2_map_same :
  forall (A B C D : Type) (f : B -> C -> D) (a : A -> B) (b : A -> C)
         (l : list A),
    map2 f (map a l) (map b l) = map (fun x => f (a x) (b x)) l.
Proof.
  induction l as [|x l IH]; simpl; [reflexivity|]. now rewrite IH.
Qed.

Lemma map3_map_same :
  forall (A B C D E : Type) (f : B -> C -> D -> E) (a : A -> B) (b : A -> C)
         (c : A -> D) (l : list A),
    map3 f (map a l) (map b l) (map c l)
    = map (fun x => f (a x) (b x) (c x)) l.
Proof.
  intros. unfold map3.
  induction l as [|x l IH]; simpl; [reflexivity|]. now rewrite IH.
Qed.

(** ** The runs of a sorted index array *)

Lemma np_unique_head :
  forall y t,
    StronglySorted le (y :: t) ->
    exists rest,
      np_unique (y :: t) = y :: rest
      /\ Forall (fun v => (y < v)%nat) rest
      /\ (forall v, In v rest -> In v t).
Proof.
  intros y t Hs. apply StronglySorted_inv in Hs. destruct Hs as [_ Hy].
  change (np_unique (y :: t)) with (insert_unique y (np_unique t)).
  pose proof (np_unique_sorted t) as Hu.
  assert (Hge : Forall (fun v => (y <= v)%nat) (np_unique t)).
  { apply Forall_forall. intros v Hv. rewrite In_np_unique in Hv.
    rewrite Forall_forall in Hy. now apply Hy. }
  assert (Hin : forall v, In v (np_unique t) -> In v t)
    by (intros v Hv; now rewrite In_np_unique in Hv).
  destruct (np_unique t) as [|z r]; simpl.
  - exists []. split; [reflexivity|]. split; [constructor|].
    intros v Hv. contradiction.
  - apply Forall_cons_iff in Hge. destruct Hge as [Hz Hr].
    apply StronglySorted_inv in Hu. destruct Hu as [_ Hzr].
    destruct (y <? z)%nat eqn:E1.
    + apply Nat.ltb_lt in E1. exists (z :: r). split; [reflexivity|].
      split; [|exact Hin].
      constructor; [exact E1|].
      rewrite Forall_forall in *. intros v Hv. specialize (Hzr _ Hv). lia.
    + apply Nat.ltb_ge in E1. assert (y = z) by lia. subst z.
      rewrite Nat.eqb_refl. exists r. split; [reflexivity|].
      split; [exact Hzr|]. intros v Hv. apply Hin. now right.
Qed.

Lemma count_occ_not_In_zero :
  forall (l : list nat) x, ~ In x l -> count_occ Nat.eq_dec l x = 0%nat.
Proof. intros l x H. now apply count_occ_not_In. Qed.

Lemma flat_map_ext_in_list :
  forall (A B : Type) (f g : A -> list B) (l : list A),
    (forall x, In x l -> f x = g x) -> flat_map f l = flat_map g l.
Proof.
  induction l as [|x l IH]; intros H; simpl; [reflexivity|].
  rewrite (H x (or_introl eq_refl)), IH; [reflexivity|].
  intros y Hy. apply H. now right.
Qed.

(** A sorted array is the concatenation of the runs of its distinct
    values: [np.repeat(unique, counts)] gives it back. *)
Lemma np_repeat_unique_counts :
  forall l : list nat,
    StronglySorted le l ->
    np_repeat (np_unique l)
      (map (fun x => count_occ Nat.eq_dec l x) (np_unique l)) = l.
Proof.
  intros l Hs. rewrite np_repeat_flat_map.
  induction l as [|x l IH]; [reflexivity|].
  pose proof (StronglySorted_inv Hs) as [Hs' Hx].
  specialize (IH Hs').
  destruct l as [|y t].
  - cbn [np_unique fold_right insert_unique flat_map].
    rewrite count_occ_cons_eq by reflexivity. reflexivity.
  - destruct (np_unique_head Hs') as (rest & Eu & Hrest & Hsub).
    apply Forall_cons_iff in Hx. destruct Hx as [Hxy Hxt].
    change (np_unique (x :: y :: t))
      with (insert_unique x (np_unique (y :: t))).
    rewrite Eu in IH |- *. cbn [insert_unique].
    assert (Hrest' : forall v, In v rest ->
               count_occ Nat.eq_dec (x :: y :: t) v
               = count_occ Nat.eq_dec (y :: t) v).
    { intros v Hv. rewrite Forall_forall in Hrest. specialize (Hrest _ Hv).
      apply count_occ_cons_neq. lia. }
    assert (Etail : flat_map
                      (fun u => repeat u (count_occ Nat.eq_dec (x :: y :: t) u))
                      rest
                    = flat_map
                        (fun u => repeat u (count_occ Nat.eq_dec (y :: t) u))
                        rest).
    { apply flat_map_ext_in_list. intros v Hv. now rewrite Hrest'. }
    cbn [flat_map] in IH.
    destruct (x <? y)%nat eqn:E1.
    + apply Nat.ltb_lt in E1.
      cbn [flat_map]. rewrite Etail.
      assert (Hx0 : count_occ Nat.eq_dec (x :: y :: t) x = 1%nat).
      { rewrite count_occ_cons_eq by reflexivity.
        rewrite count_occ_not_In_zero; [reflexivity|].
        intros [E|Hin]; [lia|].
        pose proof (StronglySorted_inv Hs') as [_ Hyt].
        rewrite Forall_forall in Hyt. specialize (Hyt _ Hin). lia. }
      rewrite Hx0.
      rewrite (@count_occ_cons_neq _ Nat.eq_dec (y :: t) x y) by lia.
      rewrite IH. reflexivity.
    + apply Nat.ltb_ge in E1. assert (x = y) by lia. subst y.
      rewrite Nat.eqb_refl. cbn [flat_map]. rewrite Etail.
      rewrite (@count_occ_cons_eq _ Nat.eq_dec (x :: t) x x) by reflexivity.
      cbn [repeat app]. now rewrite IH.
Qed.

Lemma np_repeat_map :
  forall (A B : Type) (g : A -> B) (vals : list A) (counts : list nat),
    np_repeat (map g vals) counts = map g (np_repeat vals counts).
Proof.
  induction vals as [|v vals IH]; intros [|c counts]; simpl; auto.
  now rewrite map_app, map_repeat, IH.
Qed.

Lemma sorted_bmask :
  forall (l : list nat) mask,
    StronglySorted le l -> StronglySorted le (bmask l mask).
Proof.
  induction l as [|x l IH]; intros [|b mask] H; simpl; try constructor.
  apply StronglySorted_inv in H. destruct H as [Hs Hx].
  destruct b; [|now apply IH].
  constructor; [now apply IH|]. now apply Forall_bmask.
Qed.

Lemma sorted_const_app :
  forall (s : nat) (l1 l2 : list nat),
    Forall (fun v => v = s) l1 ->
    StronglySorted le l2 -> Forall (le s) l2 ->
    StronglySorted le (l1 ++ l2).
Proof.
  induction l1 as [|x l1 IH]; intros l2 H1 H2 H3; [exact H2|].
  apply Forall_cons_iff in H1. destruct H1 as [-> H1].
  cbn [app]. constructor; [now apply IH|].
  apply Forall_app. split; [|exact H3].
  apply Forall_forall. intros v Hv.
  rewrite Forall_forall in H1. rewrite (H1 _ Hv). lia.
Qed.

Lemma sorted_rows_from :
  forall (f : nat -> list nat) n s,
    StronglySorted le
      (map fst (flat_map (fun r => map (pair r) (f r)) (seq s n)))
    /\ Forall (le s)
         (map fst (flat_map (fun r => map (pair r) (f r)) (seq s n))).
Proof.
  induction n as [|n IH]; intros s; [split; constructor|].
  cbn [seq flat_map]. rewrite map_app, map_map. cbn [fst].
  destruct (IH (S s)) as [Hs Hge].
  assert (Hall : Forall (fun v => v = s) (map (fun _ : nat => s) (f s))).
  { apply Forall_forall. intros v Hv. apply in_map_iff in Hv.
    now destruct Hv as (_ & <- & _). }
  assert (Hge' : Forall (le s)
                   (map fst (flat_map (fun r => map (pair r) (f r))
                               (seq (S s) n)))).
  { rewrite Forall_forall in *. intros v Hv. specialize (Hge _ Hv). lia. }
  split.
  - now apply sorted_const_app with (s := s).
  - apply Forall_app. split; [|exact Hge'].
    rewrite Forall_forall in *. intros v Hv. rewrite (Hall _ Hv). lia.
Qed.

Lemma sorted_rows_window_hits :
  forall a lo hi, StronglySorted le (map fst (window_hits a lo hi)).
Proof.
  intros a lo hi. unfold window_hits.
  apply (sorted_rows_from (fun r => row_window (nth r a []) lo hi)).
Qed.

Lemma window_hits_in_shape :
  forall a lo hi, Forall (in_shape (shape a)) (window_hits a lo hi).
Proof.
  intros a lo hi. apply Forall_forall. intros [r c] H.
  apply in_window_hits in H. unfold in_shape. cbn [fst snd].
  rewrite nth_shape.
  pose proof (searchsorted_le_length (nth r a []) hi). lia.
Qed.

(** ** The beam and the bursts of a window *)

Lemma beam_in_window_rows :
  forall sv fr ra_pt dec_pt lst (hits : list (nat * nat)),
    beam_in_window sv fr ra_pt dec_pt lst (map fst hits)
    = map (fun rc => beam_of sv fr ra_pt dec_pt lst (fst rc)) hits.
Proof.
  intros. unfold beam_in_window, gather, beam_of.
  rewrite !map_map. apply map2_map_same.
Qed.

Lemma in_beam_filter :
  forall sv fr ra_pt dec_pt lst t_min t_max,
    in_beam sv fr ra_pt dec_pt lst t_min t_max
    = filter (fun rc => negb (isnan (beam_of sv fr ra_pt dec_pt lst (fst rc))))
             (in_window fr t_min t_max).
Proof.
  intros. unfold in_beam, beam_mask.
  rewrite beam_in_window_rows, map_map. apply bmask_map_filter.
Qed.

Lemma off_beam_filter :
  forall sv fr ra_pt dec_pt lst t_min t_max,
    off_beam sv fr ra_pt dec_pt lst t_min t_max
    = filter (fun rc => isnan (beam_of sv fr ra_pt dec_pt lst (fst rc)))
             (in_window fr t_min t_max).
Proof.
  intros. unfold off_beam, beam_mask.
  rewrite beam_in_window_rows, !map_map.
  rewrite (bmask_map_filter
             (fun rc => negb (negb (isnan (beam_of sv fr ra_pt dec_pt lst
                                             (fst rc)))))).
  apply filter_ext. intros rc. apply negb_involutive.
Qed.

(** The frame one call of [_iter_pointings] leaves, without
    scintillation. *)
Lemma iter_pointings_frame :
  forall sv (self self' : SurveyPopulation true) ra_pt dec_pt lst t_min t_max
         xy,
    iter_pointings sv self ra_pt dec_pt lst t_min t_max = Ok (self', xy) ->
    scin self = false ->
    let tp := in_beam sv (frbs self) ra_pt dec_pt lst t_min t_max in
    frbs self'
    = measure_window sv (frbs self) tp
        (off_beam sv (frbs self) ra_pt dec_pt lst t_min t_max)
        (map (fun rc => beam_of sv (frbs self) ra_pt dec_pt lst (fst rc)) tp)
        (np_unique (map fst tp))
        (map (fun x => count_occ Nat.eq_dec (map fst tp) x)
           (np_unique (map fst tp))).
Proof.
  intros sv self self' ra_pt dec_pt lst t_min t_max xy H Hscin.
  unfold iter_pointings in H.
  assert (Ha : time (frbs self) <> []).
  { intros E. rewrite E in H. discriminate H. }
  cbv zeta. unfold in_beam, off_beam, beam_mask.
  rewrite (in_window_hits_eq _ _ _ Ha).
  rewrite (fast_where_hits _ _ Ha) in H. cbn [bind fst snd] in H.
  set (hits := window_hits (time (frbs self)) t_min t_max) in *.
  rewrite beam_in_window_rows in H |- *.
  set (int_pro := map (fun rc => beam_of sv (frbs self) ra_pt dec_pt lst
                                    (fst rc)) hits) in *.
  set (p_ix := map (fun x => negb (isnan x)) int_pro) in *.
  unfold np_unique_counts in H. cbv zeta in H.
  rewrite !bmask_map, !combine_fst_snd, !length_map in H.
  set (tp := bmask hits p_ix) in *.
  rewrite Hscin in H. cbn [bind] in H.
  injection H as <- _.
  cbn [frbs set_frbs set_srcs_not_bright set_srcs_not_in_pointing
         set_burst_rate].
  unfold int_pro at 1. rewrite bmask_map. reflexivity.
Qed.

(** ** The cells one pointing writes *)

(** The three arrays [_iter_pointings] writes, as functions of the index
    pairs: lines 295-296, 311 and 336. *)
Lemma measure_window_arrays :
  forall sv (fr : Frbs true) (ix nix : list (nat * nat))
         (B : nat * nat -> float),
    StronglySorted le (map fst ix) ->
    let fr' :=
      measure_window sv fr ix nix (map B ix) (np_unique (map fst ix))
        (map (fun x => count_occ Nat.eq_dec (map fst ix) x)
           (np_unique (map fst ix))) in
    let S2 :=
      scatter2_const
        (scatter2 (s_peak fr) ix
           (map (fun rc => fmul (get2 NaN (s_peak fr) rc) (B rc)) ix))
        nix NaN in
    s_peak fr' = S2
    /\ fluence fr'
       = scatter2 (fluence fr) ix
           (map (fun rc => calc_fluence sv (get2 NaN S2 rc)
                             (get2 NaN (w_eff fr) rc)) ix)
    /\ snr fr'
       = scatter2 (snr fr) ix
           (map (fun rc => calc_snr sv (get2 NaN S2 rc)
                             (get2 NaN (w_arr fr) rc)
                             (nth (fst rc) (T_sys fr) NaN)) ix)
    /\ w_eff fr' = w_eff fr /\ w_arr fr' = w_arr fr
    /\ T_sys fr' = T_sys fr /\ time fr' = time fr.
Proof.
  intros sv fr ix nix B Hs. cbv zeta. unfold measure_window.
  cbn [s_peak w_eff w_arr T_sys time fluence snr set_s_peak set_fluence
         set_snr].
  unfold gather2, gather.
  change (burst_t true) with (list float).
  rewrite np_repeat_map, (np_repeat_unique_counts Hs), map_map.
  rewrite !map2_map_same, map3_map_same.
  repeat split; reflexivity.
Qed.

Lemma measure_window_cells :
  forall sv (fr : Frbs true) (ix nix : list (nat * nat))
         (B : nat * nat -> float),
    burst_shaped fr ->
    StronglySorted le (map fst ix) -> NoDup ix ->
    Forall (in_shape (shape (time fr))) ix ->
    Forall (in_shape (shape (time fr))) nix ->
    (forall rc, In rc ix -> ~ In rc nix) ->
    let fr' :=
      measure_window sv fr ix nix (map B ix) (np_unique (map fst ix))
        (map (fun x => count_occ Nat.eq_dec (map fst ix) x)
           (np_unique (map fst ix))) in
    (forall rc, In rc ix ->
       get2 NaN (s_peak fr') rc = fmul (get2 NaN (s_peak fr) rc) (B rc)
       /\ get2 NaN (fluence fr') rc
          = calc_fluence sv (get2 NaN (s_peak fr') rc)
              (get2 NaN (w_eff fr) rc)
       /\ get2 NaN (snr fr') rc
          = calc_snr sv (get2 NaN (s_peak fr') rc) (get2 NaN (w_arr fr) rc)
              (nth (fst rc) (T_sys fr) NaN))
    /\ (forall rc, In rc nix ->
          get2 NaN (s_peak fr') rc = NaN
          /\ get2 NaN (fluence fr') rc = get2 NaN (fluence fr) rc
          /\ get2 NaN (snr fr') rc = get2 NaN (snr fr) rc)
    /\ (forall rc, ~ In rc ix -> ~ In rc nix ->
          get2 NaN (s_peak fr') rc = get2 NaN (s_peak fr) rc
          /\ get2 NaN (fluence fr') rc = get2 NaN (fluence fr) rc
          /\ get2 NaN (snr fr') rc = get2 NaN (snr fr) rc).
Proof.
  intros sv fr ix nix B Hsh Hs Hnd Hix Hnix Hdis.
  destruct (@measure_window_arrays sv fr ix nix B Hs)
    as (Es & Ef & En & _).
  cbv zeta in Es, Ef, En |- *.
  set (fr' := measure_window _ _ _ _ _ _ _) in *. clearbody fr'.
  rewrite Es, Ef, En. clear Es Ef En.
  set (S1 := scatter2 (s_peak fr) ix _).
  assert (HS1 : shape S1 = shape (time fr)).
  { unfold S1. rewrite shape_scatter2. apply (shaped_s_peak Hsh). }
  assert (Hix_s : Forall (in_shape (shape (s_peak fr))) ix)
    by (now rewrite (shaped_s_peak Hsh)).
  assert (Hix_f : Forall (in_shape (shape (fluence fr))) ix)
    by (now rewrite (shaped_fluence Hsh)).
  assert (Hix_n : Forall (in_shape (shape (snr fr))) ix)
    by (now rewrite (shaped_snr Hsh)).
  assert (Hnix_s : Forall (in_shape (shape S1)) nix) by (now rewrite HS1).
  split; [|split].
  - intros rc Hin.
    assert (E1 : get2 NaN (scatter2_const S1 nix NaN) rc
                 = fmul (get2 NaN (s_peak fr) rc) (B rc)).
    { rewrite get2_scatter2_const_out by (now apply Hdis).
      unfold S1.
      exact (@get2_scatter2_in float NaN
               (fun rc => fmul (get2 NaN (s_peak fr) rc) (B rc))
               ix (s_peak fr) rc Hnd Hix_s Hin). }
    split; [exact E1|]. split.
    + exact (@get2_scatter2_in float NaN
               (fun rc => calc_fluence sv
                            (get2 NaN (scatter2_const S1 nix NaN) rc)
                            (get2 NaN (w_eff fr) rc))
               ix (fluence fr) rc Hnd Hix_f Hin).
    + exact (@get2_scatter2_in float NaN
               (fun rc => calc_snr sv
                            (get2 NaN (scatter2_const S1 nix NaN) rc)
                            (get2 NaN (w_arr fr) rc)
                            (nth (fst rc) (T_sys fr) NaN))
               ix (snr fr) rc Hnd Hix_n Hin).
  - intros rc Hin.
    assert (Hni : ~ In rc ix) by (intros H; exact (Hdis _ H Hin)).
    split; [exact (@get2_scatter2_const_in float NaN NaN nix S1 rc Hnix_s Hin)|].
    split; apply get2_scatter2_out; exact Hni.
  - intros rc Hni Hnn.
    split.
    + rewrite get2_scatter2_const_out by exact Hnn.
      unfold S1. apply get2_scatter2_out; exact Hni.
    + split; apply get2_scatter2_out; exact Hni.
Qed.

(** X11: what one pointing writes, cell by cell (without scintillation,
    on a frame whose per-burst columns have the shape of the burst
    times).  For a burst in the time window whose source is in the beam:
    its peak flux is multiplied by the beam intensity of its source, its
    fluence is [calc_fluence] of that flux and its effective width, and
    its SNR is [calc_snr] of that flux, its arrival width and the system
    temperature of its own source.  For a burst in the window whose
    source is outside the beam the peak flux becomes NaN, and the fluence
    and the SNR are left alone.  No cell outside the window is written,
    and the widths, the temperatures and the burst times are unchanged. *)
Theorem iter_pointings_writes_window_cells :
  forall (sv : Survey) (self self' : SurveyPopulation true)
         (ra_pt dec_pt lst t_min t_max : float) (xy : list nat * list nat),
    iter_pointings sv self ra_pt dec_pt lst t_min t_max = Ok (self', xy) ->
    scin self = false ->
    burst_shaped (frbs self) ->
    (forall rc,
        In rc (in_window (frbs self) t_min t_max) ->
        isnan (beam_of sv (frbs self) ra_pt dec_pt lst (fst rc)) = false ->
        get2 NaN (s_peak (frbs self')) rc
        = fmul (get2 NaN (s_peak (frbs self)) rc)
               (beam_of sv (frbs self) ra_pt dec_pt lst (fst rc))
        /\ get2 NaN (fluence (frbs self')) rc
           = calc_fluence sv (get2 NaN (s_peak (frbs self')) rc)
               (get2 NaN (w_eff (frbs self)) rc)
        /\ get2 NaN (snr (frbs self')) rc
           = calc_snr sv (get2 NaN (s_peak (frbs self')) rc)
               (get2 NaN (w_arr (frbs self)) rc)
               (nth (fst rc) (T_sys (frbs self)) NaN))
    /\ (forall rc,
           In rc (in_window (frbs self) t_min t_max) ->
           isnan (beam_of sv (frbs self) ra_pt dec_pt lst (fst rc)) = true ->
           get2 NaN (s_peak (frbs self')) rc = NaN
           /\ get2 NaN (fluence (frbs self')) rc
              = get2 NaN (fluence (frbs self)) rc
           /\ get2 NaN (snr (frbs self')) rc = get2 NaN (snr (frbs self)) rc)
    /\ (forall rc,
           ~ In rc (in_window (frbs self) t_min t_max) ->
           get2 NaN (s_peak (frbs self')) rc
           = get2 NaN (s_peak (frbs self)) rc
           /\ get2 NaN (fluence (frbs self')) rc
              = get2 NaN (fluence (frbs self)) rc
           /\ get2 NaN (snr (frbs self')) rc = get2 NaN (snr (frbs self)) rc)
    /\ w_eff (frbs self') = w_eff (frbs self)
    /\ w_arr (frbs self') = w_arr (frbs self)
    /\ T_sys (frbs self') = T_sys (frbs self)
    /\ time (frbs self') = time (frbs self).
Proof.
  intros sv self self' ra_pt dec_pt lst t_min t_max xy H Hscin Hsh.
  pose proof (iter_pointings_frame _ _ _ _ _ _ _ H Hscin) as Hfr.
  cbv zeta in Hfr.
  assert (Ha : time (frbs self) <> []).
  { intros E. unfold iter_pointings in H. rewrite E in H. discriminate H. }
  pose proof (in_beam_filter sv (frbs self) ra_pt dec_pt lst t_min t_max)
    as Etp.
  pose proof (off_beam_filter sv (frbs self) ra_pt dec_pt lst t_min t_max)
    as Etnp.
  pose proof (in_window_hits_eq (frbs self) t_min t_max Ha) as Ew.
  set (W := in_window (frbs self) t_min t_max) in *.
  set (tp := in_beam sv (frbs self) ra_pt dec_pt lst t_min t_max) in *.
  set (tnp := off_beam sv (frbs self) ra_pt dec_pt lst t_min t_max) in *.
  set (B := fun rc : nat * nat =>
              beam_of sv (frbs self) ra_pt dec_pt lst (fst rc)) in *.
  assert (HW_nd : NoDup W) by (rewrite Ew; apply NoDup_window_hits).
  assert (HW_sh : Forall (in_shape (shape (time (frbs self)))) W)
    by (rewrite Ew; apply window_hits_in_shape).
  assert (HW_s : StronglySorted le (map fst W))
    by (rewrite Ew; apply sorted_rows_window_hits).
  assert (Htp_in : forall rc, In rc tp <-> In rc W /\ isnan (B rc) = false).
  { intros rc. rewrite Etp, filter_In, negb_true_iff. reflexivity. }
  assert (Htnp_in : forall rc, In rc tnp <-> In rc W /\ isnan (B rc) = true).
  { intros rc. rewrite Etnp, filter_In. reflexivity. }
  assert (Hs : StronglySorted le (map fst tp)).
  { unfold tp, in_beam. rewrite <- bmask_map. now apply sorted_bmask. }
  assert (Hnd : NoDup tp) by (rewrite Etp; now apply NoDup_filter).
  assert (Hix : Forall (in_shape (shape (time (frbs self)))) tp).
  { apply Forall_forall. intros rc Hin. apply Htp_in in Hin.
    rewrite Forall_forall in HW_sh. now apply HW_sh. }
  assert (Hnix : Forall (in_shape (shape (time (frbs self)))) tnp).
  { apply Forall_forall. intros rc Hin. apply Htnp_in in Hin.
    rewrite Forall_forall in HW_sh. now apply HW_sh. }
  assert (Hdis : forall rc, In rc tp -> ~ In rc tnp).
  { intros rc H1 H2. apply Htp_in in H1. apply Htnp_in in H2.
    destruct H1 as [_ H1]. destruct H2 as [_ H2]. congruence. }
  destruct (@measure_window_cells sv (frbs self) tp tnp B Hsh Hs Hnd Hix Hnix
              Hdis) as (C1 & C2 & C3).
  destruct (@measure_window_arrays sv (frbs self) tp tnp B Hs)
    as (_ & _ & _ & A1 & A2 & A3 & A4).
  cbv zeta in C1, C2, C3, A1, A2, A3, A4.
  rewrite <- Hfr in C1, C2, C3, A1, A2, A3, A4.
  split; [|split; [|split]].
  - intros rc Hin Hb. apply C1. apply Htp_in. now split.
  - intros rc Hin Hb. apply C2. apply Htnp_in. now split.
  - intros rc Hn. apply C3.
    + intros Hc. apply Htp_in in Hc. tauto.
    + intros Hc. apply Htnp_in in Hc. tauto.
  - repeat split; assumption.
Qed.

(** The first pointing of the example: the burst at 0.5 days is in the
    window and in the beam, so its cells are recomputed; the burst at 1.5
    days is outside the window, so its cells are left alone. *)
Lemma iter_pointings_writes_window_cells_witness :
  exists (self' : SurveyPopulation true) (xy : list nat * list nat),
    iter_pointings Examples.toy_survey Examples.ready (Fin 0) (Fin 0) (Fin 0)
      (Fin 0) (Fin 1) = Ok (self', xy)
    /\ get2 NaN (s_peak (frbs self')) (0, 0)%nat
       = fmul (get2 NaN (s_peak (frbs Examples.ready)) (0, 0)%nat)
              (beam_of Examples.toy_survey (frbs Examples.ready) (Fin 0) (Fin 0) (Fin 0) 0)
    /\ get2 NaN (snr (frbs self')) (0, 0)%nat
       = calc_snr Examples.toy_survey (get2 NaN (s_peak (frbs self')) (0, 0)%nat)
           (get2 NaN (w_arr (frbs Examples.ready)) (0, 0)%nat)
           (nth 0 (T_sys (frbs Examples.ready)) NaN)
    /\ get2 NaN (snr (frbs self')) (0, 1)%nat
       = get2 NaN (snr (frbs Examples.ready)) (0, 1)%nat.
Proof.
  assert (H : { p | iter_pointings Examples.toy_survey Examples.ready (Fin 0) (Fin 0)
                      (Fin 0) (Fin 0) (Fin 1) = Ok p }).
  { eexists. vm_compute. reflexivity. }
  destruct H as [[self' xy] H].
  exists self', xy. split; [exact H|].
  destruct (@iter_pointings_writes_window_cells Examples.toy_survey Examples.ready self'
              (Fin 0) (Fin 0) (Fin 0) (Fin 0) (Fin 1) xy H)
    as (C1 & _ & C3 & _).
  - reflexivity.
  - constructor; vm_compute; reflexivity.
  - destruct (C1 (0, 0)%nat) as (E1 & _ & E3).
    + vm_compute. left. reflexivity.
    + vm_compute. reflexivity.
    + destruct (C3 (0, 1)%nat) as (_ & _ & E4).
      * vm_compute. intros [E|[]]. discriminate E.
      * split; [exact E1|]. split; [exact E3|exact E4].
Defined.
